(** * Clinic backend: validation and business rules of the route handlers

    A shallow embedding of the Flask handlers under [routes/]
    ([appointments.py], [patients.py], [procedures.py], [users.py]) and the
    properties of their validation layer.

    The handlers are Python functions over JSON payloads and an ORM session.
    Here a handler is a pure function from the committed database, the actor
    of the request and the payload to an [outcome]: the response, and the new
    database when the handler reached [db.session.commit()].  Prices are
    IEEE binary64 numbers, as Python floats are. *)

From Stdlib Require Import ZArith Ascii String List Bool Lia Sorted.
From Stdlib Require Import Floats.PrimFloat Floats.SpecFloat Floats.FloatOps.
From stdpp Require Import base option gmap strings list.

#[local] Set Warnings "-register-all".

#[local] Open Scope Z_scope.
#[local] Open Scope string_scope.

(** ** Python values and builtins *)

Module Py.

(** A decoded JSON value, as [request.get_json()] hands it to a handler. *)
Inductive value : Type :=
| VNone
| VBool (b : bool)
| VInt (z : Z)
| VFloat (f : float)
| VStr (s : string)
| VList (l : list value)
| VDict (d : list (string * value)).

(** The exceptions the handlers can meet. *)
Inductive exn : Type :=
| ValueError
| TypeError
| OverflowError
| AttributeError.

(** The JSON object of a request body ([request.get_json() or {}]). *)
Abbreviation payload := (gmap string value).

(** [data.get(k)]: the value, or [None] when the key is missing. *)
Definition get (data : payload) (k : string) : value :=
  default VNone (data !! k).

(** [k in data]. *)
Definition has_key (data : payload) (k : string) : bool :=
  bool_decide (is_Some (data !! k)).

(** [data.get(k, d)]. *)
Definition get_default (data : payload) (k : string) (d : value) : value :=
  default d (data !! k).

(** [v is None]. *)
Definition is_none (v : value) : bool :=
  match v with VNone => true | _ => false end.

Definition float_is_zero (f : float) : bool := PrimFloat.eqb f 0%float.

(** [bool(v)]: Python truthiness. *)
Definition truthy (v : value) : bool :=
  match v with
  | VNone => false
  | VBool b => b
  | VInt z => negb (Z.eqb z 0)
  | VFloat f => negb (float_is_zero f)
  | VStr s => negb (String.eqb s "")
  | VList l => match l with [] => false | _ => true end
  | VDict d => match d with [] => false | _ => true end
  end.

(** [str.isspace] on one character, for code points below 256. *)
Definition isspace (c : ascii) : bool :=
  let n := Z.of_nat (nat_of_ascii c) in
  (Z.leb 9 n && Z.leb n 13) || (Z.leb 28 n && Z.leb n 32)
  || Z.eqb n 133 || Z.eqb n 160.

Fixpoint lstrip (s : string) : string :=
  match s with
  | EmptyString => EmptyString
  | String c r => if isspace c then lstrip r else s
  end.

Fixpoint rstrip (s : string) : string :=
  match s with
  | EmptyString => EmptyString
  | String c r =>
      match rstrip r with
      | EmptyString => if isspace c then EmptyString else String c EmptyString
      | r' => String c r'
      end
  end.

(** [s.strip()]. *)
Definition strip (s : string) : string := rstrip (lstrip s).

(** [is_valid_string], defined identically in every route file:
    [isinstance(value, str) and bool(value.strip())]. *)
Definition is_valid_string (v : value) : bool :=
  match v with
  | VStr s => negb (String.eqb (strip s) "")
  | _ => false
  end.

(** [v == s] for a string literal [s]. *)
Definition eq_str (v : value) (s : string) : bool :=
  match v with VStr t => String.eqb t s | _ => false end.

(** [v in l] for a list [l] of string literals. *)
Definition in_strs (v : value) (l : list string) : bool :=
  existsb (eq_str v) l.

(** [v == True]: Python equates [True], [1] and [1.0]. *)
Definition eq_True (v : value) : bool :=
  match v with
  | VBool b => b
  | VInt z => Z.eqb z 1
  | VFloat f => PrimFloat.eqb f 1%float
  | _ => false
  end.

(** *** Numbers *)

(** The binary64 number nearest to an integer (ties to even); infinite
    when the integer is out of range. *)
Definition float_of_Z (z : Z) : float :=
  SF2Prim (binary_normalize prec emax z 0 false).

Definition is_nan (f : float) : bool := negb (PrimFloat.eqb f f).

Definition is_inf (f : float) : bool :=
  PrimFloat.eqb f infinity || PrimFloat.eqb f neg_infinity.

(** The integer part of a finite binary64 number (truncation toward 0). *)
Definition Z_of_float (f : float) : exn + Z :=
  match Prim2SF f with
  | S754_zero _ => inr 0
  | S754_finite s m e =>
      let a := if Z.leb 0 e then Z.pos m * 2 ^ e else Z.pos m / 2 ^ (- e) in
      inr (if s then - a else a)
  | S754_infinity _ => inl OverflowError
  | S754_nan => inl ValueError
  end.

(** A calendar date, and a timestamp without time zone: what a [DateTime]
    column holds. *)
Record date : Type := Date { year : Z; month : Z; day : Z }.

Record datetime : Type := DateTime {
  dt_date : date;
  hour : Z;
  minute : Z;
  second : Z;
  microsecond : Z
}.

(** A [datetime] object: its fields and, when it is aware, its UTC offset
    in microseconds. *)
Record moment : Type := Moment {
  local : datetime;
  utcoffset : option Z
}.

(** What the route files consume from outside themselves: Python's own
    parsers of numeric literals and of timestamps, the password hash of the
    User model and the persistence layer's binding of a value that is not
    of the column's type.  The handlers are stated for every such
    collaborator. *)
Class Collaborators : Type := {
  (** [float(s)] for a [str]; [None] is [ValueError]. *)
  float_of_str : string -> option float;
  (** [int(s)] for a [str]; [None] is [ValueError]. *)
  int_of_str : string -> option Z;
  (** what [User.set_password] stores for a password *)
  password_hash : string -> string;
  (** [User.check_password]: whether a password matches a stored hash *)
  check_password : string -> string -> bool;
  (** the primary key [Model.query.get] searches for when it is given a
      value that is not an integer *)
  key_of_value : value -> option Z;
  (** the text a text column takes from a value that is not a string *)
  text_of_value : value -> string;
  (** [datetime.fromisoformat(s)] on a text that is not in the format all
      interpreters share (see [isoformat_common]): a UTC offset, the
      further ISO 8601 forms of Python 3.11 and later; [None] is
      [ValueError] *)
  fromisoformat_other : string -> option moment;
  (** the timestamp a [DateTime] column stores, or compares with, when it
      is given an aware [datetime] with these fields and this offset *)
  column_of_aware : datetime -> Z -> datetime
}.

Section Coercions.
Context `{Collaborators}.

(** [float(v)]. *)
Definition py_float (v : value) : exn + float :=
  match v with
  | VFloat f => inr f
  | VInt z =>
      let f := float_of_Z z in
      if is_inf f then inl OverflowError else inr f
  | VBool b => inr (if b then 1%float else 0%float)
  | VStr s =>
      match float_of_str s with
      | Some f => inr f
      | None => inl ValueError
      end
  | VNone | VList _ | VDict _ => inl TypeError
  end.

(** [int(v)]. *)
Definition py_int (v : value) : exn + Z :=
  match v with
  | VInt z => inr z
  | VBool b => inr (if b then 1 else 0)
  | VFloat f => Z_of_float f
  | VStr s =>
      match int_of_str s with
      | Some z => inr z
      | None => inl ValueError
      end
  | VNone | VList _ | VDict _ => inl TypeError
  end.

(** The key a [query.get(v)] looks up. *)
Definition pk (v : value) : option Z :=
  match v with
  | VInt z => Some z
  | _ => key_of_value v
  end.

(** The text a text column holds once [v] is assigned to it. *)
Definition text (v : value) : string :=
  match v with
  | VStr s => s
  | _ => text_of_value v
  end.
End Coercions.

(** *** Dates and timestamps *)

Definition is_leap (y : Z) : bool :=
  Z.eqb (y mod 4) 0 && (negb (Z.eqb (y mod 100) 0) || Z.eqb (y mod 400) 0).

Definition days_in_month (y m : Z) : Z :=
  if Z.eqb m 2 then (if is_leap y then 29 else 28)
  else if Z.eqb m 4 || Z.eqb m 6 || Z.eqb m 9 || Z.eqb m 11 then 30
  else 31.

Definition days_before_year (y : Z) : Z :=
  let p := y - 1 in p * 365 + p / 4 - p / 100 + p / 400.

(** Days of year [y] before the first day of month [m]. *)
Definition days_before_month (y m : Z) : Z :=
  fold_right Z.add 0
    (map (days_in_month y) (map Z.of_nat (seq 1 (Z.to_nat (m - 1))))).

(** [d.toordinal()]: 1 is 0001-01-01. *)
Definition toordinal (d : date) : Z :=
  days_before_year (year d) + days_before_month (year d) (month d) + day d.

(** [(a - b).days]. *)
Definition days_between (a b : date) : Z := toordinal a - toordinal b.

Definition valid_date (d : date) : bool :=
  Z.leb 1 (year d) && Z.leb (year d) 9999
  && Z.leb 1 (month d) && Z.leb (month d) 12
  && Z.leb 1 (day d) && Z.leb (day d) (days_in_month (year d) (month d)).

Definition valid_time (h mi s : Z) : bool :=
  Z.leb h 23 && Z.leb mi 59 && Z.leb s 59.

Definition digit (c : ascii) : option Z :=
  let n := Z.of_nat (nat_of_ascii c) in
  if Z.leb 48 n && Z.leb n 57 then Some (n - 48) else None.

(** Exactly [n] decimal digits at the head of [s]. *)
Fixpoint digits (n : nat) (s : string) (acc : Z) : option (Z * string) :=
  match n with
  | O => Some (acc, s)
  | S n' =>
      match s with
      | EmptyString => None
      | String c r => d ← digit c; digits n' r (acc * 10 + d)
      end
  end.

(** One given character at the head of [s]. *)
Definition expect (c : ascii) (s : string) : option string :=
  match s with
  | String c' r => if Ascii.eqb c c' then Some r else None
  | EmptyString => None
  end.

(** [YYYY-MM-DD] at the head of [s]. *)
Definition parse_date_part (s : string) : option (date * string) :=
  '(y, s) ← digits 4 s 0;
  s ← expect "-" s;
  '(m, s) ← digits 2 s 0;
  s ← expect "-" s;
  '(d, s) ← digits 2 s 0;
  let r := Date y m d in
  if valid_date r then Some (r, s) else None.

(** [.fff] or [.ffffff] up to the end of [s]. *)
Definition parse_fraction (s : string) : option Z :=
  s ← expect "." s;
  match String.length s with
  | 3%nat => '(f, _) ← digits 3 s 0; Some (f * 1000)
  | 6%nat => '(f, _) ← digits 6 s 0; Some f
  | _ => None
  end.

(** [HH[:MM[:SS[.fff[fff]]]]], the whole of [s]. *)
Definition parse_time_part (s : string) : option (Z * Z * Z * Z) :=
  '(h, s) ← digits 2 s 0;
  match s with
  | EmptyString => Some (h, 0, 0, 0)
  | _ =>
      s ← expect ":" s;
      '(mi, s) ← digits 2 s 0;
      match s with
      | EmptyString => Some (h, mi, 0, 0)
      | _ =>
          s ← expect ":" s;
          '(se, s) ← digits 2 s 0;
          match s with
          | EmptyString => Some (h, mi, se, 0)
          | _ => us ← parse_fraction s; Some (h, mi, se, us)
          end
      end
  end.

(** The timestamps every [datetime.fromisoformat] reads, from Python 3.7
    on, and reads the same:
    [YYYY-MM-DD[*HH[:MM[:SS[.fff[fff]]]]]], [*] being any one character,
    without UTC offset. *)
Definition isoformat_common (s : string) : option datetime :=
  '(d, s) ← parse_date_part s;
  match s with
  | EmptyString => Some (DateTime d 0 0 0 0)
  | String _ t =>
      '(h, mi, se, us) ← parse_time_part t;
      if valid_time h mi se then Some (DateTime d h mi se us) else None
  end.

Section Timestamps.
Context `{Collaborators}.

(** [datetime.fromisoformat(s)]: a text of the common format gives a naive
    [datetime]; any other text is the interpreter's to read.  [None] is
    [ValueError]. *)
Definition fromisoformat (s : string) : option moment :=
  match isoformat_common s with
  | Some dt => Some (Moment dt None)
  | None => fromisoformat_other s
  end.

(** [datetime.fromisoformat(v)] on a JSON value: a non-string raises
    [TypeError]. *)
Definition fromisoformat_value (v : value) : exn + moment :=
  match v with
  | VStr s =>
      match fromisoformat s with
      | Some dt => inr dt
      | None => inl ValueError
      end
  | _ => inl TypeError
  end.

(** The timestamp a [DateTime] column stores for a [datetime], and the one
    it is compared with in a query. *)
Definition column (m : moment) : datetime :=
  match utcoffset m with
  | None => local m
  | Some offset => column_of_aware (local m) offset
  end.

End Timestamps.

(** [dt.replace(hour=h, minute=mi, second=s)]: the date, the microsecond
    and the time zone stay. *)
Definition replace_hms (dt : moment) (h mi s : Z) : moment :=
  Moment (DateTime (dt_date (local dt)) h mi s (microsecond (local dt)))
         (utcoffset dt).

(** Timestamps compare field by field, most significant first. *)
Definition dt_fields (dt : datetime) : list Z :=
  [year (dt_date dt); month (dt_date dt); day (dt_date dt);
   hour dt; minute dt; second dt; microsecond dt].

Fixpoint lex_compare (a b : list Z) : comparison :=
  match a, b with
  | [], [] => Eq
  | [], _ :: _ => Lt
  | _ :: _, [] => Gt
  | x :: a', y :: b' =>
      match Z.compare x y with
      | Eq => lex_compare a' b'
      | c => c
      end
  end.

(** [a <= b] on timestamps. *)
Definition dt_leb (a b : datetime) : bool :=
  match lex_compare (dt_fields a) (dt_fields b) with
  | Gt => false
  | _ => true
  end.

End Py.
Import Py.

(** ** The data model

    The ORM models ([models/]) as the route files use them: one record per
    model, a table keyed by the primary key [id], and the join table of
    appointments and procedures as the list of its rows. *)

Module User.
Record t : Type := Make {
  email : string;
  nome : string;
  tipo : string;
  senha_hash : string
}.

(** Attribute assignments, [user.field = v]. *)
Definition set_email (v : string) (u : t) : t :=
  Make v (nome u) (tipo u) (senha_hash u).
Definition set_nome (v : string) (u : t) : t :=
  Make (email u) v (tipo u) (senha_hash u).
Definition set_senha_hash (v : string) (u : t) : t :=
  Make (email u) (nome u) (tipo u) v.
End User.

Module Patient.
Record t : Type := Make {
  cpf : string;
  nome : string;
  email : string;
  telefone : string;
  data_nascimento : date;
  estado : string;
  cidade : string;
  bairro : string;
  cep : string;
  rua : string;
  numero : string;
  resp_cpf : option string;
  resp_nome : option string;
  resp_data_nascimento : option date;
  resp_email : option string;
  resp_telefone : option string
}.

(** [setattr(patient, field, v)] for a text attribute. *)
Definition setattr (field : string) (v : string) (p : t) : t :=
  let pick f old := if String.eqb field f then v else old in
  Make (pick "cpf" (cpf p)) (pick "nome" (nome p)) (pick "email" (email p))
       (pick "telefone" (telefone p)) (data_nascimento p)
       (pick "estado" (estado p)) (pick "cidade" (cidade p))
       (pick "bairro" (bairro p)) (pick "cep" (cep p)) (pick "rua" (rua p))
       (pick "numero" (numero p))
       (resp_cpf p) (resp_nome p) (resp_data_nascimento p) (resp_email p)
       (resp_telefone p).

Definition set_data_nascimento (d : date) (p : t) : t :=
  Make (cpf p) (nome p) (email p) (telefone p) d (estado p) (cidade p)
       (bairro p) (cep p) (rua p) (numero p)
       (resp_cpf p) (resp_nome p) (resp_data_nascimento p) (resp_email p)
       (resp_telefone p).

(** The five assignments of the guardian's attributes. *)
Definition set_responsavel (rcpf rnome : option string) (rd : option date)
    (remail rtel : option string) (p : t) : t :=
  Make (cpf p) (nome p) (email p) (telefone p) (data_nascimento p)
       (estado p) (cidade p) (bairro p) (cep p) (rua p) (numero p)
       rcpf rnome rd remail rtel.
End Patient.

Module Procedure.
Record t : Type := Make {
  nome : string;
  descricao : string;
  valor_plano : float;
  valor_particular : float
}.

(** [setattr(proc, field, v)] for a text attribute. *)
Definition setattr_text (field : string) (v : string) (p : t) : t :=
  Make (if String.eqb field "nome" then v else nome p)
       (if String.eqb field "descricao" then v else descricao p)
       (valor_plano p) (valor_particular p).

(** [setattr(proc, field, v)] for a price. *)
Definition setattr_valor (field : string) (v : float) (p : t) : t :=
  Make (nome p) (descricao p)
       (if String.eqb field "valor_plano" then v else valor_plano p)
       (if String.eqb field "valor_particular" then v
        else valor_particular p).
End Procedure.

Module Appointment.
Record t : Type := Make {
  data_hora : datetime;
  tipo : string;
  numero_carteira : option string;
  valor_total : float;
  usuario_id : Z;
  paciente_id : Z
}.

(** Attribute assignments, [ap.field = v]. *)
Definition set_data_hora (v : datetime) (ap : t) : t :=
  Make v (tipo ap) (numero_carteira ap) (valor_total ap) (usuario_id ap)
       (paciente_id ap).
Definition set_tipo (v : string) (ap : t) : t :=
  Make (data_hora ap) v (numero_carteira ap) (valor_total ap)
       (usuario_id ap) (paciente_id ap).
Definition set_numero_carteira (v : option string) (ap : t) : t :=
  Make (data_hora ap) (tipo ap) v (valor_total ap) (usuario_id ap)
       (paciente_id ap).
Definition set_valor_total (v : float) (ap : t) : t :=
  Make (data_hora ap) (tipo ap) (numero_carteira ap) v (usuario_id ap)
       (paciente_id ap).
Definition set_paciente_id (v : Z) (ap : t) : t :=
  Make (data_hora ap) (tipo ap) (numero_carteira ap) (valor_total ap)
       (usuario_id ap) v.
End Appointment.

Module AppointmentProcedure.
Record t : Type := Make {
  atendimento_id : Z;
  procedimento_id : Z
}.
End AppointmentProcedure.

Record DB : Type := MkDB {
  users : gmap Z User.t;
  patients : gmap Z Patient.t;
  procedures : gmap Z Procedure.t;
  appointments : gmap Z Appointment.t;
  links : list AppointmentProcedure.t
}.

Definition empty_db : DB := MkDB ∅ ∅ ∅ ∅ [].

(** The primary key a new row gets: one more than the largest in use. *)
Definition next_id {A} (table : gmap Z A) : Z :=
  1 + map_fold (λ k _ acc, Z.max k acc) 0 table.

(** [Model.query.filter_by(...).first()] used as a test: some row
    satisfies [f]. *)
Definition any_row {A} (f : A → bool) (table : gmap Z A) : bool :=
  existsb (λ kv, f kv.2) (map_to_list table).

(** [Model.query.filter_by(...).first()]: a row satisfying [f], with its
    key. *)
Definition first_row {A} (f : A → bool) (table : gmap Z A) : option (Z * A) :=
  List.find (λ kv, f kv.2) (map_to_list table).

(** The actor of a request, [request.user]: what the verified token
    carries. *)
Record actor : Type := Actor { actor_id : Z; actor_tipo : string }.

Definition is_admin (a : actor) : bool := String.eqb (actor_tipo a) "admin".

(** ** Responses *)

(** The body of [jsonify({'erro': ...})]: a fixed text, or a text with a
    value formatted into it. *)
Inductive erro : Type :=
| Erro (text : string)
| ErroValor (before : string) (v : value) (after : string).

(** What a request comes to.  [Done] is the success response; the database
    it carries is the committed one (the handler's own when it is
    read-only).  [Refused] is a [return jsonify({'erro': ...}), status] or an
    [abort]: nothing is committed.  [Raised] is an exception no handler
    catches: the framework answers 500 and nothing is committed. *)
Inductive outcome (A : Type) : Type :=
| Done (status : Z) (body : A) (db' : DB)
| Refused (status : Z) (e : erro)
| Raised (e : exn).

Arguments Done {A} status body db'.
Arguments Refused {A} status e.
Arguments Raised {A} e.

Definition status_of {A} (o : outcome A) : Z :=
  match o with
  | Done st _ _ => st
  | Refused st _ => st
  | Raised _ => 500
  end.

(** The database after the request. *)
Definition db_after {A} (db : DB) (o : outcome A) : DB :=
  match o with
  | Done _ _ db' => db'
  | _ => db
  end.

(** A handler body: a computation that stops at the first [return] or
    uncaught exception. *)
Inductive stop : Type :=
| StopRefused (status : Z) (e : erro)
| StopRaised (e : exn).

#[global] Instance stop_ret : MRet (sum stop) := λ A x, inr x.
#[global] Instance stop_bind : MBind (sum stop) :=
  λ A B f m, match m with inl e => inl e | inr x => f x end.

Definition refuse {A} (status : Z) (text : string) : stop + A :=
  inl (StopRefused status (Erro text)).

Definition raise {A} (e : exn) : stop + A := inl (StopRaised e).

(** [if c: return jsonify({'erro': text}), status]. *)
Definition refuse_if (c : bool) (status : Z) (text : string) : stop + unit :=
  if c then refuse status text else inr tt.

(** [Model.query.get_or_404(id)]. *)
Definition get_or_404 {A} (table : gmap Z A) (id : Z) : stop + A :=
  match table !! id with
  | Some r => inr r
  | None => refuse 404 "Not Found"
  end.

(** A [for] loop whose body may return from the handler. *)
Fixpoint for_each {A S} (l : list A) (body : A → S → stop + S) (s : S)
  : stop + S :=
  match l with
  | [] => inr s
  | x :: l' => s' ← body x s; for_each l' body s'
  end.

(** Closing a handler body: the response and the committed database. *)
Definition finish {A} (m : stop + (Z * A * DB)) : outcome A :=
  match m with
  | inr (st, body, db') => Done st body db'
  | inl (StopRefused st e) => Refused st e
  | inl (StopRaised e) => Raised e
  end.

(** A double quote, for the messages that carry one. *)
Definition dq : string := String (ascii_of_nat 34) EmptyString.

(** [v.strip()] outside any [try]: a value without the method raises
    [AttributeError]. *)
Definition strip_value (v : value) : stop + string :=
  match v with
  | VStr s => inr (strip s)
  | _ => raise AttributeError
  end.

(** [not s] for a nullable text column. *)
Definition empty_text (s : option string) : bool :=
  match s with
  | None => true
  | Some t => String.eqb t ""
  end.

(** A query-string argument as [request.args.get] returns it. *)
Definition arg (a : option string) : value :=
  match a with
  | Some s => VStr s
  | None => VNone
  end.

(** ** routes/appointments.py *)

Module Appointments.
Import Appointment AppointmentProcedure.

(** [calc_valor_total(proc_objs, tipo)]: the loop adds to [total], which
    starts at [0.0], the price that [tipo] selects. *)
Definition calc_valor_total (proc_objs : list Procedure.t) (tipo : string)
  : float :=
  fold_left
    (λ total p,
       if String.eqb tipo "plano"
       then (total + Procedure.valor_plano p)%float
       else (total + Procedure.valor_particular p)%float)
    proc_objs 0%float.

(** The rows of the join table that belong to an appointment
    ([ap.procedimentos_vinculados]). *)
Definition procedimentos_vinculados (db : DB) (ap_id : Z)
  : list AppointmentProcedure.t :=
  filter (λ l, atendimento_id l = ap_id) (links db).

(** [AppointmentProcedure.query.filter_by(atendimento_id=ap.id).delete()] *)
Definition delete_links (ap_id : Z) (ls : list AppointmentProcedure.t)
  : list AppointmentProcedure.t :=
  filter (λ l, atendimento_id l ≠ ap_id) ls.

(** [[ap_proc.procedimento for ap_proc in ap.procedimentos_vinculados]];
    a row whose procedure is gone yields [None], and reading its price
    raises [AttributeError]. *)
Definition linked_procedures (db : DB) (ap_id : Z)
  : option (list Procedure.t) :=
  mapM (λ l, procedures db !! procedimento_id l)
       (procedimentos_vinculados db ap_id).

Definition msg_tipo : string :=
  "tipo deve ser " ++ dq ++ "plano" ++ dq ++ " ou " ++ dq ++ "particular"
  ++ dq ++ " e não pode ser vazio".

Definition msg_data_hora : string :=
  "data_hora formato ISO (YYYY-MM-DDTHH:MM:SS) esperado".

(** [order_by(Appointment.data_hora)]. *)
Fixpoint insert_by_data_hora (r : Z * Appointment.t)
    (l : list (Z * Appointment.t)) : list (Z * Appointment.t) :=
  match l with
  | [] => [r]
  | x :: l' =>
      if dt_leb (data_hora r.2) (data_hora x.2) then r :: l
      else x :: insert_by_data_hora r l'
  end.

Definition order_by_data_hora (l : list (Z * Appointment.t))
  : list (Z * Appointment.t) :=
  fold_right insert_by_data_hora [] l.

(** [GET /appointments/between].  The result is the ordered query the
    handler hands to the pagination collaborator. *)
Definition list_between_dates `{Collaborators} (db : DB)
    (start end_ : option string) : outcome (list (Z * Appointment.t)) :=
  finish (
    _ ← refuse_if (negb (is_valid_string (arg start))
                   || negb (is_valid_string (arg end_))) 400
          "Parâmetros start e end obrigatórios e não podem ser vazios";
    start_cleaned ← strip_value (arg start);
    end_cleaned ← strip_value (arg end_);
    '(s, e) ←
      match fromisoformat start_cleaned, fromisoformat end_cleaned with
      | Some s, Some e =>
          inr (s, if Nat.eqb (String.length end_cleaned) 10
                  then replace_hms e 23 59 59 else e)
      | _, _ =>
          refuse 400
            "Formato de data inválido, use ISO (YYYY-MM-DD ou YYYY-MM-DDTHH:MM:SS)"
      end;
    let query :=
      order_by_data_hora
        (List.filter
           (λ r, dt_leb (column s) (data_hora r.2)
                 && dt_leb (data_hora r.2) (column e))
           (map_to_list (appointments db))) in
    mret (200, query, db)).

Section Handlers.
Context `{Collaborators}.

(** The validation of [tipo], shared by create and update:
    [if not is_valid_string(tipo) or tipo not in ['plano','particular']].
    A value that passes is a [str]. *)
Definition check_tipo (tipo : value) : stop + string :=
  _ ← refuse_if (negb (is_valid_string tipo)
                 || negb (in_strs tipo ["plano"; "particular"])) 400
        msg_tipo;
  match tipo with
  | VStr t => inr t
  | _ => raise TypeError
  end.

(** One turn of the loop over [proc_ids]: [int(pid)], then
    [Procedure.query.get(pid)]. *)
Definition resolve_procedure (db : DB) (pid : value)
  : stop + (Z * Procedure.t) :=
  match py_int pid with
  | inl ValueError | inl TypeError =>
      inl (StopRefused 400
             (ErroValor "ID de procedimento inválido: " pid ""))
  | inl e => raise e
  | inr n =>
      match procedures db !! n with
      | None =>
          inl (StopRefused 404
                 (ErroValor "Procedimento id " (VInt n) " não encontrado"))
      | Some p => inr (n, p)
      end
  end.

(** [proc_ids] must be a non-empty list. *)
Definition check_proc_ids (v : value) : stop + list value :=
  match v with
  | VList (x :: l) => inr (x :: l)
  | _ => refuse 400 "Deve existir pelo menos um procedimento associado"
  end.

(** [Patient.query.get(v)] followed by [if not paciente]. *)
Definition get_paciente (db : DB) (v : value) : stop + Z :=
  match k ← pk v; _ ← patients db !! k; Some k with
  | Some k => inr k
  | None => refuse 404 "Paciente não encontrado"
  end.

(** [POST /appointments/] *)
Definition create_appointment (db : DB) (who : actor) (data : payload)
  : outcome (Z * Appointment.t) :=
  finish (
    _ ← for_each ["data_hora"; "paciente_id"; "procedimentos"; "tipo"]
          (λ f _, refuse_if (is_none (get data f)) 400
                    ("Campo " ++ f ++ " obrigatório")) tt;
    tipo ← check_tipo (get data "tipo");
    data_hora ←
      match fromisoformat_value (get data "data_hora") with
      | inr d => inr d
      | inl _ => refuse 400 msg_data_hora
      end;
    paciente_id ← get_paciente db (get data "paciente_id");
    proc_ids ← check_proc_ids (get data "procedimentos");
    proc_objs ←
      for_each proc_ids
        (λ pid objs, p ← resolve_procedure db pid; mret (objs ++ [p])%list) [];
    numero_carteira_cleaned ←
      (if String.eqb tipo "plano" then
         let numero_carteira := get data "numero_carteira" in
         _ ← refuse_if (negb (is_valid_string numero_carteira)) 400
               "numero_carteira obrigatório e não pode ser vazio para tipo plano";
         c ← strip_value numero_carteira;
         mret (Some c)
       else mret None);
    let valor_total := calc_valor_total proc_objs.*2 tipo in
    let ap :=
      Appointment.Make (column data_hora) (strip tipo)
        numero_carteira_cleaned valor_total (actor_id who) paciente_id in
    let ap_id := next_id (appointments db) in
    let new_links :=
      map (λ p, AppointmentProcedure.Make ap_id p.1) proc_objs in
    mret (201, (ap_id, ap),
          MkDB (users db) (patients db) (procedures db)
               (<[ap_id := ap]> (appointments db))
               (links db ++ new_links)%list)).

(** Whether the actor may edit or remove the appointment:
    [request.user.get('tipo') != 'admin' and
     request.user.get('id') != ap.usuario_id] is the refusal. *)
Definition not_owner (who : actor) (ap : Appointment.t) : bool :=
  negb (is_admin who) && negb (Z.eqb (actor_id who) (usuario_id ap)).

(** The stages of [update_appointment], in the order of the source.

    [if data.get('data_hora'): ...]; the [strip] and the parse are under
    a bare [except]. *)
Definition apply_data_hora (data : payload) (ap : Appointment.t)
  : stop + Appointment.t :=
  if truthy (get data "data_hora") then
    _ ← refuse_if (negb (is_valid_string (get data "data_hora"))) 400
          "data_hora não pode ser vazio";
    match get data "data_hora" with
    | VStr s =>
        match fromisoformat (strip s) with
        | Some d => mret (set_data_hora (column d) ap)
        | None => refuse 400 msg_data_hora
        end
    | _ => refuse 400 msg_data_hora
    end
  else mret ap.

(** [if data.get('paciente_id'): ...] *)
Definition apply_paciente (db : DB) (data : payload) (ap : Appointment.t)
  : stop + Appointment.t :=
  if truthy (get data "paciente_id") then
    k ← get_paciente db (get data "paciente_id");
    mret (set_paciente_id k ap)
  else mret ap.

(** One turn of the loop that re-links the procedures: resolve the id,
    keep the object, add the join row to the session. *)
Definition relink (db : DB) (ap_id : Z) (pid : value)
    (acc : list (Z * Procedure.t) * list AppointmentProcedure.t)
  : stop + (list (Z * Procedure.t) * list AppointmentProcedure.t) :=
  p ← resolve_procedure db pid;
  mret ((acc.1 ++ [p])%list,
        (acc.2 ++ [AppointmentProcedure.Make ap_id p.1])%list).

(** [if data.get('procedimentos') is not None: ...]: whether the set
    was replaced ([procedimentos_changed]), the resolved objects
    ([proc_objs]) and the join table of the session. *)
Definition apply_procedimentos (db : DB) (ap_id : Z) (data : payload)
  : stop + (bool * list (Z * Procedure.t) * list AppointmentProcedure.t) :=
  if negb (is_none (get data "procedimentos")) then
    proc_ids ← check_proc_ids (get data "procedimentos");
    r ← for_each proc_ids (relink db ap_id)
          ([], delete_links ap_id (links db));
    mret (true, r.1, r.2)
  else mret (false, [], links db).

(** [if data.get('tipo'): ...] *)
Definition apply_tipo (data : payload) (ap : Appointment.t)
  : stop + Appointment.t :=
  if truthy (get data "tipo") then
    tipo ← check_tipo (get data "tipo");
    mret (set_tipo (strip tipo) ap)
  else mret ap.

(** [if data.get('numero_carteira') is not None: ...]: a value that is
    not a valid string clears the field. *)
Definition apply_numero_carteira (data : payload) (ap : Appointment.t)
  : stop + Appointment.t :=
  if negb (is_none (get data "numero_carteira")) then
    let numero_carteira := get data "numero_carteira" in
    if negb (is_valid_string numero_carteira)
    then mret (set_numero_carteira None ap)
    else c ← strip_value numero_carteira;
         mret (set_numero_carteira (Some c) ap)
  else mret ap.

(** All the field updates, up to the check of [numero_carteira]. *)
Definition apply_fields (db : DB) (ap_id : Z) (data : payload)
    (ap : Appointment.t)
  : stop + (Appointment.t * bool * list (Z * Procedure.t)
            * list AppointmentProcedure.t) :=
  ap ← apply_data_hora data ap;
  ap ← apply_paciente db data ap;
  '(procedimentos_changed, proc_objs, session_links) ←
    apply_procedimentos db ap_id data;
  ap ← apply_tipo data ap;
  ap ← apply_numero_carteira data ap;
  mret (ap, procedimentos_changed, proc_objs, session_links).

(** [if ap.tipo == 'plano' and not ap.numero_carteira: return ..., 400] *)
Definition check_carteira (ap : Appointment.t) : stop + unit :=
  refuse_if (String.eqb (tipo ap) "plano"
             && empty_text (numero_carteira ap)) 400
    "numero_carteira obrigatório para tipo plano".

(** [if procedimentos_changed or 'tipo' in data: ...] *)
Definition recompute (db : DB) (ap_id : Z) (data : payload)
    (procedimentos_changed : bool) (proc_objs : list (Z * Procedure.t))
    (ap : Appointment.t) : stop + Appointment.t :=
  if procedimentos_changed || has_key data "tipo" then
    proc_objs ←
      (if negb procedimentos_changed then
         match linked_procedures db ap_id with
         | Some ps => mret ps
         | None => raise AttributeError
         end
       else mret proc_objs.*2);
    mret (set_valor_total (calc_valor_total proc_objs (tipo ap)) ap)
  else mret ap.

(** [PUT /appointments/<ap_id>] *)
Definition update_appointment (db : DB) (who : actor) (ap_id : Z)
    (data : payload) : outcome (Z * Appointment.t) :=
  finish (
    ap ← get_or_404 (appointments db) ap_id;
    _ ← refuse_if (not_owner who ap) 403
          "Apenas criador ou admin pode editar atendimento";
    '(ap, procedimentos_changed, proc_objs, session_links) ←
      apply_fields db ap_id data ap;
    _ ← check_carteira ap;
    ap ← recompute db ap_id data procedimentos_changed proc_objs ap;
    mret (200, (ap_id, ap),
          MkDB (users db) (patients db) (procedures db)
               (<[ap_id := ap]> (appointments db)) session_links)).

(** [DELETE /appointments/<ap_id>] *)
Definition delete_appointment (db : DB) (who : actor) (ap_id : Z)
  : outcome string :=
  finish (
    ap ← get_or_404 (appointments db) ap_id;
    _ ← refuse_if (not_owner who ap) 403
          "Apenas criador ou admin pode remover atendimento";
    mret (200, "Atendimento removido",
          MkDB (users db) (patients db) (procedures db)
               (delete ap_id (appointments db))
               (delete_links ap_id (links db)))).

End Handlers.
End Appointments.

(** ** routes/procedures.py *)

Module Procedures.
Import Procedure.

(** The type a field of [fields_to_validate] is expected to have. *)
Inductive expected_type : Type :=
| ExpectStr
| ExpectNumber.

Definition fields_to_validate : list (string * expected_type) :=
  [("nome", ExpectStr); ("descricao", ExpectStr);
   ("valor_plano", ExpectNumber); ("valor_particular", ExpectNumber)].

Definition msg_nome_existe : string := "Nome de procedimento já existe".

Section Handlers.
Context `{Collaborators}.

(** [POST /procedures/] *)
Definition create_procedure (db : DB) (who : actor) (data : payload)
  : outcome (Z * Procedure.t) :=
  finish (
    _ ← refuse_if (negb (is_admin who)) 403
          "Apenas admin pode criar procedimentos";
    _ ← for_each ["nome"; "descricao"]
          (λ f _, refuse_if (negb (is_valid_string (get data f))) 400
                    ("Campo " ++ f ++ " é obrigatório e não pode ser vazio"))
          tt;
    _ ← for_each ["valor_plano"; "valor_particular"]
          (λ f _, refuse_if (is_none (get data f)) 400
                    ("Campo " ++ f ++ " obrigatório")) tt;
    nome ← strip_value (get data "nome");
    descricao ← strip_value (get data "descricao");
    _ ← refuse_if (any_row (λ p, String.eqb (Procedure.nome p) nome)
                           (procedures db)) 400 msg_nome_existe;
    '(valor_plano, valor_particular) ←
      match py_float (get data "valor_plano") with
      | inr vp =>
          match py_float (get data "valor_particular") with
          | inr vq => inr (vp, vq)
          | inl ValueError | inl TypeError =>
              refuse 400
                "Valores de plano e particular devem ser números válidos"
          | inl e => raise e
          end
      | inl ValueError | inl TypeError =>
          refuse 400
            "Valores de plano e particular devem ser números válidos"
      | inl e => raise e
      end;
    let proc := Procedure.Make nome descricao valor_plano valor_particular in
    let proc_id := next_id (procedures db) in
    mret (201, (proc_id, proc),
          MkDB (users db) (patients db)
               (<[proc_id := proc]> (procedures db))
               (appointments db) (links db))).

(** The body of the loop over [fields_to_validate.items()]. *)
Definition update_field (data : payload)
    (entry : string * expected_type) (proc : Procedure.t)
  : stop + Procedure.t :=
  let '(field, expected) := entry in
  if has_key data field && negb (String.eqb field "nome") then
    let value := get data field in
    match expected with
    | ExpectStr =>
        _ ← refuse_if (negb (is_valid_string value)) 400
              ("O campo " ++ field ++ " não pode ser vazio");
        v ← strip_value value;
        mret (setattr_text field v proc)
    | ExpectNumber =>
        match py_float value with
        | inr numeric_value =>
            if is_nan numeric_value || is_inf numeric_value
            then refuse 400
                   ("O campo " ++ field ++ " possui um valor inválido")
            else mret (setattr_valor field numeric_value proc)
        | inl ValueError | inl TypeError =>
            refuse 400 ("O campo " ++ field ++ " deve ser um número válido")
        | inl e => raise e
        end
    end
  else mret proc.

(** [PUT /procedures/<proc_id>] *)
Definition update_procedure (db : DB) (who : actor) (proc_id : Z)
    (data : payload) : outcome (Z * Procedure.t) :=
  finish (
    _ ← refuse_if (negb (is_admin who)) 403
          "Apenas admin pode editar procedimentos";
    proc ← get_or_404 (procedures db) proc_id;
    proc ←
      (if has_key data "nome"
          && negb (eq_str (get data "nome") (Procedure.nome proc))
       then
         _ ← refuse_if (negb (is_valid_string (get data "nome"))) 400
               "O campo nome não pode ser vazio";
         new_nome ← strip_value (get data "nome");
         _ ← refuse_if
               (any_row (λ p, String.eqb (Procedure.nome p) new_nome)
                        (procedures db)) 400 msg_nome_existe;
         mret (setattr_text "nome" new_nome proc)
       else mret proc);
    proc ← for_each fields_to_validate (update_field data) proc;
    mret (200, (proc_id, proc),
          MkDB (users db) (patients db)
               (<[proc_id := proc]> (procedures db))
               (appointments db) (links db))).

(** [DELETE /procedures/<proc_id>] *)
Definition delete_procedure (db : DB) (who : actor) (proc_id : Z)
  : outcome string :=
  finish (
    _ ← refuse_if (negb (is_admin who)) 403
          "Apenas admin pode remover procedimentos";
    _ ← refuse_if
          (existsb
             (λ l, Z.eqb (AppointmentProcedure.procedimento_id l) proc_id)
             (links db)) 400
          "Procedimento já utilizado em atendimentos e não pode ser removido";
    _ ← get_or_404 (procedures db) proc_id;
    mret (200, "Procedimento removido",
          MkDB (users db) (patients db) (delete proc_id (procedures db))
               (appointments db) (links db))).

End Handlers.
End Procedures.

(** ** routes/patients.py *)

Module Patients.
Import Patient.

(** [parse_date]: [datetime.fromisoformat(date_str).date()]. *)
Definition parse_date `{Collaborators} (v : value) : exn + date :=
  match fromisoformat_value v with
  | inr dt => inr (dt_date (local dt))
  | inl e => inl e
  end.

(** [(date.today() - d).days // 365]. *)
Definition age_on (today d : date) : Z := days_between today d / 365.

Definition required_fields : list (string * string) :=
  [("cpf", "CPF"); ("nome", "Nome"); ("email", "Email");
   ("telefone", "Telefone"); ("data_nascimento", "Data de Nascimento");
   ("estado", "Estado"); ("cidade", "Cidade"); ("bairro", "Bairro");
   ("cep", "CEP"); ("rua", "Rua"); ("numero", "Número")].

Definition rfields : list (string * string) :=
  [("resp_cpf", "CPF do Responsável");
   ("resp_nome", "Nome do Responsável");
   ("resp_data_nascimento", "Data de Nascimento do Responsável");
   ("resp_email", "Email do Responsável");
   ("resp_telefone", "Telefone do Responsável")].

Definition string_fields : list string :=
  ["cpf"; "nome"; "email"; "telefone"; "estado"; "cidade"; "bairro"; "cep";
   "rua"; "numero"].

(** [not value or (isinstance(value, str) and not is_valid_string(value))] *)
Definition missing_or_blank (v : value) : bool :=
  negb (truthy v)
  || (match v with VStr _ => true | _ => false end
      && negb (is_valid_string v)).

(** [v.strip() if isinstance(v, str) else v] *)
Definition clean (v : value) : value :=
  match v with
  | VStr s => VStr (strip s)
  | _ => v
  end.

Definition msg_data_nascimento : string :=
  "data_nascimento formato ISO (YYYY-MM-DD) esperado".

Section Handlers.
Context `{Collaborators}.

(** The guardian's part of [create_patient], run when the patient is
    under 18. *)
Definition responsavel (today : date) (data : payload) (patient : Patient.t)
  : stop + Patient.t :=
  _ ← for_each rfields
        (λ '(f, display_name) _,
           refuse_if (missing_or_blank (get data f)) 400
             ("Paciente menor: campo " ++ display_name
              ++ " obrigatório e não pode ser vazio")) tt;
  resp_cpf ← strip_value (get data "resp_cpf");
  resp_nome ← strip_value (get data "resp_nome");
  resp_data_nascimento ← strip_value (get data "resp_data_nascimento");
  resp_email ← strip_value (get data "resp_email");
  resp_telefone ← strip_value (get data "resp_telefone");
  rd ←
    match parse_date (VStr resp_data_nascimento) with
    | inr rd => inr rd
    | inl _ =>
        refuse 400 "resp_data_nascimento formato ISO (YYYY-MM-DD) esperado"
    end;
  _ ← refuse_if (Z.ltb (age_on today rd) 18) 400
        "Responsável não pode ser menor de idade";
  mret (set_responsavel (Some resp_cpf) (Some resp_nome) (Some rd)
          (Some resp_email) (Some resp_telefone) patient).

(** [POST /patients/]; [today] is [date.today()]. *)
Definition create_patient (db : DB) (today : date) (data : payload)
  : outcome (Z * Patient.t) :=
  finish (
    _ ← for_each required_fields
          (λ '(field, display_name) _,
             refuse_if (missing_or_blank (get data field)) 400
               ("Campo " ++ display_name
                ++ " obrigatório e não pode ser vazio")) tt;
    let data_cleaned k := clean (get data k) in
    _ ← refuse_if
          (any_row (λ p, String.eqb (cpf p) (text (data_cleaned "cpf")))
                   (patients db)) 400 "CPF já cadastrado";
    _ ← refuse_if
          (any_row
             (λ p, String.eqb (email p) (text (data_cleaned "email")))
             (patients db)) 400 "Email já cadastrado";
    pn ←
      match parse_date (data_cleaned "data_nascimento") with
      | inr pn => inr pn
      | inl _ => refuse 400 msg_data_nascimento
      end;
    let patient :=
      Patient.Make
        (text (data_cleaned "cpf")) (text (data_cleaned "nome"))
        (text (data_cleaned "email")) (text (data_cleaned "telefone")) pn
        (text (data_cleaned "estado")) (text (data_cleaned "cidade"))
        (text (data_cleaned "bairro")) (text (data_cleaned "cep"))
        (text (data_cleaned "rua")) (text (data_cleaned "numero"))
        None None None None None in
    let age := age_on today pn in
    patient ←
      (if Z.ltb age 18 then responsavel today data patient
       else mret patient);
    let patient_id := next_id (patients db) in
    mret (201, (patient_id, patient),
          MkDB (users db) (<[patient_id := patient]> (patients db))
               (procedures db) (appointments db) (links db))).

(** The body of the loop over [string_fields] in [update_patient]. *)
Definition update_string_field (db : DB) (data : payload) (field : string)
    (patient : Patient.t) : stop + Patient.t :=
  if has_key data field then
    let value := get data field in
    _ ← refuse_if (negb (is_valid_string value)) 400
          ("O campo " ++ field ++ " não pode ser vazio");
    cleaned_value ← strip_value value;
    if String.eqb field "cpf"
       && negb (String.eqb cleaned_value (cpf patient)) then
      _ ← refuse_if
            (any_row (λ p, String.eqb (cpf p) cleaned_value)
                     (patients db)) 400 "CPF já cadastrado";
      mret (setattr "cpf" cleaned_value patient)
    else if String.eqb field "email"
            && negb (String.eqb cleaned_value (email patient)) then
      _ ← refuse_if
            (any_row (λ p, String.eqb (email p) cleaned_value)
                     (patients db)) 400 "Email já cadastrado";
      mret (setattr "email" cleaned_value patient)
    else if negb (String.eqb field "cpf")
            && negb (String.eqb field "email") then
      mret (setattr field cleaned_value patient)
    else mret patient
  else mret patient.

(** [PUT /patients/<patient_id>] *)
Definition update_patient (db : DB) (today : date) (patient_id : Z)
    (data : payload) : outcome (Z * Patient.t) :=
  finish (
    patient ← get_or_404 (patients db) patient_id;
    patient ← for_each string_fields (update_string_field db data) patient;
    patient ←
      (if truthy (get data "data_nascimento") then
         _ ← refuse_if
               (negb (is_valid_string (get data "data_nascimento"))) 400
               "O campo data_nascimento não pode ser vazio";
         match parse_date (clean (get data "data_nascimento")) with
         | inr d => mret (set_data_nascimento d patient)
         | inl _ => refuse 400 msg_data_nascimento
         end
       else mret patient);
    patient ←
      (if has_key data "remove_responsavel"
          && eq_True (get data "remove_responsavel") then
         let age_after_update :=
           age_on today (data_nascimento patient) in
         _ ← refuse_if (Z.ltb age_after_update 18) 400
               "Não é possível remover responsável enquanto paciente for menor";
         mret (set_responsavel None None None None None patient)
       else mret patient);
    mret (200, (patient_id, patient),
          MkDB (users db) (<[patient_id := patient]> (patients db))
               (procedures db) (appointments db) (links db))).

End Handlers.

(** [DELETE /patients/<patient_id>] *)
Definition delete_patient (db : DB) (patient_id : Z) : outcome string :=
  finish (
    _ ← get_or_404 (patients db) patient_id;
    _ ← refuse_if
          (any_row (λ a, Z.eqb (Appointment.paciente_id a) patient_id)
                   (appointments db)) 400
          "Paciente possui atendimentos vinculados e não pode ser removido";
    mret (200, "Paciente removido",
          MkDB (users db) (delete patient_id (patients db)) (procedures db)
               (appointments db) (links db))).
End Patients.

(** ** routes/users.py *)

Module Users.
Import User.

Section Handlers.
Context `{Collaborators}.

(** [POST /users/] *)
Definition create_user (db : DB) (who : actor) (data : payload)
  : outcome (Z * User.t) :=
  finish (
    _ ← refuse_if (negb (is_admin who)) 403
          "Apenas admin pode cadastrar usuários";
    let email := get data "email" in
    let nome := get data "nome" in
    let tipo := get_default data "tipo" (VStr "default") in
    let senha := get data "senha" in
    _ ← refuse_if
          (negb (forallb is_valid_string [email; nome; tipo; senha])) 400
          "email, nome, tipo, e senha são obrigatórios e não podem ser vazios";
    email ← strip_value email;
    nome ← strip_value nome;
    tipo ← strip_value tipo;
    senha ← strip_value senha;
    _ ← refuse_if
          (negb (existsb (String.eqb tipo) ["admin"; "default"])) 400
          "tipo inválido";
    _ ← refuse_if
          (any_row (λ u, String.eqb (User.email u) email) (users db)) 400
          "email já cadastrado";
    let user := User.Make email nome tipo (password_hash senha) in
    let user_id := next_id (users db) in
    mret (201, (user_id, user),
          MkDB (<[user_id := user]> (users db)) (patients db)
               (procedures db) (appointments db) (links db))).

(** [GET /users/buscar]; [email] is [request.args.get('email')]. *)
Definition get_by_email (db : DB) (who : actor) (email : option string)
  : outcome (Z * User.t) :=
  finish (
    _ ← refuse_if (negb (is_valid_string (arg email))) 400
          "email é obrigatório e não pode ser vazio";
    email ← strip_value (arg email);
    user ←
      match first_row (λ u, String.eqb (User.email u) email) (users db)
      with
      | Some user => inr user
      | None => refuse 404 "Usuário não encontrado"
      end;
    _ ← refuse_if (negb (is_admin who)
                   && negb (Z.eqb (actor_id who) user.1)) 403
          "Acesso negado";
    mret (200, user, db)).

(** [PUT /users/<user_id>] *)
Definition update_user (db : DB) (who : actor) (user_id : Z) (data : payload)
  : outcome (Z * User.t) :=
  finish (
    user ← get_or_404 (users db) user_id;
    _ ← refuse_if (negb (is_admin who) && negb (Z.eqb (actor_id who) user_id))
          403 "Permitido apenas editar próprio usuário ou admin";
    let nome := get data "nome" in
    let email := get data "email" in
    user ←
      (if negb (is_none email) then
         _ ← refuse_if (negb (is_valid_string email)) 400
               "O campo email não pode ser vazio";
         email ← strip_value email;
         if negb (String.eqb email (User.email user)) then
           _ ← refuse_if
                 (any_row (λ u, String.eqb (User.email u) email) (users db))
                 400 "email já cadastrado";
           mret (set_email email user)
         else mret user
       else mret user);
    user ←
      (if negb (is_none nome) then
         _ ← refuse_if (negb (is_valid_string nome)) 400
               "O campo nome não pode ser vazio";
         nome ← strip_value nome;
         mret (set_nome nome user)
       else mret user);
    mret (200, (user_id, user),
          MkDB (<[user_id := user]> (users db)) (patients db)
               (procedures db) (appointments db) (links db))).

(** [DELETE /users/<user_id>] *)
Definition delete_user (db : DB) (who : actor) (user_id : Z)
  : outcome string :=
  finish (
    _ ← get_or_404 (users db) user_id;
    _ ← refuse_if (negb (is_admin who)) 403
          "Apenas admin pode remover usuários";
    _ ← refuse_if
          (any_row (λ a, Z.eqb (Appointment.usuario_id a) user_id)
                   (appointments db)) 400
          "Usuário possui atendimentos vinculados e não pode ser removido";
    mret (200, "Usuário removido",
          MkDB (delete user_id (users db)) (patients db) (procedures db)
               (appointments db) (links db))).

(** [POST /users/<user_id>/reset-senha] *)
Definition reset_password (db : DB) (who : actor) (user_id : Z)
    (data : payload) : outcome string :=
  finish (
    _ ← refuse_if (negb (is_admin who)) 403
          "Apenas admin pode resetar senhas";
    let new := get data "senha" in
    _ ← refuse_if (negb (is_valid_string new)) 400
          "senha nova obrigatória e não pode ser vazia";
    user ← get_or_404 (users db) user_id;
    new ← strip_value new;
    mret (200, "Senha resetada",
          MkDB (<[user_id := set_senha_hash (password_hash new) user]>
                  (users db))
               (patients db) (procedures db) (appointments db) (links db))).

(** [POST /users/me/alterar-senha] *)
Definition change_password (db : DB) (who : actor) (data : payload)
  : outcome string :=
  finish (
    let old := get data "senha_antiga" in
    let new := get data "senha_nova" in
    _ ← refuse_if (negb (forallb is_valid_string [old; new])) 400
          "senha_antiga e senha_nova obrigatórias e não podem ser vazias";
    old ← strip_value old;
    new ← strip_value new;
    user ← get_or_404 (users db) (actor_id who);
    _ ← refuse_if (negb (check_password (User.senha_hash user) old)) 400
          "senha antiga incorreta";
    mret (200, "Senha alterada",
          MkDB (<[actor_id who := set_senha_hash (password_hash new) user]>
                  (users db))
               (patients db) (procedures db) (appointments db) (links db))).

End Handlers.
End Users.

(** ** routes/auth.py *)

Module Auth.

Definition required_fields : list (string * string) :=
  [("email", "Email"); ("nome", "Nome"); ("tipo", "Tipo");
   ("senha", "Senha")].

Section Handlers.
Context `{Collaborators}.

(** [POST /auth/register] *)
Definition register (db : DB) (data : payload) : outcome (Z * User.t) :=
  finish (
    let email := get data "email" in
    let nome := get data "nome" in
    let tipo := get_default data "tipo" (VStr "default") in
    let senha := get data "senha" in
    _ ← for_each required_fields
          (λ '(field, display_name) _,
             refuse_if (negb (is_valid_string (get data field))) 400
               ("O campo " ++ display_name
                ++ " é obrigatório e não pode ser vazio")) tt;
    email_cleaned ← strip_value email;
    nome_cleaned ← strip_value nome;
    tipo_cleaned ← strip_value tipo;
    _ ← refuse_if
          (negb (existsb (String.eqb tipo_cleaned) ["admin"; "default"])) 400
          "Tipo inválido (use admin ou default)";
    _ ← refuse_if
          (any_row (λ u, String.eqb (User.email u) email_cleaned) (users db))
          400 "Email já cadastrado";
    senha ← match senha with
            | VStr s => inr s
            | _ => raise TypeError
            end;
    let user :=
      User.Make email_cleaned nome_cleaned tipo_cleaned (password_hash senha)
    in
    let user_id := next_id (users db) in
    mret (201, (user_id, user),
          MkDB (<[user_id := user]> (users db)) (patients db)
               (procedures db) (appointments db) (links db))).

End Handlers.
End Auth.

(** ** The system as a whole *)

(** The requests that write to the database: every handler of the route
    files that commits. *)
Inductive request : Type :=
| CreateAppointment (who : actor) (data : payload)
| UpdateAppointment (who : actor) (ap_id : Z) (data : payload)
| DeleteAppointment (who : actor) (ap_id : Z)
| CreateProcedure (who : actor) (data : payload)
| UpdateProcedure (who : actor) (proc_id : Z) (data : payload)
| DeleteProcedure (who : actor) (proc_id : Z)
| CreatePatient (today : date) (data : payload)
| UpdatePatient (today : date) (patient_id : Z) (data : payload)
| DeletePatient (patient_id : Z)
| CreateUser (who : actor) (data : payload)
| UpdateUser (who : actor) (user_id : Z) (data : payload)
| DeleteUser (who : actor) (user_id : Z)
| ResetPassword (who : actor) (user_id : Z) (data : payload)
| ChangePassword (who : actor) (data : payload)
| Register (data : payload).

(** The database after a request. *)
Definition handle `{Collaborators} (db : DB) (r : request) : DB :=
  match r with
  | CreateAppointment who data =>
      db_after db (Appointments.create_appointment db who data)
  | UpdateAppointment who ap_id data =>
      db_after db (Appointments.update_appointment db who ap_id data)
  | DeleteAppointment who ap_id =>
      db_after db (Appointments.delete_appointment db who ap_id)
  | CreateProcedure who data =>
      db_after db (Procedures.create_procedure db who data)
  | UpdateProcedure who proc_id data =>
      db_after db (Procedures.update_procedure db who proc_id data)
  | DeleteProcedure who proc_id =>
      db_after db (Procedures.delete_procedure db who proc_id)
  | CreatePatient today data =>
      db_after db (Patients.create_patient db today data)
  | UpdatePatient today patient_id data =>
      db_after db (Patients.update_patient db today patient_id data)
  | DeletePatient patient_id =>
      db_after db (Patients.delete_patient db patient_id)
  | CreateUser who data => db_after db (Users.create_user db who data)
  | UpdateUser who user_id data =>
      db_after db (Users.update_user db who user_id data)
  | DeleteUser who user_id => db_after db (Users.delete_user db who user_id)
  | ResetPassword who user_id data =>
      db_after db (Users.reset_password db who user_id data)
  | ChangePassword who data =>
      db_after db (Users.change_password db who data)
  | Register data => db_after db (Auth.register db data)
  end.

(** A procedure update whose payload carries a price. *)
Definition edits_price (r : request) : bool :=
  match r with
  | UpdateProcedure _ _ data =>
      has_key data "valor_plano" || has_key data "valor_particular"
  | _ => false
  end.

(** The sum of one price over a list of procedures, accumulated from
    [0.0] in the order of the list. *)
Definition sum_valor (price : Procedure.t → float) (procs : list Procedure.t)
  : float :=
  fold_left (λ total p, (total + price p)%float) procs 0%float.

(** The total an appointment of billing mode [tipo] should carry for the
    procedures linked to it now. *)
Definition expected_total (db : DB) (ap_id : Z) (tipo : string)
  : option float :=
  procs ← Appointments.linked_procedures db ap_id;
  Some (if String.eqb tipo "plano"
        then sum_valor Procedure.valor_plano procs
        else sum_valor Procedure.valor_particular procs).

(** Every appointment carries the total of its linked procedures. *)
Definition consistent (db : DB) : Prop :=
  ∀ ap_id ap,
    appointments db !! ap_id = Some ap →
    expected_total db ap_id (Appointment.tipo ap)
    = Some (Appointment.valor_total ap).

(** Every row of the join table links an appointment and a procedure that
    exist. *)
Definition links_resolve (db : DB) : Prop :=
  ∀ l, l ∈ links db →
    is_Some (appointments db !! AppointmentProcedure.atendimento_id l)
    ∧ is_Some (procedures db !! AppointmentProcedure.procedimento_id l).

(** ** A plain set of collaborators, to run the handlers on examples

    The examples give timestamps in the common format only, which every
    interpreter reads the same; [plain] reads no other. *)

(** An optional sign and decimal digits. *)
Fixpoint decimal_digits (s : string) (acc : Z) : option Z :=
  match s with
  | EmptyString => Some acc
  | String c r => d ← digit c; decimal_digits r (acc * 10 + d)
  end.

Definition decimal (s : string) : option Z :=
  match strip s with
  | EmptyString => None
  | String "-" (String c r) => Z.opp <$> decimal_digits (String c r) 0
  | String "+" (String c r) => decimal_digits (String c r) 0
  | t => decimal_digits t 0
  end.

Definition plain : Collaborators := {|
  float_of_str s := float_of_Z <$> decimal s;
  int_of_str := decimal;
  password_hash s := "pbkdf2:" ++ s;
  check_password h s := String.eqb h ("pbkdf2:" ++ s);
  key_of_value v := match v with VBool b => Some (if b then 1 else 0) | _ => None end;
  text_of_value _ := "";
  fromisoformat_other _ := None;
  column_of_aware dt _ := dt
|}.

(** The basic format of a date, [YYYYMMDD], which
    [datetime.fromisoformat] reads from Python 3.11 on. *)
Definition basic_date (s : string) : option moment :=
  '(y, s) ← digits 4 s 0;
  '(m, s) ← digits 2 s 0;
  '(d, s) ← digits 2 s 0;
  match s with
  | EmptyString =>
      if valid_date (Date y m d)
      then Some (Moment (DateTime (Date y m d) 0 0 0 0) None) else None
  | _ => None
  end.

(** The plain collaborators with an interpreter that reads the basic
    format too. *)
Definition python_3_11 : Collaborators := {|
  float_of_str := float_of_str (Collaborators := plain);
  int_of_str := int_of_str (Collaborators := plain);
  password_hash := password_hash (Collaborators := plain);
  check_password := check_password (Collaborators := plain);
  key_of_value := key_of_value (Collaborators := plain);
  text_of_value := text_of_value (Collaborators := plain);
  fromisoformat_other := basic_date;
  column_of_aware dt _ := dt
|}.

(** ** Example data *)

Definition admin_ana : actor := Actor 1 "admin".
Definition default_bia : actor := Actor 2 "default".

Definition user_ana : User.t :=
  User.Make "ana@clinica.br" "Ana" "admin" "pbkdf2:a1".

Definition new_user_payload : payload :=
  {[ "email" := VStr " bia@clinica.br "; "nome" := VStr "Bia";
     "senha" := VStr "s3nha" ]}.

Definition db_one_user : DB := MkDB {[ 1 := user_ana ]} ∅ ∅ ∅ [].

Definition user_bia : User.t :=
  User.Make "bia@clinica.br" "Bia" "default" "pbkdf2:s3nha".

Definition db_two_users : DB :=
  MkDB {[ 1 := user_ana; 2 := user_bia ]} ∅ ∅ ∅ [].

Definition db_bia_only : DB := MkDB {[ 2 := user_bia ]} ∅ ∅ ∅ [].

Definition consulta : Procedure.t :=
  Procedure.Make "Consulta" "Consulta geral" 100%float 80%float.

Definition db_one_procedure : DB := MkDB {[ 1 := user_ana ]} ∅ {[ 1 := consulta ]} ∅ [].

Definition today_2025 : date := Date 2025 6 15.

Definition patient_payload : payload :=
  {[ "cpf" := VStr "11122233344"; "nome" := VStr "Caio";
     "email" := VStr "caio@mail.br"; "telefone" := VStr "4133334444";
     "data_nascimento" := VStr "2015-06-20"; "estado" := VStr "PR";
     "cidade" := VStr "Curitiba"; "bairro" := VStr "Centro";
     "cep" := VStr "80000000"; "rua" := VStr "Rua XV";
     "numero" := VStr "100" ]}.

Definition guardian_payload : payload :=
  {[ "resp_cpf" := VStr "55566677788"; "resp_nome" := VStr "Dora";
     "resp_data_nascimento" := VStr "1980-01-01";
     "resp_email" := VStr "dora@mail.br";
     "resp_telefone" := VStr "4199998888" ]}.

Definition caio : Patient.t :=
  Patient.Make "11122233344" "Caio" "caio@mail.br" "4133334444"
    (Date 2015 6 20) "PR" "Curitiba" "Centro" "80000000" "Rua XV" "100"
    (Some "55566677788") (Some "Dora") (Some (Date 1980 1 1))
    (Some "dora@mail.br") (Some "4199998888").

Definition db_one_patient : DB := MkDB {[ 1 := user_ana ]} {[ 1 := caio ]} ∅ ∅ [].

(** A bound that is a date alone: [YYYY-MM-DD] and nothing after it. *)
Definition is_date_only (s : string) : bool :=
  match parse_date_part s with
  | Some (_, EmptyString) => true
  | _ => false
  end.

(** [a <= b] on the timestamps of two rows of the appointment table. *)
Definition data_hora_le (a b : Z * Appointment.t) : Prop :=
  dt_leb (Appointment.data_hora a.2) (Appointment.data_hora b.2) = true.

Definition exame : Procedure.t :=
  Procedure.Make "Exame" "Exame de sangue" 50%float 40%float.

Definition at_ (y m d h mi s : Z) : datetime := DateTime (Date y m d) h mi s 0.

(** A small clinic: two users, one patient, two procedures and four
    appointments around the first of January 2024. *)
Definition db_clinic : DB :=
  MkDB {[ 1 := user_ana; 2 := user_bia ]}
       {[ 1 := caio ]}
       {[ 1 := consulta; 2 := exame ]}
       {[ 1 := Appointment.Make (at_ 2024 1 1 9 0 0) "particular" None
                 120%float 2 1;
          2 := Appointment.Make (at_ 2024 1 1 23 59 59) "plano" (Some "C-77")
                 100%float 2 1;
          3 := Appointment.Make (at_ 2024 1 2 0 0 0) "particular" None
                 40%float 1 1;
          4 := Appointment.Make (at_ 2023 12 31 23 59 59) "particular"
                 (Some "C-77") 80%float 2 1 ]}
       [AppointmentProcedure.Make 1 1; AppointmentProcedure.Make 1 2;
        AppointmentProcedure.Make 2 1; AppointmentProcedure.Make 3 2;
        AppointmentProcedure.Make 4 1].

(** What a stage of the appointment update leaves alone. *)
Definition same_billing (a b : Appointment.t) : Prop :=
  Appointment.tipo b = Appointment.tipo a
  ∧ Appointment.numero_carteira b = Appointment.numero_carteira a
  ∧ Appointment.valor_total b = Appointment.valor_total a.

Definition msg_carteira_plano : string :=
  "numero_carteira obrigatório para tipo plano".

Definition ap_4 : Appointment.t :=
  Appointment.Make (at_ 2023 12 31 23 59 59) "particular" (Some "C-77")
    80%float 2 1.

Definition ap_2 : Appointment.t :=
  Appointment.Make (at_ 2024 1 1 23 59 59) "plano" (Some "C-77") 100%float 2 1.

Definition ap_4_plano : Appointment.t :=
  Appointment.Make (at_ 2023 12 31 23 59 59) "plano" (Some "C-77")
    100%float 2 1.

Definition db_clinic_4_plano : DB :=
  MkDB (users db_clinic) (patients db_clinic) (procedures db_clinic)
       (<[4 := ap_4_plano]> (appointments db_clinic)) (links db_clinic).

(** Two procedures with the same two prices. *)
Definition same_prices (p q : Procedure.t) : Prop :=
  Procedure.valor_plano p = Procedure.valor_plano q
  ∧ Procedure.valor_particular p = Procedure.valor_particular q.

(** The state the handlers keep: totals that match the linked procedures,
    over a join table without dangling rows. *)
Definition sound (db : DB) : Prop := consistent db ∧ links_resolve db.

(** The database after a sequence of requests. *)
Definition run `{Collaborators} (db : DB) (rs : list request) : DB :=
  fold_left handle rs db.

(** The three tables the totals depend on are the same in both states. *)
Definition same_billing_tables (db db' : DB) : Prop :=
  procedures db' = procedures db
  ∧ appointments db' = appointments db
  ∧ links db' = links db.

(** A first day at the clinic: a procedure, a patient with a guardian and
    a private appointment for that procedure. *)
Definition booking : list request :=
  [CreateProcedure admin_ana
     {[ "nome" := VStr "Consulta"; "descricao" := VStr "Consulta geral";
        "valor_plano" := VInt 100; "valor_particular" := VFloat 80 ]};
   CreatePatient today_2025 (guardian_payload ∪ patient_payload);
   CreateAppointment default_bia
     {[ "data_hora" := VStr "2025-06-16T10:00:00"; "paciente_id" := VInt 1;
        "procedimentos" := VList [VInt 1]; "tipo" := VStr "particular" ]}].

Definition booked : Appointment.t :=
  Appointment.Make (at_ 2025 6 16 10 0 0) "particular" None 80%float 2 1.

(** The price of the booked procedure is raised. *)
Definition price_edit : request :=
  UpdateProcedure admin_ana 1 {[ "valor_particular" := VFloat 90 ]}.

(** ** The handlers that only read, and the login *)

(** [order_by(Model.id)]: the rows of a table by ascending primary key. *)
Fixpoint insert_by_id {A} (r : Z * A) (l : list (Z * A)) : list (Z * A) :=
  match l with
  | [] => [r]
  | x :: l' => if Z.leb r.1 x.1 then r :: l else x :: insert_by_id r l'
  end.

Definition order_by_id {A} (table : gmap Z A) : list (Z * A) :=
  fold_right insert_by_id [] (map_to_list table).

(** [GET /appointments/<ap_id>], [GET /patients/<patient_id>],
    [GET /procedures/<proc_id>]: [get_or_404], then the row. *)
Definition get_row {A} (table : gmap Z A) (db : DB) (id : Z)
  : outcome (Z * A) :=
  finish (r ← get_or_404 table id; mret (200, (id, r), db)).

Definition get_appointment (db : DB) (ap_id : Z) :=
  get_row (appointments db) db ap_id.
Definition get_patient (db : DB) (patient_id : Z) :=
  get_row (patients db) db patient_id.
Definition get_procedure (db : DB) (proc_id : Z) :=
  get_row (procedures db) db proc_id.

(** [GET /appointments/], [GET /patients/], [GET /procedures/]: the query
    ordered by [id] that goes to the pagination collaborator. *)
Definition list_appointments (db : DB) : outcome (list (Z * Appointment.t)) :=
  Done 200 (order_by_id (appointments db)) db.
Definition list_patients (db : DB) : outcome (list (Z * Patient.t)) :=
  Done 200 (order_by_id (patients db)) db.
Definition list_procedures (db : DB) : outcome (list (Z * Procedure.t)) :=
  Done 200 (order_by_id (procedures db)) db.

(** [GET /users/]: admins only; the query has no order. *)
Definition list_users (db : DB) (who : actor) : outcome (list (Z * User.t)) :=
  finish (
    _ ← refuse_if (negb (is_admin who)) 403 "Acesso negado";
    mret (200, map_to_list (users db), db)).

(** [POST /auth/login]; [generate_token] is the token collaborator, given
    the user's id and [tipo].  The password is checked as it was sent. *)
Definition login `{Collaborators} {T} (generate_token : Z → string → T)
    (db : DB) (data : payload) : outcome (T * (Z * User.t)) :=
  finish (
    let email := get data "email" in
    let senha := get data "senha" in
    _ ← refuse_if (negb (is_valid_string email)
                   || negb (is_valid_string senha)) 400
          "Email e senha são obrigatórios e não podem ser vazios";
    email_cleaned ← strip_value email;
    senha ← match senha with
            | VStr s => inr s
            | _ => raise TypeError
            end;
    match first_row (λ u, String.eqb (User.email u) email_cleaned) (users db)
    with
    | Some (user_id, user) =>
        if check_password (User.senha_hash user) senha
        then mret (200, (generate_token user_id (User.tipo user),
                         (user_id, user)), db)
        else refuse 401 "Credenciais inválidas"
    | None => refuse 401 "Credenciais inválidas"
    end).

(** ** Properties of a whole table *)

(** No two rows of a table agree on the attribute [f]. *)
Definition unique_by {A} (f : A → string) (table : gmap Z A) : Prop :=
  ∀ i j a b, table !! i = Some a → table !! j = Some b → f a = f b → i = j.

(** A text that [strip] leaves as it is, and that is not empty. *)
Definition trimmed (s : string) : Prop := strip s = s ∧ s ≠ "".

(** Every appointment is of a patient that exists. *)
Definition patients_resolve (db : DB) : Prop :=
  ∀ ap_id ap, appointments db !! ap_id = Some ap →
    is_Some (patients db !! Appointment.paciente_id ap).

(** The users, as the handlers keep them: one user for an email, a
    non-empty email and name without surrounding white space, and a role
    that is ['admin'] or ['default']. *)
Definition users_ok (db : DB) : Prop :=
  unique_by User.email (users db)
  ∧ ∀ k u, users db !! k = Some u →
      trimmed (User.email u) ∧ trimmed (User.nome u)
      ∧ (User.tipo u = "admin" ∨ User.tipo u = "default").

(** The procedures, as the handlers keep them: one procedure for a name,
    a non-empty name and description without surrounding white space. *)
Definition procedures_ok (db : DB) : Prop :=
  unique_by Procedure.nome (procedures db)
  ∧ ∀ k p, procedures db !! k = Some p →
      trimmed (Procedure.nome p) ∧ trimmed (Procedure.descricao p).

(** The patients, as the handlers keep them: one patient for a CPF and
    one for an email. *)
Definition patients_ok (db : DB) : Prop :=
  unique_by Patient.cpf (patients db)
  ∧ unique_by Patient.email (patients db).

(** The tables other than [users] are the same in both states. *)
Definition only_users_differ (db db' : DB) : Prop :=
  patients db' = patients db ∧ procedures db' = procedures db
  ∧ appointments db' = appointments db ∧ links db' = links db.

(** The tables other than [patients] are the same in both states. *)
Definition only_patients_differ (db db' : DB) : Prop :=
  users db' = users db ∧ procedures db' = procedures db
  ∧ appointments db' = appointments db ∧ links db' = links db.

(** A week of user administration, from an empty database. *)
Definition user_admin : list request :=
  [Register {[ "email" := VStr "ana@clinica.br"; "nome" := VStr "Ana";
               "tipo" := VStr "admin"; "senha" := VStr "a1" ]};
   CreateUser admin_ana new_user_payload;
   UpdateUser default_bia 2 {[ "nome" := VStr " Bia B. " ]};
   ChangePassword default_bia
     {[ "senha_antiga" := VStr "s3nha"; "senha_nova" := VStr "n0va" ]};
   DeleteUser admin_ana 2].

(** A token that shows what it was made from. *)
Definition plain_token (user_id : Z) (tipo : string) : Z * string :=
  (user_id, tipo).

Definition ana_registers : payload :=
  {[ "email" := VStr " ana@clinica.br"; "nome" := VStr "Ana";
     "tipo" := VStr "admin"; "senha" := VStr "a1" ]}.

(** A request that reaches the procedure handlers from an admin. *)
Definition admin_procedure_request (r : request) : bool :=
  match r with
  | CreateProcedure who _ | UpdateProcedure who _ _ | DeleteProcedure who _ =>
      is_admin who
  | _ => false
  end.

(** What a receptionist can send in a day. *)
Definition reception_day : list request :=
  [CreateProcedure default_bia
     {[ "nome" := VStr "Raio-X"; "descricao" := VStr "Raio-X de tórax";
        "valor_plano" := VInt 70; "valor_particular" := VInt 60 ]};
   UpdateProcedure default_bia 1 {[ "valor_particular" := VFloat 1 ]};
   DeleteProcedure default_bia 2;
   CreatePatient today_2025 (guardian_payload ∪ patient_payload);
   UpdateAppointment default_bia 1 {[ "procedimentos" := VList [VInt 2] ]};
   DeleteAppointment default_bia 4].

(** The five attributes of the guardian of a patient. *)
Definition guardian (p : Patient.t)
  : option string * option string * option date * option string
    * option string :=
  (Patient.resp_cpf p, Patient.resp_nome p, Patient.resp_data_nascimento p,
   Patient.resp_email p, Patient.resp_telefone p).

(** A patient is registered, moves, and cannot be removed twice. *)
Definition patient_admin : list request :=
  [CreatePatient today_2025 (guardian_payload ∪ patient_payload);
   CreatePatient today_2025
     (<[ "email" := VStr "caio2@mail.br" ]>
        (guardian_payload ∪ patient_payload));
   UpdatePatient today_2025 1
     {[ "cidade" := VStr " Londrina "; "email" := VStr "caio@mail.com" ]};
   DeletePatient 1;
   DeletePatient 1].

(** What one step of [update_patient] may do to a patient: the guardian
    and the birth date stay, the CPF and the email stay or become one no
    patient has. *)
Definition patient_step (db : DB) (p p' : Patient.t) : Prop :=
  guardian p' = guardian p
  ∧ Patient.data_nascimento p' = Patient.data_nascimento p
  ∧ (Patient.cpf p' = Patient.cpf p
     ∨ ∀ j b, patients db !! j = Some b → Patient.cpf b ≠ Patient.cpf p')
  ∧ (Patient.email p' = Patient.email p
     ∨ ∀ j b, patients db !! j = Some b →
              Patient.email b ≠ Patient.email p').

(** Every appointment has at least one procedure linked. *)
Definition has_procedures (db : DB) : Prop :=
  ∀ ap_id ap, appointments db !! ap_id = Some ap →
    Appointments.procedimentos_vinculados db ap_id ≠ [].

(** The join rows [POST] and [PUT] write for an appointment: one for each
    resolved procedure, in the order of the payload. *)
Definition links_to (ap_id : Z) (objs : list (Z * Procedure.t))
  : list AppointmentProcedure.t :=
  map (λ p, AppointmentProcedure.Make ap_id p.1) objs.

(** The tables other than [procedures] are the same in both states. *)
Definition only_procedures_differ (db db' : DB) : Prop :=
  users db' = users db ∧ patients db' = patients db
  ∧ appointments db' = appointments db ∧ links db' = links db.

(** The keys of the payload that [update_appointment] reads. *)
Definition appointment_keys : list string :=
  ["data_hora"; "paciente_id"; "procedimentos"; "tipo"; "numero_carteira"].

Definition msg_editar : string :=
  "Apenas criador ou admin pode editar atendimento".
Definition msg_remover : string :=
  "Apenas criador ou admin pode remover atendimento".

(** The appointment of Ana in [db_clinic]. *)
Definition ap_3 : Appointment.t :=
  Appointment.Make (at_ 2024 1 2 0 0 0) "particular" None 40%float 1 1.

Definition ap_1 : Appointment.t :=
  Appointment.Make (at_ 2024 1 1 9 0 0) "particular" None 120%float 2 1.

(** A booking on the clinic, by Bia. *)
Definition booking_payload : payload :=
  {[ "data_hora" := VStr "2025-06-16T10:00:00"; "paciente_id" := VInt 1;
     "procedimentos" := VList [VInt 2; VInt 1]; "tipo" := VStr "plano";
     "numero_carteira" := VStr " C-1 " ]}.

Definition ap_5 : Appointment.t :=
  Appointment.Make (at_ 2025 6 16 10 0 0) "plano" (Some "C-1") 150%float 2 1.

(** A payload that replaces the procedures of an appointment by one. *)
Definition only_exame : payload := {[ "procedimentos" := VList [VInt 2] ]}.

(** Caio comes of age on paper and loses the guardian. *)
Definition grow_up : payload :=
  {[ "data_nascimento" := VStr "2000-01-01";
     "remove_responsavel" := VBool true ]}.

Definition caio_adult : Patient.t :=
  Patient.Make "11122233344" "Caio" "caio@mail.br" "4133334444"
    (Date 2000 1 1) "PR" "Curitiba" "Centro" "80000000" "Rua XV" "100"
    None None None None None.

(** Bia after she has changed her display name. *)
Definition bia_renamed : User.t :=
  User.Make "bia@clinica.br" "Bia B." "default" "pbkdf2:s3nha".

Definition new_password : payload :=
  {[ "senha_antiga" := VStr " s3nha"; "senha_nova" := VStr "n0va " ]}.

Definition bia_logs_in : payload :=
  {[ "email" := VStr "bia@clinica.br"; "senha" := VStr "n0va" ]}.

Definition bia_new_password : User.t :=
  User.Make "bia@clinica.br" "Bia" "default" "pbkdf2:n0va".

Definition msg_not_found : erro := Erro "Not Found".

(** The same name as on file, with a new description. *)
Definition consulta_redescribed : payload :=
  {[ "nome" := VStr "Consulta"; "descricao" := VStr " Consulta inicial " ]}.

Definition new_price : payload := {[ "valor_particular" := VFloat 90 ]}.

Definition consulta_90 : Procedure.t :=
  Procedure.Make "Consulta" "Consulta geral" 100%float 90%float.

Definition infinite_price : payload :=
  {[ "valor_plano" := VFloat infinity ]}.

Definition blank_nome : payload := {[ "nome" := VStr "  " ]}.

Definition caio_payload : payload := guardian_payload ∪ patient_payload.

(** The fields of the payload that [create_patient] reads. *)
Definition patient_fields : list string :=
  (Patients.required_fields.*1 ++ Patients.rfields.*1)%list.

(** A field that is absent, falsy or blank, or else a string. *)
Definition blank_or_string (data : payload) (f : string) : Prop :=
  Patients.missing_or_blank (get data f) = true ∨ ∃ s, get data f = VStr s.

(** The booked appointment once it has a card number. *)
Definition booked_with_card : Appointment.t :=
  Appointment.set_numero_carteira (Some "C-77") booked.

(** * Properties *)

(** ** Tables *)

Lemma any_row_true {A} (f : A → bool) (table : gmap Z A) :
  any_row f table = true ↔ ∃ k r, table !! k = Some r ∧ f r = true.
Proof.
  unfold any_row. rewrite existsb_exists. split.
  - intros [[k r] [Hin Hf]]. exists k, r. split; [|done].
    apply elem_of_map_to_list. by apply list_elem_of_In.
  - intros (k & r & Hk & Hf). exists (k, r). split; [|done].
    apply list_elem_of_In. by apply elem_of_map_to_list.
Qed.

Lemma any_row_false {A} (f : A → bool) (table : gmap Z A) :
  any_row f table = false ↔ ∀ k r, table !! k = Some r → f r = false.
Proof.
  split.
  - intros Hn k r Hk. destruct (f r) eqn:Hf; [|done].
    rewrite <- Hn. symmetry. apply any_row_true. eauto.
  - intros Hall. destruct (any_row f table) eqn:Ha; [|done].
    apply any_row_true in Ha as (k & r & Hk & Hf).
    rewrite (Hall k r Hk) in Hf. discriminate.
Qed.

Lemma first_row_Some {A} (f : A → bool) (table : gmap Z A) k r :
  first_row f table = Some (k, r) → table !! k = Some r ∧ f r = true.
Proof.
  unfold first_row. intros Hf. apply find_some in Hf as [Hin Hf].
  split; [|done]. apply elem_of_map_to_list. by apply list_elem_of_In.
Qed.

Lemma first_row_None {A} (f : A → bool) (table : gmap Z A) :
  first_row f table = None ↔ ∀ k r, table !! k = Some r → f r = false.
Proof.
  unfold first_row. split.
  - intros Hn k r Hk.
    apply (find_none _ _ Hn (k, r)).
    apply list_elem_of_In. by apply elem_of_map_to_list.
  - intros Hall. destruct (List.find _ _) as [[k r]|] eqn:Hf; [|done].
    apply find_some in Hf as [Hin Hf]. simpl in Hf.
    apply list_elem_of_In, elem_of_map_to_list in Hin.
    rewrite (Hall k r Hin) in Hf. discriminate.
Qed.

(** The key of a new row is not in use. *)
Lemma next_id_bound {A} (table : gmap Z A) k :
  is_Some (table !! k) → k < next_id table.
Proof.
  unfold next_id.
  apply (map_fold_weak_ind
           (λ acc (m : gmap Z A), is_Some (m !! k) → k < 1 + acc)).
  - intros [x Hx]. by rewrite lookup_empty in Hx.
  - intros i x m acc Hi IH Hk.
    destruct (decide (i = k)) as [->|Hne]; [lia|].
    rewrite lookup_insert_ne in Hk by done. specialize (IH Hk). lia.
Qed.

Lemma next_id_fresh {A} (table : gmap Z A) : table !! next_id table = None.
Proof.
  destruct (table !! next_id table) eqn:Hk; [|done].
  assert (next_id table < next_id table); [|lia].
  apply next_id_bound. by rewrite Hk.
Qed.

(** ** Strings *)

Lemma is_valid_string_str s :
  is_valid_string (VStr s) = true ↔ strip s ≠ "".
Proof.
  simpl. rewrite negb_true_iff. split.
  - intros Hs Heq. rewrite Heq in Hs. discriminate.
  - intros Hne. by apply String.eqb_neq.
Qed.

Lemma is_valid_string_inv v :
  is_valid_string v = true → ∃ s, v = VStr s ∧ strip s ≠ "".
Proof.
  destruct v; try discriminate. intros Hs. eexists. split; [done|].
  by apply is_valid_string_str.
Qed.

Lemma get_lookup (data : payload) k v : data !! k = Some v → get data k = v.
Proof. unfold get. by intros ->. Qed.

(** ** User creation *)

(** C10: an admin's [POST /users/] whose payload has no [tipo] key and
    carries a non-empty [email], [nome] and [senha], the email not yet
    registered, creates the user with [tipo] ['default'] and answers 201. *)
Theorem create_user_defaults_tipo `{Collaborators} (db : DB) (who : actor)
    (data : payload) (email nome senha : string) :
  is_admin who = true →
  data !! "tipo" = None →
  data !! "email" = Some (VStr email) →
  data !! "nome" = Some (VStr nome) →
  data !! "senha" = Some (VStr senha) →
  strip email ≠ "" → strip nome ≠ "" → strip senha ≠ "" →
  (∀ k u, users db !! k = Some u → User.email u ≠ strip email) →
  let user :=
    User.Make (strip email) (strip nome) "default"
              (password_hash (strip senha)) in
  Users.create_user db who data
  = Done 201 (next_id (users db), user)
      (MkDB (<[next_id (users db) := user]> (users db)) (patients db)
            (procedures db) (appointments db) (links db))
  ∧ User.tipo user = "default".
Proof.
  intros Hadm Htipo Hemail Hnome Hsenha He Hn Hs Hfree user.
  split; [|done].
  unfold Users.create_user, get_default.
  rewrite Hadm, Htipo, (get_lookup _ _ _ Hemail), (get_lookup _ _ _ Hnome),
    (get_lookup _ _ _ Hsenha).
  apply is_valid_string_str in He, Hn, Hs.
  cbn [negb refuse_if mbind stop_bind forallb default].
  rewrite He, Hn, Hs.
  replace (is_valid_string (VStr "default")) with true by reflexivity.
  cbn [andb negb refuse_if mbind stop_bind strip_value].
  replace (strip "default") with "default" by reflexivity.
  cbn [existsb String.eqb Ascii.eqb Bool.eqb orb negb refuse_if].
  replace (any_row _ (users db)) with false; [done|].
  symmetry. apply any_row_false. intros k u Hk.
  apply String.eqb_neq. by apply (Hfree k u).
Qed.

Lemma create_user_defaults_tipo_witness :
  Users.create_user (H := plain) db_one_user admin_ana new_user_payload
  = Done 201
      (2, User.Make "bia@clinica.br" "Bia" "default" "pbkdf2:s3nha")
      (MkDB {[ 1 := user_ana;
               2 := User.Make "bia@clinica.br" "Bia" "default" "pbkdf2:s3nha" ]}
            ∅ ∅ ∅ [])
  ∧ User.tipo (User.Make "bia@clinica.br" "Bia" "default" "pbkdf2:s3nha")
    = "default".
Proof.
  assert (Hfree : ∀ k u, users db_one_user !! k = Some u →
                         User.email u ≠ strip " bia@clinica.br ").
  { intros k u Hk. apply String.eqb_neq. revert k u Hk.
    apply any_row_false. vm_compute. reflexivity. }
  pose proof (create_user_defaults_tipo (H := plain) db_one_user admin_ana
                new_user_payload " bia@clinica.br " "Bia" "s3nha"
                ltac:(reflexivity) ltac:(reflexivity) ltac:(reflexivity)
                ltac:(reflexivity) ltac:(reflexivity)
                ltac:(vm_compute; discriminate) ltac:(vm_compute; discriminate)
                ltac:(vm_compute; discriminate) Hfree) as Hw.
  vm_compute in Hw |- *. exact Hw.
Defined.

(** ** User lookup by email *)

(** C9, as stated, fails: the same actor asking for the same email is
    answered 403 when the email is registered to someone else and 404 when
    nobody has it. *)
Lemma get_by_email_reveals_existence :
  is_admin default_bia = false
  ∧ Users.get_by_email db_two_users default_bia
      (Some "ana@clinica.br")
    = Refused 403 (Erro "Acesso negado")
  ∧ Users.get_by_email db_bia_only default_bia
      (Some "ana@clinica.br")
    = Refused 404 (Erro "Usuário não encontrado").
Proof. vm_compute. done. Qed.

(** C9, amended: for an actor who is not an admin and a non-empty email
    that is not the actor's own, the answer is 403 when some user has the
    email and 404 when none has. *)
Theorem get_by_email_other_user (db : DB) (who : actor)
    (email : string) :
  is_admin who = false →
  strip email ≠ "" →
  (∀ u, users db !! actor_id who = Some u → User.email u ≠ strip email) →
  ((∃ k u, users db !! k = Some u ∧ User.email u = strip email) →
   Users.get_by_email db who (Some email) = Refused 403 (Erro "Acesso negado"))
  ∧ ((∀ k u, users db !! k = Some u → User.email u ≠ strip email) →
     Users.get_by_email db who (Some email)
     = Refused 404 (Erro "Usuário não encontrado")).
Proof.
  intros Hadm He Hown.
  apply is_valid_string_str in He.
  unfold Users.get_by_email, arg. rewrite He, Hadm.
  cbn [negb refuse_if mbind stop_bind strip_value andb].
  split.
  - intros (k & u & Hk & Hu).
    destruct (first_row _ (users db)) as [[k' u']|] eqn:Hf.
    + apply first_row_Some in Hf as [Hk' Hu']. apply String.eqb_eq in Hu'.
      cbn [mbind stop_bind fst].
      destruct (Z.eqb_spec (actor_id who) k') as [Heq|Hne]; [|done].
      subst k'. by destruct (Hown u' Hk').
    + rewrite first_row_None in Hf. specialize (Hf k u Hk).
      apply String.eqb_neq in Hf. done.
  - intros Hnone.
    destruct (first_row _ (users db)) as [[k' u']|] eqn:Hf; [|done].
    apply first_row_Some in Hf as [Hk' Hu']. apply String.eqb_eq in Hu'.
    by destruct (Hnone k' u' Hk').
Qed.

Lemma get_by_email_other_user_witness :
  Users.get_by_email db_two_users default_bia
    (Some "ana@clinica.br")
  = Refused 403 (Erro "Acesso negado").
Proof.
  refine (proj1 (get_by_email_other_user db_two_users default_bia
                   "ana@clinica.br" _ _ _) _).
  - reflexivity.
  - vm_compute. discriminate.
  - intros u Hu. vm_compute in Hu. injection Hu as <-. vm_compute. discriminate.
  - exists 1, user_ana. split; reflexivity.
Defined.

(** ** Timestamps *)

Lemma digits_length n s acc v r :
  digits n s acc = Some (v, r) →
  String.length s = (n + String.length r)%nat.
Proof.
  revert s acc. induction n as [|n IH]; intros s acc; simpl.
  - by intros [= _ ->].
  - destruct s as [|c s]; [done|]. destruct (digit c) as [d|]; [|done].
    simpl. intros Hd. apply IH in Hd. simpl. lia.
Qed.

Lemma expect_length c s r :
  expect c s = Some r → String.length s = S (String.length r).
Proof.
  destruct s as [|c' s]; [done|]. simpl.
  destruct (Ascii.eqb c c'); [|done]. by intros [= ->].
Qed.

Lemma parse_date_part_length s d r :
  parse_date_part s = Some (d, r) →
  String.length s = (10 + String.length r)%nat.
Proof.
  unfold parse_date_part.
  destruct (digits 4 s 0) as [[y s1]|] eqn:H1; [|done].
  cbn [mbind option_bind].
  destruct (expect "-" s1) as [s2|] eqn:H2; [|done].
  cbn [mbind option_bind].
  destruct (digits 2 s2 0) as [[m s3]|] eqn:H3; [|done].
  cbn [mbind option_bind].
  destruct (expect "-" s3) as [s4|] eqn:H4; [|done].
  cbn [mbind option_bind].
  destruct (digits 2 s4 0) as [[d' s5]|] eqn:H5; [|done].
  cbn [mbind option_bind].
  destruct (valid_date _); [|done]. intros [= _ ->].
  apply digits_length in H1, H3, H5. apply expect_length in H2, H4. lia.
Qed.

(** Among the timestamps of the common format, the handler's test
    [len(end_cleaned) == 10] singles out those that are a date alone. *)
Lemma length_10_date_only s dt :
  isoformat_common s = Some dt →
  Nat.eqb (String.length s) 10 = is_date_only s.
Proof.
  unfold isoformat_common, is_date_only.
  destruct (parse_date_part s) as [[d r]|] eqn:Hd; [|done].
  apply parse_date_part_length in Hd. simpl. intros _.
  destruct r as [|c r]; simpl in Hd.
  - rewrite Hd. reflexivity.
  - apply Nat.eqb_neq. lia.
Qed.

(** A date alone, [YYYY-MM-DD], has 10 characters and every interpreter
    reads it as the midnight that starts the day. *)
Lemma date_only_midnight `{Collaborators} s :
  is_date_only s = true →
  ∃ d, parse_date_part s = Some (d, "")
       ∧ fromisoformat s = Some (Moment (DateTime d 0 0 0 0) None)
       ∧ Nat.eqb (String.length s) 10 = true.
Proof.
  unfold is_date_only, fromisoformat, isoformat_common.
  destruct (parse_date_part s) as [[d r]|] eqn:Hd; [|done].
  destruct r; [|done]. intros _. exists d.
  apply parse_date_part_length in Hd. cbn [mbind option_bind].
  split; [done|]. split; [done|]. by rewrite Hd.
Qed.

Lemma lex_compare_flip a b :
  lex_compare a b = Gt → lex_compare b a = Lt.
Proof.
  revert b. induction a as [|x a IH]; intros [|y b]; simpl; try done.
  destruct (Z.compare_spec x y), (Z.compare_spec y x); try lia; try done.
  apply IH.
Qed.

Lemma lex_compare_trans a b c :
  lex_compare a b ≠ Gt → lex_compare b c ≠ Gt → lex_compare a c ≠ Gt.
Proof.
  revert b c. induction a as [|x a IH]; intros [|y b] [|z c]; simpl;
    try done.
  destruct (Z.compare_spec x y), (Z.compare_spec y z), (Z.compare_spec x z);
    try lia; try done.
  apply IH.
Qed.

Lemma dt_leb_total a b : dt_leb a b = false → dt_leb b a = true.
Proof.
  unfold dt_leb. destruct (lex_compare (dt_fields a) _) eqn:Hc; try done.
  by rewrite (lex_compare_flip _ _ Hc).
Qed.

Lemma dt_leb_trans a b c :
  dt_leb a b = true → dt_leb b c = true → dt_leb a c = true.
Proof.
  unfold dt_leb. intros Hab Hbc.
  pose proof (lex_compare_trans (dt_fields a) (dt_fields b) (dt_fields c)).
  destruct (lex_compare (dt_fields a) (dt_fields b));
    destruct (lex_compare (dt_fields b) (dt_fields c));
    destruct (lex_compare (dt_fields a) (dt_fields c)); try done;
    exfalso; by apply H.
Qed.

(** ** Ordered queries *)

Lemma insert_by_data_hora_perm r l :
  Appointments.insert_by_data_hora r l ≡ₚ r :: l.
Proof.
  induction l as [|x l IH]; simpl; [done|].
  destruct (dt_leb _ _); [done|]. rewrite IH. apply Permutation_swap.
Qed.

Lemma order_by_data_hora_perm l : Appointments.order_by_data_hora l ≡ₚ l.
Proof.
  induction l as [|x l IH]; simpl; [done|].
  rewrite insert_by_data_hora_perm. by rewrite IH.
Qed.

Lemma insert_by_data_hora_sorted r l :
  StronglySorted data_hora_le l →
  StronglySorted data_hora_le (Appointments.insert_by_data_hora r l).
Proof.
  induction 1 as [|x l Hs IH Hall]; simpl.
  - repeat constructor.
  - destruct (dt_leb _ _) eqn:Hle.
    + constructor; [by constructor|]. constructor; [done|].
      eapply Forall_impl; [exact Hall|]. intros y Hy.
      unfold data_hora_le in *. eauto using dt_leb_trans.
    + constructor; [done|].
      rewrite insert_by_data_hora_perm. constructor; [|done].
      by apply dt_leb_total.
Qed.

Lemma order_by_data_hora_sorted l :
  StronglySorted data_hora_le (Appointments.order_by_data_hora l).
Proof.
  induction l as [|x l IH]; simpl; [constructor|].
  by apply insert_by_data_hora_sorted.
Qed.

Lemma NoDup_list_filter {A} (f : A → bool) (l : list A) :
  NoDup l → NoDup (List.filter f l).
Proof.
  induction 1 as [|x l Hx Hl IH]; simpl; [constructor|].
  destruct (f x); [|done]. constructor; [|done].
  rewrite list_elem_of_In, filter_In, <- list_elem_of_In. tauto.
Qed.

(** ** Appointments between two dates *)

Section Between.
Context `{Collaborators}.

(** The answer to two bounds that are not blank and that the interpreter
    parses: the rows from the start to the end, the end moved to 23:59:59
    when its text has 10 characters. *)
Lemma list_between_dates_rows db s0 e0 s e :
  strip s0 ≠ "" → strip e0 ≠ "" →
  fromisoformat (strip s0) = Some s →
  fromisoformat (strip e0) = Some e →
  let upper :=
    if Nat.eqb (String.length (strip e0)) 10 then replace_hms e 23 59 59
    else e in
  ∃ rows,
    Appointments.list_between_dates db (Some s0) (Some e0)
    = Done 200 rows db
    ∧ NoDup rows
    ∧ (∀ r, r ∈ rows ↔
            appointments db !! r.1 = Some r.2
            ∧ dt_leb (column s) (Appointment.data_hora r.2) = true
            ∧ dt_leb (Appointment.data_hora r.2) (column upper) = true)
    ∧ StronglySorted data_hora_le rows.
Proof.
  intros Hs0 He0 Hs He upper.
  apply is_valid_string_str in Hs0, He0.
  unfold Appointments.list_between_dates, arg. rewrite Hs0, He0.
  cbn [negb orb refuse_if mbind stop_bind strip_value].
  rewrite Hs, He. cbn [mbind stop_bind mret stop_ret finish].
  fold upper. eexists. split; [reflexivity|]. split; [|split].
  - rewrite order_by_data_hora_perm. apply NoDup_list_filter.
    apply NoDup_map_to_list.
  - intros [k ap]. rewrite order_by_data_hora_perm.
    rewrite list_elem_of_In, filter_In, <- list_elem_of_In.
    rewrite elem_of_map_to_list, andb_true_iff. done.
  - apply order_by_data_hora_sorted.
Qed.

End Between.

(** C8, as stated, fails where the interpreter reads a date alone that
    does not have 10 characters: Python 3.11 and later read [20240101] as
    the first of January 2024, the handler does not move it to 23:59:59,
    and the appointments 1 and 2 of that day, at 09:00:00 and 23:59:59,
    are not in the answer. *)
Lemma basic_date_end_is_not_promoted :
  Appointments.list_between_dates (H := python_3_11) db_clinic
    (Some "2024-01-01") (Some "20240101")
  = Done 200 [] db_clinic
  ∧ fromisoformat (H := python_3_11) "20240101"
    = Some (Moment (at_ 2024 1 1 0 0 0) None)
  ∧ appointments db_clinic !! 1 = Some ap_1
  ∧ dt_leb (at_ 2024 1 1 0 0 0) (Appointment.data_hora ap_1) = true
  ∧ dt_leb (Appointment.data_hora ap_1) (at_ 2024 1 1 23 59 59) = true.
Proof. vm_compute. done. Qed.

(** C8, amended: [listBetween] refuses a missing or blank bound, and a
    bound the interpreter's [datetime.fromisoformat] does not parse, with
    400.  For two bounds that parse it answers with the appointments whose
    [data_hora] lies between the start and the end, both included and each
    once, ordered by [data_hora]; the end is moved to 23:59:59 of its day
    exactly when its text has 10 characters.  So an end bound that is a
    date alone in the form [YYYY-MM-DD] stands for 23:59:59 of that day,
    and one of the form [YYYY-MM-DD*HH[:MM[:SS[.fff[fff]]]]] is taken as it
    is. *)
Theorem list_between_dates_range `{Collaborators} (db : DB)
    (start end_ : option string) :
  (is_valid_string (arg start) = false ∨ is_valid_string (arg end_) = false →
   ∃ e, Appointments.list_between_dates db start end_ = Refused 400 e)
  ∧ (∀ s0 e0,
       start = Some s0 → end_ = Some e0 →
       fromisoformat (strip s0) = None ∨ fromisoformat (strip e0) = None →
       ∃ e, Appointments.list_between_dates db start end_ = Refused 400 e)
  ∧ (∀ s0 e0 s e,
       start = Some s0 → end_ = Some e0 →
       strip s0 ≠ "" → strip e0 ≠ "" →
       fromisoformat (strip s0) = Some s →
       fromisoformat (strip e0) = Some e →
       let upper :=
         if Nat.eqb (String.length (strip e0)) 10
         then replace_hms e 23 59 59 else e in
       ∃ rows,
         Appointments.list_between_dates db start end_ = Done 200 rows db
         ∧ NoDup rows
         ∧ (∀ r, r ∈ rows ↔
                 appointments db !! r.1 = Some r.2
                 ∧ dt_leb (column s) (Appointment.data_hora r.2) = true
                 ∧ dt_leb (Appointment.data_hora r.2) (column upper) = true)
         ∧ StronglySorted data_hora_le rows)
  ∧ (∀ s0 e0 s d,
       start = Some s0 → end_ = Some e0 →
       strip s0 ≠ "" →
       fromisoformat (strip s0) = Some s →
       parse_date_part (strip e0) = Some (d, "") →
       ∃ rows,
         Appointments.list_between_dates db start end_ = Done 200 rows db
         ∧ NoDup rows
         ∧ (∀ r, r ∈ rows ↔
                 appointments db !! r.1 = Some r.2
                 ∧ dt_leb (column s) (Appointment.data_hora r.2) = true
                 ∧ dt_leb (Appointment.data_hora r.2)
                     (DateTime d 23 59 59 0) = true)
         ∧ StronglySorted data_hora_le rows)
  ∧ (∀ s0 e0 s e,
       start = Some s0 → end_ = Some e0 →
       strip s0 ≠ "" →
       fromisoformat (strip s0) = Some s →
       isoformat_common (strip e0) = Some e →
       is_date_only (strip e0) = false →
       ∃ rows,
         Appointments.list_between_dates db start end_ = Done 200 rows db
         ∧ NoDup rows
         ∧ (∀ r, r ∈ rows ↔
                 appointments db !! r.1 = Some r.2
                 ∧ dt_leb (column s) (Appointment.data_hora r.2) = true
                 ∧ dt_leb (Appointment.data_hora r.2) e = true)
         ∧ StronglySorted data_hora_le rows).
Proof.
  split; [|split; [|split; [|split]]].
  - intros Hblank. unfold Appointments.list_between_dates.
    replace (negb (is_valid_string (arg start))
             || negb (is_valid_string (arg end_))) with true.
    + eexists. reflexivity.
    + destruct Hblank as [-> | ->]; [done|]. by rewrite orb_true_r.
  - intros s0 e0 -> -> Hnone.
    unfold Appointments.list_between_dates, arg.
    destruct (negb (is_valid_string (VStr s0))
              || negb (is_valid_string (VStr e0))); [by eexists|].
    cbn [refuse_if mbind stop_bind strip_value].
    destruct Hnone as [-> | ->]; [by eexists|].
    destruct (fromisoformat (strip s0)); by eexists.
  - intros s0 e0 s e -> ->. apply list_between_dates_rows.
  - intros s0 e0 s d -> -> Hs0 Hs Hd.
    assert (Hdo : is_date_only (strip e0) = true).
    { unfold is_date_only. by rewrite Hd. }
    destruct (date_only_midnight _ Hdo) as (d' & Hd' & He & Hlen).
    rewrite Hd in Hd'. injection Hd' as <-.
    assert (He0 : strip e0 ≠ "").
    { intros Hempty. by rewrite Hempty in Hlen. }
    pose proof (list_between_dates_rows db s0 e0 s _ Hs0 He0 Hs He) as Hrows.
    cbv zeta in Hrows. by rewrite Hlen in Hrows.
  - intros s0 e0 s e -> -> Hs0 Hs He Hdo.
    assert (Hlen : Nat.eqb (String.length (strip e0)) 10 = false).
    { by rewrite (length_10_date_only _ _ He). }
    assert (He0 : strip e0 ≠ "").
    { intros Hempty. by rewrite Hempty in He. }
    assert (He' : fromisoformat (strip e0) = Some (Moment e None)).
    { unfold fromisoformat. by rewrite He. }
    pose proof (list_between_dates_rows db s0 e0 s _ Hs0 He0 Hs He')
      as Hrows.
    cbv zeta in Hrows. by rewrite Hlen in Hrows.
Qed.

(** Scenario E of the specification: the first of January 2024, given as
    a date alone at both ends. *)
Lemma list_between_dates_range_witness :
  ∃ rows,
    Appointments.list_between_dates (H := plain) db_clinic
      (Some "2024-01-01") (Some " 2024-01-01 ")
    = Done 200 rows db_clinic
    ∧ NoDup rows
    ∧ (∀ r, r ∈ rows ↔
            appointments db_clinic !! r.1 = Some r.2
            ∧ dt_leb (column (H := plain) (Moment (at_ 2024 1 1 0 0 0) None))
                (Appointment.data_hora r.2) = true
            ∧ dt_leb (Appointment.data_hora r.2)
                (DateTime (Date 2024 1 1) 23 59 59 0) = true)
    ∧ StronglySorted data_hora_le rows.
Proof.
  apply (proj1 (proj2 (proj2 (proj2
           (list_between_dates_range (H := plain) db_clinic
              (Some "2024-01-01") (Some " 2024-01-01 ")))))
           "2024-01-01" " 2024-01-01 " (Moment (at_ 2024 1 1 0 0 0) None)
           (Date 2024 1 1) eq_refl eq_refl).
  - vm_compute. discriminate.
  - reflexivity.
  - reflexivity.
Defined.

(** Scenario E of the specification, run. *)
Example list_between_dates_one_day :
  Appointments.list_between_dates (H := plain) db_clinic (Some "2024-01-01")
    (Some "2024-01-01")
  = Done 200
      [(1, Appointment.Make (at_ 2024 1 1 9 0 0) "particular" None
             120%float 2 1);
       (2, Appointment.Make (at_ 2024 1 1 23 59 59) "plano" (Some "C-77")
             100%float 2 1)]
      db_clinic.
Proof. vm_compute. reflexivity. Qed.

(** A bound with a time is taken as it is. *)
Example list_between_dates_with_time :
  Appointments.list_between_dates (H := plain) db_clinic
    (Some "2023-12-31T23:59:59") (Some "2024-01-01T09:00:00")
  = Done 200
      [(4, Appointment.Make (at_ 2023 12 31 23 59 59) "particular"
             (Some "C-77") 80%float 2 1);
       (1, Appointment.Make (at_ 2024 1 1 9 0 0) "particular" None
             120%float 2 1)]
      db_clinic.
Proof. vm_compute. reflexivity. Qed.

(** ** Handler bodies *)

Lemma finish_Done {A} (m : stop + (Z * A * DB)) st body db' :
  finish m = Done st body db' ↔ m = inr (st, body, db').
Proof.
  destruct m as [[]|[[]]]; simpl; split; intros Hm; by simplify_eq.
Qed.

Lemma refuse_if_inr c st text u :
  refuse_if c st text = inr u ↔ c = false.
Proof. destruct c, u; simpl; split; intros Hm; by simplify_eq. Qed.

Lemma bind_inr {A B} (m : stop + A) (k : A → stop + B) b :
  m ≫= k = inr b ↔ ∃ a, m = inr a ∧ k a = inr b.
Proof.
  destruct m as [e|a]; simpl; split.
  - done.
  - by intros (a & Ha & _).
  - eauto.
  - by intros (a' & [= <-] & Hk).
Qed.

(** Skips the steps of a handler body that came to an end. *)
Ltac skip_steps E :=
  repeat (cbv zeta in E; apply bind_inr in E as (? & _ & E)).

(** Opens the pairs a step binds with a pattern. *)
Ltac open_pairs E :=
  repeat match type of E with
         | context [match ?x with pair _ _ => _ end] => is_var x; destruct x
         end.

(** ** Appointment update, stage by stage *)

Section AppointmentUpdate.
Context `{Collaborators}.
Import Appointment.

Lemma apply_data_hora_billing data ap ap' :
  Appointments.apply_data_hora data ap = inr ap' → same_billing ap ap'.
Proof.
  unfold Appointments.apply_data_hora.
  destruct (truthy _); [|by intros [= <-]].
  destruct (refuse_if _ _ _); [done|]. cbn [mbind stop_bind].
  destruct (get data "data_hora"); try done.
  destruct (fromisoformat _); [|done]. by intros [= <-].
Qed.

Lemma apply_paciente_billing db data ap ap' :
  Appointments.apply_paciente db data ap = inr ap' → same_billing ap ap'.
Proof.
  unfold Appointments.apply_paciente.
  destruct (truthy _); [|by intros [= <-]].
  destruct (Appointments.get_paciente _ _); [done|]. by intros [= <-].
Qed.

Lemma check_tipo_inr v t :
  Appointments.check_tipo v = inr t →
  v = VStr t ∧ (t = "plano" ∨ t = "particular").
Proof.
  unfold Appointments.check_tipo.
  destruct (refuse_if _ _ _) eqn:Hc; [done|]. cbn [mbind stop_bind].
  apply refuse_if_inr, orb_false_iff in Hc as [_ Hin].
  destruct v; try done. intros [= <-]. split; [done|].
  apply negb_false_iff in Hin. simpl in Hin.
  rewrite orb_false_r in Hin. apply orb_true_iff in Hin.
  destruct Hin as [Hin|Hin]; apply String.eqb_eq in Hin; auto.
Qed.

Lemma apply_tipo_inr data ap ap' :
  Appointments.apply_tipo data ap = inr ap' →
  (truthy (get data "tipo") = false ∧ ap' = ap)
  ∨ (∃ t, get data "tipo" = VStr t ∧ (t = "plano" ∨ t = "particular")
          ∧ ap' = set_tipo t ap).
Proof.
  unfold Appointments.apply_tipo.
  destruct (truthy _); [|intros [= <-]; by left].
  destruct (Appointments.check_tipo _) as [|t] eqn:Ht; [done|].
  intros [= <-]. right. apply check_tipo_inr in Ht as [Hv Ht].
  exists t. split; [done|]. split; [done|].
  by destruct Ht as [-> | ->].
Qed.

Lemma apply_numero_carteira_inr data ap ap' :
  Appointments.apply_numero_carteira data ap = inr ap' →
  (get data "numero_carteira" = VNone ∧ ap' = ap)
  ∨ (is_valid_string (get data "numero_carteira") = false
     ∧ ap' = set_numero_carteira None ap)
  ∨ (∃ s, get data "numero_carteira" = VStr s ∧ strip s ≠ ""
          ∧ ap' = set_numero_carteira (Some (strip s)) ap).
Proof.
  unfold Appointments.apply_numero_carteira.
  destruct (get data "numero_carteira") as [| | | |s| |] eqn:Hv; simpl;
    try (intros [= <-]; by auto).
  destruct (negb (String.eqb (strip s) "")) eqn:Hs; simpl.
  - intros [= <-]. right. right. exists s. split; [done|]. split; [|done].
    apply negb_true_iff in Hs. by apply String.eqb_neq.
  - intros [= <-]. auto.
Qed.

(** A blank [numero_carteira] clears the field; it raises nothing. *)
Lemma apply_numero_carteira_blank data ap s :
  get data "numero_carteira" = VStr s → strip s = "" →
  Appointments.apply_numero_carteira data ap
  = inr (set_numero_carteira None ap).
Proof.
  intros Hv Hs. unfold Appointments.apply_numero_carteira.
  rewrite Hv. simpl. by rewrite Hs.
Qed.

Lemma recompute_inr db ap_id data changed objs ap ap' :
  Appointments.recompute db ap_id data changed objs ap = inr ap' →
  tipo ap' = tipo ap ∧ numero_carteira ap' = numero_carteira ap
  ∧ data_hora ap' = data_hora ap ∧ usuario_id ap' = usuario_id ap
  ∧ paciente_id ap' = paciente_id ap
  ∧ (if changed || has_key data "tipo" then
       ∃ procs,
         (if changed then procs = objs.*2
          else Appointments.linked_procedures db ap_id = Some procs)
         ∧ valor_total ap' = Appointments.calc_valor_total procs (tipo ap)
     else ap' = ap).
Proof.
  unfold Appointments.recompute.
  destruct (changed || has_key data "tipo"); [|by intros [= <-]].
  destruct changed; simpl.
  - intros [= <-]. repeat split; eauto.
  - destruct (Appointments.linked_procedures db ap_id) as [ps|]; [|done].
    simpl. intros [= <-]. repeat split; eauto.
Qed.

Lemma apply_fields_inr db ap_id data ap0 ap changed objs ls :
  Appointments.apply_fields db ap_id data ap0 = inr (ap, changed, objs, ls) →
  ∃ a1 a2 a3,
    Appointments.apply_data_hora data ap0 = inr a1
    ∧ Appointments.apply_paciente db data a1 = inr a2
    ∧ Appointments.apply_procedimentos db ap_id data
      = inr (changed, objs, ls)
    ∧ Appointments.apply_tipo data a2 = inr a3
    ∧ Appointments.apply_numero_carteira data a3 = inr ap.
Proof.
  unfold Appointments.apply_fields. intros Hf.
  apply bind_inr in Hf as (a1 & H1 & Hf).
  apply bind_inr in Hf as (a2 & H2 & Hf).
  apply bind_inr in Hf as ([[c o] l] & H3 & Hf).
  apply bind_inr in Hf as (a3 & H4 & Hf).
  apply bind_inr in Hf as (a4 & H5 & Hf).
  injection Hf as <- <- <- <-. eauto 10.
Qed.

Lemma update_appointment_Done db who ap_id data st body db' :
  Appointments.update_appointment db who ap_id data = Done st body db' →
  ∃ ap0 ap1 changed objs ls ap',
    appointments db !! ap_id = Some ap0
    ∧ Appointments.not_owner who ap0 = false
    ∧ Appointments.apply_fields db ap_id data ap0
      = inr (ap1, changed, objs, ls)
    ∧ Appointments.check_carteira ap1 = inr tt
    ∧ Appointments.recompute db ap_id data changed objs ap1 = inr ap'
    ∧ st = 200 ∧ body = (ap_id, ap')
    ∧ db' = MkDB (users db) (patients db) (procedures db)
              (<[ap_id := ap']> (appointments db)) ls.
Proof.
  unfold Appointments.update_appointment. intros Hu.
  apply finish_Done in Hu.
  apply bind_inr in Hu as (ap0 & H0 & Hu).
  apply bind_inr in Hu as ([] & H1 & Hu).
  apply bind_inr in Hu as ([[[ap1 c] o] l] & H2 & Hu).
  apply bind_inr in Hu as ([] & H3 & Hu).
  apply bind_inr in Hu as (ap' & H4 & Hu).
  injection Hu as <- <- <-.
  exists ap0, ap1, c, o, l, ap'.
  unfold get_or_404 in H0.
  destruct (appointments db !! ap_id) eqn:Hap; [|done].
  injection H0 as ->. apply refuse_if_inr in H1. eauto 10.
Qed.

End AppointmentUpdate.

(** ** The insurance card number *)

(** C4: on update a blank [numero_carteira] clears the field and raises
    nothing, where create refuses it; and whatever the payload, once its
    fields are applied an appointment of [tipo] ['plano'] with no
    [numero_carteira] makes the update fail with 400. *)
Theorem update_appointment_numero_carteira `{Collaborators} (db : DB)
    (who : actor) (ap_id : Z) (data : payload) :
  (* a blank value, sent alone to an appointment that is not 'plano',
     is stored as null *)
  (∀ ap0 s,
     appointments db !! ap_id = Some ap0 →
     Appointments.not_owner who ap0 = false →
     data = {[ "numero_carteira" := VStr s ]} → strip s = "" →
     Appointment.tipo ap0 ≠ "plano" →
     Appointments.update_appointment db who ap_id data
     = Done 200 (ap_id, Appointment.set_numero_carteira None ap0)
         (MkDB (users db) (patients db) (procedures db)
               (<[ap_id := Appointment.set_numero_carteira None ap0]>
                  (appointments db)) (links db)))
  (* in any payload, a blank value is stored as null *)
  ∧ (∀ s st body db',
       get data "numero_carteira" = VStr s → strip s = "" →
       Appointments.update_appointment db who ap_id data = Done st body db' →
       Appointment.numero_carteira body.2 = None)
  (* create refuses it *)
  ∧ (∀ s st body db',
       get data "tipo" = VStr "plano" →
       get data "numero_carteira" = VStr s → strip s = "" →
       Appointments.create_appointment db who data ≠ Done st body db')
  (* the check after the field updates *)
  ∧ (∀ ap0 ap changed objs ls,
       appointments db !! ap_id = Some ap0 →
       Appointments.not_owner who ap0 = false →
       Appointments.apply_fields db ap_id data ap0
       = inr (ap, changed, objs, ls) →
       Appointment.tipo ap = "plano" →
       empty_text (Appointment.numero_carteira ap) = true →
       Appointments.update_appointment db who ap_id data
       = Refused 400 (Erro msg_carteira_plano))
  ∧ (∀ st body db',
       Appointments.update_appointment db who ap_id data = Done st body db' →
       ¬ (Appointment.tipo body.2 = "plano"
          ∧ empty_text (Appointment.numero_carteira body.2) = true)).
Proof.
  repeat split.
  - intros ap0 s Hap Hown -> Hs Htipo.
    unfold Appointments.update_appointment, get_or_404.
    rewrite Hap. cbn [mbind stop_bind]. rewrite Hown.
    cbn [refuse_if mbind stop_bind].
    unfold Appointments.apply_fields, Appointments.apply_data_hora,
      Appointments.apply_paciente, Appointments.apply_procedimentos,
      Appointments.apply_tipo.
    replace (get _ "data_hora") with VNone by reflexivity.
    replace (get _ "paciente_id") with VNone by reflexivity.
    replace (get _ "procedimentos") with VNone by reflexivity.
    replace (get _ "tipo") with VNone by reflexivity.
    cbn [truthy is_none negb mbind stop_bind mret stop_ret].
    erewrite apply_numero_carteira_blank by (try reflexivity; done).
    cbn [mbind stop_bind mret stop_ret].
    unfold Appointments.check_carteira, Appointments.recompute.
    cbn [Appointment.tipo Appointment.set_numero_carteira].
    apply String.eqb_neq in Htipo. rewrite Htipo.
    replace (has_key _ "tipo") with false by reflexivity.
    reflexivity.
  - intros s st body db' Hv Hs Hu.
    apply update_appointment_Done in Hu
      as (ap0 & ap1 & c & o & l & ap' & _ & _ & Hf & _ & Hr & _ & -> & _).
    apply apply_fields_inr in Hf as (a1 & a2 & a3 & _ & _ & _ & _ & H5).
    rewrite (apply_numero_carteira_blank _ _ _ Hv Hs) in H5.
    injection H5 as <-.
    apply recompute_inr in Hr as (_ & Hn & _). cbn [snd].
    rewrite Hn. reflexivity.
  - intros s st body db' Ht Hv Hs Hc.
    unfold Appointments.create_appointment in Hc.
    apply finish_Done in Hc.
    apply bind_inr in Hc as ([] & _ & Hc).
    apply bind_inr in Hc as (tipo & Htipo & Hc).
    apply check_tipo_inr in Htipo as [Htipo _].
    rewrite Ht in Htipo. injection Htipo as <-.
    apply bind_inr in Hc as (dh & _ & Hc).
    apply bind_inr in Hc as (pid & _ & Hc).
    apply bind_inr in Hc as (ids & _ & Hc).
    apply bind_inr in Hc as (objs & _ & Hc).
    apply bind_inr in Hc as (nc & Hnc & _).
    rewrite Hv in Hnc. simpl in Hnc. rewrite Hs in Hnc. discriminate.
  - intros ap0 ap changed objs ls Hap Hown Hf Ht He.
    unfold Appointments.update_appointment, get_or_404.
    rewrite Hap. cbn [mbind stop_bind]. rewrite Hown.
    cbn [refuse_if mbind stop_bind]. rewrite Hf.
    cbn [mbind stop_bind]. unfold Appointments.check_carteira.
    rewrite Ht, He. reflexivity.
  - intros st body db' Hu [Ht He].
    apply update_appointment_Done in Hu
      as (ap0 & ap1 & c & o & l & ap' & _ & _ & _ & Hc & Hr & _ & -> & _).
    apply recompute_inr in Hr as (Ht' & Hn' & _). simpl in Ht, He.
    rewrite Ht' in Ht. rewrite Hn' in He.
    unfold Appointments.check_carteira in Hc.
    apply refuse_if_inr in Hc. rewrite Ht, He in Hc. discriminate.
Qed.

Lemma update_appointment_numero_carteira_witness :
  Appointments.update_appointment (H := plain) db_clinic default_bia 4
    {[ "numero_carteira" := VStr "  " ]}
  = Done 200 (4, Appointment.set_numero_carteira None ap_4)
      (MkDB (users db_clinic) (patients db_clinic) (procedures db_clinic)
            (<[4 := Appointment.set_numero_carteira None ap_4]>
               (appointments db_clinic)) (links db_clinic))
  ∧ Appointments.update_appointment (H := plain) db_clinic default_bia 2
      {[ "numero_carteira" := VStr "" ]}
    = Refused 400 (Erro msg_carteira_plano).
Proof.
  split.
  - apply (proj1 (update_appointment_numero_carteira (H := plain) db_clinic
                    default_bia 4 {[ "numero_carteira" := VStr "  " ]})
             ap_4 "  ").
    + reflexivity.
    + reflexivity.
    + reflexivity.
    + reflexivity.
    + vm_compute. discriminate.
  - apply (proj1 (proj2 (proj2 (proj2
             (update_appointment_numero_carteira (H := plain) db_clinic
                default_bia 2 {[ "numero_carteira" := VStr "" ]}))))
             ap_2 (Appointment.set_numero_carteira None ap_2) false []
             (links db_clinic)).
    + reflexivity.
    + reflexivity.
    + reflexivity.
    + reflexivity.
    + reflexivity.
Defined.

(** Scenario C of the specification: on create, [tipo] ['plano'] without a
    card number is refused, and with one the total is the sum of the plano
    prices. *)
Example create_appointment_plano :
  Appointments.create_appointment (H := plain) db_clinic default_bia
    {[ "data_hora" := VStr "2024-03-01T10:00:00"; "paciente_id" := VInt 1;
       "procedimentos" := VList [VInt 1; VInt 2]; "tipo" := VStr "plano" ]}
  = Refused 400
      (Erro "numero_carteira obrigatório e não pode ser vazio para tipo plano")
  ∧ ∃ db',
      Appointments.create_appointment (H := plain) db_clinic default_bia
        {[ "data_hora" := VStr "2024-03-01T10:00:00"; "paciente_id" := VInt 1;
           "procedimentos" := VList [VInt 1; VInt 2]; "tipo" := VStr "plano";
           "numero_carteira" := VStr "X" ]}
      = Done 201
          (5, Appointment.Make (at_ 2024 3 1 10 0 0) "plano" (Some "X")
                150%float 2 1) db'.
Proof. split; [|eexists]; vm_compute; reflexivity. Qed.

(** ** Totals *)

(** [calc_valor_total] is the sum of the price that [tipo] selects. *)
Lemma calc_valor_total_sum procs tipo :
  Appointments.calc_valor_total procs tipo
  = if String.eqb tipo "plano" then sum_valor Procedure.valor_plano procs
    else sum_valor Procedure.valor_particular procs.
Proof.
  unfold Appointments.calc_valor_total, sum_valor.
  by destruct (String.eqb tipo "plano").
Qed.

(** ** The join table *)

Section Links.
Import AppointmentProcedure.

Lemma delete_links_own ap_id ls :
  filter (λ l, atendimento_id l = ap_id) (Appointments.delete_links ap_id ls)
  = [].
Proof.
  unfold Appointments.delete_links. induction ls as [|l ls IH]; [done|].
  rewrite (filter_cons (λ l, atendimento_id l ≠ ap_id)).
  destruct (decide (atendimento_id l ≠ ap_id)) as [Hne|Heq]; [|done].
  rewrite filter_cons. by destruct (decide (atendimento_id l = ap_id)).
Qed.

Lemma delete_links_other ap_id other ls :
  other ≠ ap_id →
  filter (λ l, atendimento_id l = other) (Appointments.delete_links ap_id ls)
  = filter (λ l, atendimento_id l = other) ls.
Proof.
  intros Hne. unfold Appointments.delete_links.
  induction ls as [|l ls IH]; [done|].
  rewrite (filter_cons (λ l, atendimento_id l ≠ ap_id)).
  rewrite (filter_cons (λ l, atendimento_id l = other) l ls).
  destruct (decide (atendimento_id l ≠ ap_id)) as [Hl|Hl].
  - rewrite filter_cons. destruct (decide (atendimento_id l = other));
      by rewrite IH.
  - destruct (decide (atendimento_id l = other)); [|done].
    exfalso. apply Hl. congruence.
Qed.

Lemma new_links_own ap_id (objs : list (Z * Procedure.t)) :
  filter (λ l, atendimento_id l = ap_id)
    (map (λ p, AppointmentProcedure.Make ap_id p.1) objs)
  = map (λ p, AppointmentProcedure.Make ap_id p.1) objs.
Proof.
  induction objs as [|p objs IH]; [done|]. simpl.
  rewrite filter_cons. simpl. destruct (decide (ap_id = ap_id)); [|done].
  by rewrite IH.
Qed.

Lemma new_links_other ap_id other (objs : list (Z * Procedure.t)) :
  other ≠ ap_id →
  filter (λ l, atendimento_id l = other)
    (map (λ p, AppointmentProcedure.Make ap_id p.1) objs)
  = [].
Proof.
  intros Hne. induction objs as [|p objs IH]; [done|]. simpl.
  rewrite filter_cons. simpl. destruct (decide (ap_id = other)); [|done].
  congruence.
Qed.

Lemma new_links_procedures (procs : gmap Z Procedure.t) ap_id
    (objs : list (Z * Procedure.t)) :
  Forall (λ p, procs !! p.1 = Some p.2) objs →
  mapM (λ l, procs !! procedimento_id l)
    (map (λ p, AppointmentProcedure.Make ap_id p.1) objs)
  = Some objs.*2.
Proof.
  induction 1 as [|p objs Hp _ IH]; [done|]. simpl.
  rewrite Hp. simpl. rewrite IH. done.
Qed.

Lemma no_links_of_missing (db : DB) ap_id :
  links_resolve db → appointments db !! ap_id = None →
  Appointments.procedimentos_vinculados db ap_id = [].
Proof.
  intros Hres Hnone. unfold Appointments.procedimentos_vinculados.
  destruct (filter _ (links db)) as [|l ls] eqn:Hf; [done|].
  assert (Hin : l ∈ filter (λ l, atendimento_id l = ap_id) (links db)).
  { rewrite Hf. left. }
  apply list_elem_of_filter in Hin as [Hid Hin].
  destruct (Hres l Hin) as [[ap Hap] _]. congruence.
Qed.

End Links.

Section Relink.
Context `{Collaborators}.

Lemma resolve_procedure_inr db pid p :
  Appointments.resolve_procedure db pid = inr p →
  procedures db !! p.1 = Some p.2.
Proof.
  unfold Appointments.resolve_procedure.
  destruct (py_int pid) as [[]|n]; try done.
  destruct (procedures db !! n) eqn:Hn; [|done]. by intros [= <-].
Qed.

Lemma for_each_relink db ap_id ids objs0 ls0 objs ls :
  for_each ids (Appointments.relink db ap_id) (objs0, ls0) = inr (objs, ls) →
  ∃ new,
    objs = (objs0 ++ new)%list
    ∧ ls = (ls0 ++ map (λ p, AppointmentProcedure.Make ap_id p.1) new)%list
    ∧ Forall (λ p, procedures db !! p.1 = Some p.2) new.
Proof.
  revert objs0 ls0. induction ids as [|pid ids IH]; intros objs0 ls0; simpl.
  - intros [= <- <-]. exists []. by rewrite !app_nil_r.
  - intros Hf. apply bind_inr in Hf as ([o1 l1] & Hr & Hf).
    unfold Appointments.relink in Hr.
    apply bind_inr in Hr as (p & Hp & Hr). injection Hr as <- <-.
    apply IH in Hf as (new & -> & -> & Hnew).
    exists (p :: new). rewrite <- !app_assoc. simpl. split; [done|].
    split; [done|]. constructor; [|done].
    by apply resolve_procedure_inr in Hp.
Qed.

Lemma apply_procedimentos_inr db ap_id data changed objs ls :
  Appointments.apply_procedimentos db ap_id data = inr (changed, objs, ls) →
  (is_none (get data "procedimentos") = true ∧ changed = false
   ∧ ls = links db)
  ∨ (is_none (get data "procedimentos") = false ∧ changed = true
     ∧ ls = (Appointments.delete_links ap_id (links db)
             ++ map (λ p, AppointmentProcedure.Make ap_id p.1) objs)%list
     ∧ Forall (λ p, procedures db !! p.1 = Some p.2) objs).
Proof.
  unfold Appointments.apply_procedimentos.
  destruct (is_none _); simpl.
  - intros [= <- <- <-]. by left.
  - intros Hf. right. apply bind_inr in Hf as (ids & _ & Hf).
    apply bind_inr in Hf as ([o l] & Hr & Hf). injection Hf as <- <- <-.
    apply for_each_relink in Hr as (new & -> & -> & Hnew). simpl. done.
Qed.

End Relink.

Lemma has_key_false (data : payload) k :
  has_key data k = false → get data k = VNone.
Proof.
  unfold has_key, get. intros Hk. apply bool_decide_eq_false in Hk.
  destruct (data !! k) eqn:Hd; [|done]. destruct Hk. by eexists.
Qed.

Section AppointmentTotals.
Context `{Collaborators}.
Import Appointment.

Lemma apply_numero_carteira_keeps data ap ap' :
  Appointments.apply_numero_carteira data ap = inr ap' →
  tipo ap' = tipo ap ∧ valor_total ap' = valor_total ap.
Proof.
  intros Hn. apply apply_numero_carteira_inr in Hn
    as [[_ ->] | [[_ ->] | (s & _ & _ & ->)]]; done.
Qed.

Lemma apply_tipo_keeps data ap ap' :
  Appointments.apply_tipo data ap = inr ap' →
  valor_total ap' = valor_total ap
  ∧ numero_carteira ap' = numero_carteira ap
  ∧ (truthy (get data "tipo") = false → tipo ap' = tipo ap).
Proof.
  intros Ht. apply apply_tipo_inr in Ht as [[_ ->] | (t & Hv & Ht & ->)].
  - done.
  - repeat split. rewrite Hv. by destruct Ht as [-> | ->].
Qed.

(** The field updates leave [valor_total] as it was, and [tipo] too when
    the payload carries no usable [tipo]. *)
Lemma apply_fields_keeps db ap_id data ap0 ap changed objs ls :
  Appointments.apply_fields db ap_id data ap0 = inr (ap, changed, objs, ls) →
  valor_total ap = valor_total ap0
  ∧ (truthy (get data "tipo") = false → tipo ap = tipo ap0).
Proof.
  intros Hf.
  apply apply_fields_inr in Hf as (a1 & a2 & a3 & H1 & H2 & _ & H4 & H5).
  apply apply_data_hora_billing in H1 as (T1 & _ & V1).
  apply apply_paciente_billing in H2 as (T2 & _ & V2).
  apply apply_tipo_keeps in H4 as (V4 & _ & T4).
  apply apply_numero_carteira_keeps in H5 as (T5 & V5).
  split; [congruence|]. intros Hf. rewrite T5, (T4 Hf). congruence.
Qed.

End AppointmentTotals.

(** ** Recomputing the total on update *)

(** An update that goes through recomputes [valor_total] exactly when the
    payload replaced the procedures or has the key [tipo]; it then is the
    total of the procedures linked after the update for the [tipo] after
    the update, and the links stay as they were unless replaced. *)
Lemma recomputes_when_done `{Collaborators} (db : DB)
    (who : actor) (ap_id : Z) (data : payload) st body db' :
  Appointments.update_appointment db who ap_id data = Done st body db' →
  ∃ ap0,
    appointments db !! ap_id = Some ap0
    ∧ appointments db' !! ap_id = Some body.2
    ∧ let replaced := negb (is_none (get data "procedimentos")) in
      (if replaced || has_key data "tipo"
       then expected_total db' ap_id (Appointment.tipo body.2)
            = Some (Appointment.valor_total body.2)
       else Appointment.valor_total body.2 = Appointment.valor_total ap0)
      ∧ (replaced = false → links db' = links db)
      ∧ (∀ t, get data "tipo" = VStr t → t ≠ "" →
              Appointment.tipo body.2 = t)
      ∧ (data = {[ "tipo" := VStr "plano" ]} →
         Appointment.tipo ap0 = "particular" →
         Appointment.tipo body.2 = "plano"
         ∧ links db' = links db
         ∧ ∃ procs,
             Appointments.linked_procedures db ap_id = Some procs
             ∧ Appointment.valor_total body.2
               = sum_valor Procedure.valor_plano procs).
Proof.
  intros Hu.
  apply update_appointment_Done in Hu
    as (ap0 & ap1 & c & o & l & ap' & Hap & _ & Hf & _ & Hr & _ & -> & ->).
  exists ap0. split; [done|]. split; [apply lookup_insert_eq|].
  cbn [snd links].
  pose proof (apply_fields_keeps _ _ _ _ _ _ _ _ Hf) as [Hv Htipo].
  apply apply_fields_inr in Hf as (a1 & a2 & a3 & _ & _ & Hp & Ht & Hn).
  apply recompute_inr in Hr as (Ht' & _ & _ & _ & _ & Hr).
  apply apply_procedimentos_inr in Hp
    as [(Hnone & -> & ->) | (Hnone & -> & -> & Hobjs)];
    rewrite Hnone; cbn [negb orb].
  - (* the procedures were not replaced *)
    assert (Htot : has_key data "tipo" = true →
              expected_total
                (MkDB (users db) (patients db) (procedures db)
                      (<[ap_id:=ap']> (appointments db)) (links db))
                ap_id (Appointment.tipo ap')
              = Some (Appointment.valor_total ap')).
    { intros Hk. rewrite Hk in Hr. destruct Hr as (procs & Hl & Hval).
      unfold expected_total, Appointments.linked_procedures,
        Appointments.procedimentos_vinculados in *. cbn [links procedures].
      rewrite Hl. cbn [mbind option_bind].
      rewrite Hval, Ht', calc_valor_total_sum. done. }
    split.
    { destruct (has_key data "tipo") eqn:Hk; [by apply Htot|].
      cbn [orb] in Hr. subst ap'. done. }
    split; [done|]. split.
    { intros t Hv' Hne. rewrite Ht'.
      apply apply_numero_carteira_keeps in Hn as [-> _].
      apply apply_tipo_inr in Ht as [[Hfalse _] | (t' & Hv'' & _ & ->)].
      - rewrite Hv' in Hfalse. simpl in Hfalse.
        apply negb_false_iff, String.eqb_eq in Hfalse. done.
      - rewrite Hv' in Hv''. by injection Hv'' as ->. }
    intros -> Hpart.
    replace (has_key _ "tipo") with true in Hr by reflexivity.
    cbn [orb] in Hr. destruct Hr as (procs & Hl & Hval).
    apply apply_numero_carteira_keeps in Hn as [Hn _].
    apply apply_tipo_inr in Ht as [[Hfalse _] | (t' & Hv'' & _ & ->)];
      [discriminate|].
    assert (t' = "plano") as -> by (vm_compute in Hv''; congruence).
    cbn [Appointment.tipo Appointment.set_tipo] in Hn.
    split; [congruence|]. split; [done|].
    exists procs. split; [done|].
    rewrite Hval, calc_valor_total_sum, Hn. done.
  - (* the procedures were replaced *)
    destruct Hr as (procs & -> & Hval).
    split.
    { unfold expected_total, Appointments.linked_procedures,
        Appointments.procedimentos_vinculados. cbn [links procedures].
      rewrite filter_app, delete_links_own, new_links_own. cbn [app].
      rewrite (new_links_procedures _ _ _ Hobjs). cbn [mbind option_bind].
      rewrite Hval, Ht', calc_valor_total_sum. done. }
    split; [done|]. split.
    { intros t Hv' Hne. rewrite Ht'.
      apply apply_numero_carteira_keeps in Hn as [-> _].
      apply apply_tipo_inr in Ht as [[Hfalse _] | (t' & Hv'' & _ & ->)].
      - rewrite Hv' in Hfalse. simpl in Hfalse.
        apply negb_false_iff, String.eqb_eq in Hfalse. done.
      - rewrite Hv' in Hv''. by injection Hv'' as ->. }
    intros -> _. discriminate Hnone.
Qed.

(** A payload of [tipo] ['plano'] alone: refused when the appointment has
    no card number, else the total becomes the sum of the plano prices of
    the procedures linked, which stay. *)
Lemma tipo_alone_to_plano `{Collaborators} (db : DB) (who : actor)
    (ap_id : Z) (ap0 : Appointment.t) :
  appointments db !! ap_id = Some ap0 →
  Appointments.not_owner who ap0 = false →
  let data : payload := {[ "tipo" := VStr "plano" ]} in
  if empty_text (Appointment.numero_carteira ap0)
  then Appointments.update_appointment db who ap_id data
       = Refused 400 (Erro msg_carteira_plano)
  else ∀ procs,
         Appointments.linked_procedures db ap_id = Some procs →
         let ap' :=
           Appointment.set_valor_total
             (sum_valor Procedure.valor_plano procs)
             (Appointment.set_tipo "plano" ap0) in
         Appointments.update_appointment db who ap_id data
         = Done 200 (ap_id, ap')
             (MkDB (users db) (patients db) (procedures db)
                   (<[ap_id := ap']> (appointments db)) (links db)).
Proof.
  intros Hap Hown data.
  assert (G1 : get data "data_hora" = VNone) by reflexivity.
  assert (G2 : get data "paciente_id" = VNone) by reflexivity.
  assert (G3 : get data "procedimentos" = VNone) by reflexivity.
  assert (G4 : get data "tipo" = VStr "plano") by reflexivity.
  assert (G5 : get data "numero_carteira" = VNone) by reflexivity.
  assert (Hk : has_key data "tipo" = true) by reflexivity.
  unfold Appointments.update_appointment, get_or_404.
  rewrite Hap. cbn [mbind stop_bind]. rewrite Hown.
  cbn [refuse_if mbind stop_bind].
  unfold Appointments.apply_fields, Appointments.apply_data_hora,
    Appointments.apply_paciente, Appointments.apply_procedimentos,
    Appointments.apply_tipo, Appointments.apply_numero_carteira.
  rewrite G1, G2, G3, G4, G5.
  replace (truthy (VStr "plano")) with true by reflexivity.
  replace (Appointments.check_tipo (VStr "plano")) with
    (inr "plano" : stop + string) by reflexivity.
  cbn [truthy is_none negb mbind stop_bind mret stop_ret].
  replace (strip "plano") with "plano" by reflexivity.
  unfold Appointments.check_carteira.
  cbn [Appointment.tipo Appointment.numero_carteira Appointment.set_tipo].
  replace (String.eqb "plano" "plano") with true by reflexivity.
  cbn [andb].
  destruct (empty_text (Appointment.numero_carteira ap0)); [done|].
  intros procs Hl.
  cbn [refuse_if mbind stop_bind].
  unfold Appointments.recompute. rewrite Hk. cbn [orb negb]. rewrite Hl.
  cbn [mbind stop_bind mret stop_ret finish Appointment.tipo].
  rewrite calc_valor_total_sum.
  replace (String.eqb "plano" "plano") with true by reflexivity.
  done.
Qed.

(** C3, as stated, fails: appointment 1 of the booking is ['particular'],
    as [create_appointment] made it, so it has no card number; the update
    whose payload is [tipo] ['plano'] alone is refused with 400, and the
    total stays 80.0 where the plano price of the procedure linked is
    100.0. *)
Lemma tipo_alone_to_plano_is_refused :
  let db := run (H := plain) empty_db booking in
  appointments db !! 1 = Some booked
  ∧ Appointment.tipo booked = "particular"
  ∧ Appointments.update_appointment (H := plain) db default_bia 1
      {[ "tipo" := VStr "plano" ]}
    = Refused 400 (Erro msg_carteira_plano)
  ∧ Appointments.linked_procedures db 1 = Some [consulta]
  ∧ sum_valor Procedure.valor_plano [consulta] = 100%float
  ∧ Appointment.valor_total booked = 80%float.
Proof. vm_compute. done. Qed.

(** C3, amended: an update that goes through recomputes [valor_total]
    exactly when the payload replaced the procedures or has the key
    [tipo]; it then is the total of the procedures linked after the update
    for the [tipo] after the update, and the links stay as they were unless
    replaced.  A payload of [tipo] ['plano'] alone, from the creator or an
    admin, goes through when the appointment has a card number stored: it
    keeps the links and sets [valor_total] to the sum of the plano prices
    of the procedures linked; on an appointment without card number it is
    refused with 400 and nothing is written. *)
Theorem update_appointment_recomputes `{Collaborators} (db : DB)
    (who : actor) (ap_id : Z) :
  (∀ data st body db',
     Appointments.update_appointment db who ap_id data = Done st body db' →
     ∃ ap0,
       appointments db !! ap_id = Some ap0
       ∧ appointments db' !! ap_id = Some body.2
       ∧ let replaced := negb (is_none (get data "procedimentos")) in
         (if replaced || has_key data "tipo"
          then expected_total db' ap_id (Appointment.tipo body.2)
               = Some (Appointment.valor_total body.2)
          else Appointment.valor_total body.2 = Appointment.valor_total ap0)
         ∧ (replaced = false → links db' = links db)
         ∧ (∀ t, get data "tipo" = VStr t → t ≠ "" →
                 Appointment.tipo body.2 = t))
  ∧ (∀ ap0,
       appointments db !! ap_id = Some ap0 →
       Appointments.not_owner who ap0 = false →
       let data : payload := {[ "tipo" := VStr "plano" ]} in
       if empty_text (Appointment.numero_carteira ap0)
       then Appointments.update_appointment db who ap_id data
            = Refused 400 (Erro msg_carteira_plano)
       else ∀ procs,
              Appointments.linked_procedures db ap_id = Some procs →
              let ap' :=
                Appointment.set_valor_total
                  (sum_valor Procedure.valor_plano procs)
                  (Appointment.set_tipo "plano" ap0) in
              Appointments.update_appointment db who ap_id data
              = Done 200 (ap_id, ap')
                  (MkDB (users db) (patients db) (procedures db)
                        (<[ap_id := ap']> (appointments db)) (links db))).
Proof.
  split.
  - intros data st body db' E.
    destruct (recomputes_when_done _ _ _ _ _ _ _ E)
      as (ap0 & Hap & Hap' & Htot & Hlinks & Ht & _).
    exists ap0. done.
  - intros ap0 Hap Hown. by apply tipo_alone_to_plano.
Qed.

(** Scenario D of the specification, on an appointment that can take it:
    appointment 1 of the booking is ['particular'] with one procedure
    linked (80.0 private, 100.0 plano); an update gives it a card number,
    and then the payload of [tipo] ['plano'] alone goes through. *)
Lemma update_appointment_recomputes_witness :
  let db :=
    run (H := plain) empty_db
      (booking
       ++ [UpdateAppointment default_bia 1
             {[ "numero_carteira" := VStr "C-77" ]}]) in
  let ap' :=
    Appointment.set_valor_total (sum_valor Procedure.valor_plano [consulta])
      (Appointment.set_tipo "plano" booked_with_card) in
  Appointments.update_appointment (H := plain) db default_bia 1
    {[ "tipo" := VStr "plano" ]}
  = Done 200 (1, ap')
      (MkDB (users db) (patients db) (procedures db)
            (<[1 := ap']> (appointments db)) (links db)).
Proof.
  intros db ap'.
  assert (Hap : appointments db !! 1 = Some booked_with_card).
  { vm_compute. reflexivity. }
  assert (Hown : Appointments.not_owner default_bia booked_with_card = false).
  { reflexivity. }
  assert (Hl : Appointments.linked_procedures db 1 = Some [consulta]).
  { vm_compute. reflexivity. }
  exact (proj2 (update_appointment_recomputes (H := plain) db default_bia 1)
           booked_with_card Hap Hown [consulta] Hl).
Defined.

(** The same payload on appointment 1, which has no card number, is
    refused by the check after the field updates and nothing changes. *)
Example update_tipo_without_carteira_refused :
  Appointments.update_appointment (H := plain) db_clinic default_bia 1
    {[ "tipo" := VStr "plano" ]}
  = Refused 400 (Erro msg_carteira_plano).
Proof. vm_compute. reflexivity. Qed.

(** ** Totals under a change of the tables *)

Lemma fold_prices_same (price : Procedure.t → float) ps qs acc :
  Forall2 (λ p q, price p = price q) ps qs →
  fold_left (λ total p, (total + price p)%float) ps acc
  = fold_left (λ total p, (total + price p)%float) qs acc.
Proof.
  intros Hf. revert acc. induction Hf as [|p q ps qs Hp _ IH]; intros acc.
  - done.
  - simpl. rewrite Hp. apply IH.
Qed.

Lemma sum_valor_same ps qs :
  Forall2 same_prices ps qs →
  sum_valor Procedure.valor_plano ps = sum_valor Procedure.valor_plano qs
  ∧ sum_valor Procedure.valor_particular ps
    = sum_valor Procedure.valor_particular qs.
Proof.
  intros Hf. unfold sum_valor.
  split; apply fold_prices_same; eapply Forall2_impl; eauto;
    by intros p q [Ha Hb].
Qed.

Lemma mapM_same_prices {A} (f g : A → option Procedure.t) (ls : list A) :
  (∀ l, l ∈ ls → ∃ p q, f l = Some p ∧ g l = Some q ∧ same_prices p q) →
  ∃ ps qs,
    mapM f ls = Some ps ∧ mapM g ls = Some qs ∧ Forall2 same_prices ps qs.
Proof.
  induction ls as [|l ls IH]; intros Hall.
  - exists [], []. by repeat split.
  - destruct (Hall l) as (p & q & Hf & Hg & Hpq); [left|].
    destruct IH as (ps & qs & Hps & Hqs & Hsame).
    { intros l' Hl'. apply Hall. by right. }
    exists (p :: ps), (q :: qs). simpl. rewrite Hf, Hg, Hps, Hqs.
    repeat split; try done. by constructor.
Qed.

(** The total expected of an appointment does not move when its links stay
    and the procedures they point to keep their prices. *)
Lemma expected_total_same (db db' : DB) ap_id tipo :
  Appointments.procedimentos_vinculados db' ap_id
  = Appointments.procedimentos_vinculados db ap_id →
  (∀ l, l ∈ Appointments.procedimentos_vinculados db ap_id →
        ∃ p q,
          procedures db !! AppointmentProcedure.procedimento_id l = Some p
          ∧ procedures db' !! AppointmentProcedure.procedimento_id l = Some q
          ∧ same_prices p q) →
  expected_total db' ap_id tipo = expected_total db ap_id tipo.
Proof.
  intros Hlinks Hprices.
  unfold expected_total, Appointments.linked_procedures. rewrite Hlinks.
  destruct (mapM_same_prices _ _ _ Hprices) as (ps & qs & -> & -> & Hsame).
  cbn [mbind option_bind]. apply sum_valor_same in Hsame as [-> ->]. done.
Qed.

(** How a handler may change the tables and keep the state sound: every
    appointment either keeps its [tipo], total and links, or carries the
    total of its links; the linked procedures keep their prices. *)
Lemma consistent_transfer (db db' : DB) :
  sound db →
  (∀ l, l ∈ links db →
        ∃ p q,
          procedures db !! AppointmentProcedure.procedimento_id l = Some p
          ∧ procedures db' !! AppointmentProcedure.procedimento_id l = Some q
          ∧ same_prices p q) →
  (∀ ap_id ap',
     appointments db' !! ap_id = Some ap' →
     (∃ ap, appointments db !! ap_id = Some ap
            ∧ Appointment.tipo ap' = Appointment.tipo ap
            ∧ Appointment.valor_total ap' = Appointment.valor_total ap
            ∧ Appointments.procedimentos_vinculados db' ap_id
              = Appointments.procedimentos_vinculados db ap_id)
     ∨ expected_total db' ap_id (Appointment.tipo ap')
       = Some (Appointment.valor_total ap')) →
  consistent db'.
Proof.
  intros [Hcons Hres] Hprices Happ ap_id ap' Hap'.
  destruct (Happ ap_id ap' Hap') as [(ap & Hap & Ht & Hv & Hl) | Hnew];
    [|done].
  rewrite Ht, Hv, <- (Hcons ap_id ap Hap).
  apply expected_total_same; [done|].
  intros l Hl'. apply Hprices.
  unfold Appointments.procedimentos_vinculados in Hl'.
  by apply list_elem_of_filter in Hl' as [_ Hl'].
Qed.

(** ** Handlers that leave billing alone *)

Lemma same_billing_tables_sound db db' :
  same_billing_tables db db' → sound db → sound db'.
Proof.
  intros (Hp & Ha & Hl) [Hcons Hres]. split.
  - intros ap_id ap. rewrite Ha. intros Hap.
    rewrite <- (Hcons ap_id ap Hap).
    unfold expected_total, Appointments.linked_procedures,
      Appointments.procedimentos_vinculados. by rewrite Hp, Hl.
  - intros l. rewrite Hl, Ha, Hp. apply Hres.
Qed.

Lemma after_refl {A} db (o : outcome A) :
  (∀ st body db', o = Done st body db' → same_billing_tables db db') →
  same_billing_tables db (db_after db o).
Proof.
  intros Hd. destruct o as [st body db'| |]; simpl; try done.
  by eapply Hd.
Qed.

Section Untouched.
Context `{Collaborators}.

Lemma create_patient_billing db today data :
  same_billing_tables db (db_after db (Patients.create_patient db today data)).
Proof.
  apply after_refl. intros st body db' E.
  unfold Patients.create_patient in E. apply finish_Done in E.
  skip_steps E. by injection E as <- <- <-.
Qed.

Lemma update_patient_billing db today patient_id data :
  same_billing_tables db
    (db_after db (Patients.update_patient db today patient_id data)).
Proof.
  apply after_refl. intros st body db' E.
  unfold Patients.update_patient in E. apply finish_Done in E.
  skip_steps E. by injection E as <- <- <-.
Qed.

Lemma create_user_billing db who data :
  same_billing_tables db (db_after db (Users.create_user db who data)).
Proof.
  apply after_refl. intros st body db' E.
  unfold Users.create_user in E. apply finish_Done in E.
  skip_steps E. by injection E as <- <- <-.
Qed.

Lemma delete_patient_billing db patient_id :
  same_billing_tables db (db_after db (Patients.delete_patient db patient_id)).
Proof.
  apply after_refl. intros st body db' E.
  unfold Patients.delete_patient in E. apply finish_Done in E.
  skip_steps E. by injection E as <- <- <-.
Qed.

Lemma update_user_billing db who user_id data :
  same_billing_tables db
    (db_after db (Users.update_user db who user_id data)).
Proof.
  apply after_refl. intros st body db' E.
  unfold Users.update_user in E. apply finish_Done in E.
  skip_steps E. by injection E as <- <- <-.
Qed.

Lemma delete_user_billing db who user_id :
  same_billing_tables db (db_after db (Users.delete_user db who user_id)).
Proof.
  apply after_refl. intros st body db' E.
  unfold Users.delete_user in E. apply finish_Done in E.
  skip_steps E. by injection E as <- <- <-.
Qed.

Lemma reset_password_billing db who user_id data :
  same_billing_tables db
    (db_after db (Users.reset_password db who user_id data)).
Proof.
  apply after_refl. intros st body db' E.
  unfold Users.reset_password in E. apply finish_Done in E.
  skip_steps E. by injection E as <- <- <-.
Qed.

Lemma change_password_billing db who data :
  same_billing_tables db (db_after db (Users.change_password db who data)).
Proof.
  apply after_refl. intros st body db' E.
  unfold Users.change_password in E. apply finish_Done in E.
  skip_steps E. by injection E as <- <- <-.
Qed.

Lemma register_billing db data :
  same_billing_tables db (db_after db (Auth.register db data)).
Proof.
  apply after_refl. intros st body db' E.
  unfold Auth.register in E. apply finish_Done in E.
  skip_steps E. by injection E as <- <- <-.
Qed.

End Untouched.

(** ** Procedure handlers and the totals *)

Lemma links_resolve_procedure (db : DB) l :
  links_resolve db → l ∈ links db →
  ∃ p, procedures db !! AppointmentProcedure.procedimento_id l = Some p.
Proof. intros Hres Hl. by destruct (Hres l Hl) as [_ [p Hp]]; eauto. Qed.

Section ProcedureHandlers.
Context `{Collaborators}.

Lemma create_procedure_Done db who data st body db' :
  Procedures.create_procedure db who data = Done st body db' →
  ∃ proc,
    db' = MkDB (users db) (patients db)
            (<[next_id (procedures db) := proc]> (procedures db))
            (appointments db) (links db).
Proof.
  unfold Procedures.create_procedure. intros E. apply finish_Done in E.
  skip_steps E. open_pairs E. injection E as <- <- <-. eauto.
Qed.

Lemma create_procedure_sound db who data :
  sound db → sound (db_after db (Procedures.create_procedure db who data)).
Proof.
  intros Hs. destruct (Procedures.create_procedure _ _ _) eqn:E; try done.
  apply create_procedure_Done in E as (proc & ->). simpl.
  pose proof Hs as [Hcons Hres]. split.
  - apply (consistent_transfer db); [done| |].
    + intros l Hl.
      destruct (links_resolve_procedure _ _ Hres Hl) as [p Hp].
      exists p, p. cbn [procedures]. split; [done|]. split; [|done].
      rewrite lookup_insert_ne; [done|]. intros Heq.
      rewrite <- Heq, next_id_fresh in Hp. discriminate.
    + intros ap_id ap' Hap. left. exists ap'. done.
  - intros l Hl. destruct (Hres l Hl) as [Ha [p Hp]]. split; [done|].
    cbn [procedures]. destruct (decide (next_id (procedures db)
      = AppointmentProcedure.procedimento_id l)) as [<-|Hne].
    + rewrite lookup_insert_eq. by eexists.
    + rewrite lookup_insert_ne by done. by eexists.
Qed.

(** A field of the loop that is not in the payload leaves its price. *)
Lemma update_field_prices data entry proc proc' :
  Procedures.update_field data entry proc = inr proc' →
  (has_key data "valor_plano" = false →
   Procedure.valor_plano proc' = Procedure.valor_plano proc)
  ∧ (has_key data "valor_particular" = false →
     Procedure.valor_particular proc' = Procedure.valor_particular proc).
Proof.
  unfold Procedures.update_field. destruct entry as [field expected].
  destruct (has_key data field && negb (String.eqb field "nome")) eqn:Hk;
    [|by intros [= <-]].
  apply andb_true_iff in Hk as [Hk _].
  destruct expected.
  - intros E. skip_steps E. by injection E as <-.
  - destruct (py_float _) as [[]|x]; try done.
    destruct (is_nan x || is_inf x); [done|]. intros [= <-].
    unfold Procedure.setattr_valor. cbn [Procedure.valor_plano
      Procedure.valor_particular]. split; intros Hno.
    + destruct (String.eqb_spec field "valor_plano") as [->|]; [|done].
      congruence.
    + destruct (String.eqb_spec field "valor_particular") as [->|]; [|done].
      congruence.
Qed.

Lemma update_procedure_Done db who proc_id data st body db' :
  Procedures.update_procedure db who proc_id data = Done st body db' →
  ∃ proc proc',
    procedures db !! proc_id = Some proc
    ∧ db' = MkDB (users db) (patients db)
              (<[proc_id := proc']> (procedures db))
              (appointments db) (links db)
    ∧ (has_key data "valor_plano" = false →
       Procedure.valor_plano proc' = Procedure.valor_plano proc)
    ∧ (has_key data "valor_particular" = false →
       Procedure.valor_particular proc' = Procedure.valor_particular proc).
Proof.
  unfold Procedures.update_procedure. intros E. apply finish_Done in E.
  apply bind_inr in E as ([] & _ & E).
  apply bind_inr in E as (proc & Hp & E).
  unfold get_or_404 in Hp.
  destruct (procedures db !! proc_id) as [proc0|] eqn:Hl; [|done].
  injection Hp as <-.
  apply bind_inr in E as (x1 & Hx1 & E).
  apply bind_inr in E as (x2 & Hx2 & E). injection E as <- <- <-.
  exists proc0, x2. split; [done|]. split; [done|].
  assert (Hnome : Procedure.valor_plano x1 = Procedure.valor_plano proc0
                  ∧ Procedure.valor_particular x1
                    = Procedure.valor_particular proc0).
  { destruct (has_key data "nome" && _); [|by injection Hx1 as <-].
    skip_steps Hx1. by injection Hx1 as <-. }
  destruct Hnome as [Hn1 Hn2].
  unfold Procedures.fields_to_validate in Hx2. cbn [for_each] in Hx2.
  apply bind_inr in Hx2 as (p1 & H1 & Hx2).
  apply bind_inr in Hx2 as (p2 & H2 & Hx2).
  apply bind_inr in Hx2 as (p3 & H3 & Hx2).
  apply bind_inr in Hx2 as (p4 & H4 & Hx2). injection Hx2 as <-.
  apply update_field_prices in H1 as [A1 B1], H2 as [A2 B2],
    H3 as [A3 B3], H4 as [A4 B4].
  split; intros Hno.
  - rewrite A4, A3, A2, A1 by done. done.
  - rewrite B4, B3, B2, B1 by done. done.
Qed.

Lemma update_procedure_sound db who proc_id data :
  has_key data "valor_plano" || has_key data "valor_particular" = false →
  sound db →
  sound (db_after db (Procedures.update_procedure db who proc_id data)).
Proof.
  intros Hk Hs. apply orb_false_iff in Hk as [Hk1 Hk2].
  destruct (Procedures.update_procedure _ _ _ _) eqn:E; try done.
  apply update_procedure_Done in E as (proc & proc' & Hp & -> & Hv1 & Hv2).
  simpl. pose proof Hs as [Hcons Hres]. split.
  - apply (consistent_transfer db); [done| |].
    + intros l Hl.
      destruct (links_resolve_procedure _ _ Hres Hl) as [p Hpl].
      cbn [procedures].
      destruct (decide (proc_id = AppointmentProcedure.procedimento_id l))
        as [<-|Hne].
      * exists proc, proc'. rewrite lookup_insert_eq.
        repeat split; try done; symmetry; auto.
      * exists p, p. by rewrite lookup_insert_ne.
    + intros ap_id ap' Hap. left. exists ap'. done.
  - intros l Hl. destruct (Hres l Hl) as [Ha [p Hpl]]. split; [done|].
    cbn [procedures].
    destruct (decide (proc_id = AppointmentProcedure.procedimento_id l))
      as [<-|Hne].
    + rewrite lookup_insert_eq. by eexists.
    + rewrite lookup_insert_ne by done. by eexists.
Qed.

Lemma delete_procedure_Done db who proc_id st body db' :
  Procedures.delete_procedure db who proc_id = Done st body db' →
  (∀ l, l ∈ links db → AppointmentProcedure.procedimento_id l ≠ proc_id)
  ∧ db' = MkDB (users db) (patients db) (delete proc_id (procedures db))
            (appointments db) (links db).
Proof.
  unfold Procedures.delete_procedure. intros E. apply finish_Done in E.
  apply bind_inr in E as ([] & _ & E).
  apply bind_inr in E as ([] & Hx0 & E).
  apply bind_inr in E as (proc & _ & E). injection E as <- <- <-.
  split; [|done]. apply refuse_if_inr in Hx0.
  intros l Hl Heq.
  assert (existsb (λ l, Z.eqb (AppointmentProcedure.procedimento_id l)
                          proc_id) (links db) = true); [|congruence].
  apply existsb_exists. exists l. split; [by apply list_elem_of_In|].
  by apply Z.eqb_eq.
Qed.

Lemma delete_procedure_sound db who proc_id :
  sound db → sound (db_after db (Procedures.delete_procedure db who proc_id)).
Proof.
  intros Hs. destruct (Procedures.delete_procedure _ _ _) eqn:E; try done.
  apply delete_procedure_Done in E as (Hfree & ->). simpl.
  pose proof Hs as [Hcons Hres]. split.
  - apply (consistent_transfer db); [done| |].
    + intros l Hl.
      destruct (links_resolve_procedure _ _ Hres Hl) as [p Hpl].
      exists p, p. cbn [procedures].
      rewrite lookup_delete_ne; [done|]. intros Heq.
      by apply (Hfree l Hl).
    + intros ap_id ap' Hap. left. exists ap'. done.
  - intros l Hl. destruct (Hres l Hl) as [Ha [p Hpl]]. split; [done|].
    cbn [procedures]. rewrite lookup_delete_ne; [by eexists|].
    intros Heq. by apply (Hfree l Hl).
Qed.

End ProcedureHandlers.

(** ** Appointment handlers and the totals *)

Section AppointmentHandlers.
Context `{Collaborators}.

Lemma for_each_resolve db ids objs0 objs :
  for_each ids
    (λ pid objs, p ← Appointments.resolve_procedure db pid;
                 mret (objs ++ [p])%list) objs0
  = inr objs →
  ∃ new,
    objs = (objs0 ++ new)%list
    ∧ Forall (λ p, procedures db !! p.1 = Some p.2) new.
Proof.
  revert objs0. induction ids as [|pid ids IH]; intros objs0; simpl.
  - intros [= <-]. exists []. by rewrite app_nil_r.
  - intros Hf. apply bind_inr in Hf as (o1 & Hr & Hf).
    apply bind_inr in Hr as (p & Hp & Hr). injection Hr as <-.
    apply IH in Hf as (new & -> & Hnew).
    exists (p :: new). rewrite <- app_assoc. split; [done|].
    constructor; [|done]. by apply resolve_procedure_inr in Hp.
Qed.

Lemma create_appointment_Done db who data st body db' :
  Appointments.create_appointment db who data = Done st body db' →
  ∃ ap objs,
    body = (next_id (appointments db), ap)
    ∧ Forall (λ p, procedures db !! p.1 = Some p.2) objs
    ∧ Appointment.valor_total ap
      = Appointments.calc_valor_total objs.*2 (Appointment.tipo ap)
    ∧ db' = MkDB (users db) (patients db) (procedures db)
              (<[next_id (appointments db) := ap]> (appointments db))
              (links db
               ++ map (λ p, AppointmentProcedure.Make
                              (next_id (appointments db)) p.1) objs)%list.
Proof.
  unfold Appointments.create_appointment. intros E. apply finish_Done in E.
  apply bind_inr in E as ([] & _ & E).
  apply bind_inr in E as (tipo & Ht & E).
  apply bind_inr in E as (dh & _ & E).
  apply bind_inr in E as (pid & _ & E).
  apply bind_inr in E as (ids & _ & E).
  apply bind_inr in E as (objs & Hobjs & E).
  apply bind_inr in E as (nc & _ & E). injection E as <- <- <-.
  apply for_each_resolve in Hobjs as (new & -> & Hnew).
  apply check_tipo_inr in Ht as [_ Ht].
  eexists _, new. split; [done|]. split; [done|]. split; [|done].
  cbn [Appointment.valor_total Appointment.tipo app].
  by destruct Ht as [-> | ->].
Qed.

Lemma create_appointment_sound db who data :
  sound db →
  sound (db_after db (Appointments.create_appointment db who data)).
Proof.
  intros Hs. destruct (Appointments.create_appointment _ _ _) eqn:E;
    try done.
  apply create_appointment_Done in E as (ap & objs & -> & Hobjs & Hv & ->).
  simpl. pose proof Hs as [Hcons Hres].
  set (nid := next_id (appointments db)) in *.
  assert (Hfresh : appointments db !! nid = None) by apply next_id_fresh.
  split.
  - apply (consistent_transfer db); [done| |].
    + intros l Hl.
      destruct (links_resolve_procedure _ _ Hres Hl) as [p Hp].
      by exists p, p.
    + intros ap_id ap'. cbn [appointments].
      destruct (decide (nid = ap_id)) as [<-|Hne].
      * rewrite lookup_insert_eq. intros [= <-]. right.
        unfold expected_total, Appointments.linked_procedures,
          Appointments.procedimentos_vinculados. cbn [links procedures].
        rewrite filter_app, new_links_own.
        pose proof (no_links_of_missing db nid Hres Hfresh) as Hnone.
        unfold Appointments.procedimentos_vinculados in Hnone.
        rewrite Hnone. cbn [app].
        rewrite (new_links_procedures _ _ _ Hobjs). cbn [mbind option_bind].
        by rewrite Hv, calc_valor_total_sum.
      * rewrite lookup_insert_ne by done. intros Hap. left.
        exists ap'. repeat split; try done.
        unfold Appointments.procedimentos_vinculados. cbn [links].
        rewrite filter_app, new_links_other by done. by rewrite app_nil_r.
  - intros l. cbn [links appointments procedures].
    rewrite elem_of_app. intros [Hl|Hl].
    + destruct (Hres l Hl) as [[a Ha] Hp]. split; [|done].
      destruct (decide (nid = AppointmentProcedure.atendimento_id l))
        as [<-|Hne].
      * rewrite lookup_insert_eq. by eexists.
      * rewrite lookup_insert_ne by done. by eexists.
    + apply list_elem_of_fmap in Hl as (p & -> & Hp). simpl.
      rewrite lookup_insert_eq. split; [by eexists|].
      rewrite Forall_forall in Hobjs. rewrite (Hobjs p Hp). by eexists.
Qed.

Lemma delete_appointment_Done db who ap_id st body db' :
  Appointments.delete_appointment db who ap_id = Done st body db' →
  db' = MkDB (users db) (patients db) (procedures db)
          (delete ap_id (appointments db))
          (Appointments.delete_links ap_id (links db)).
Proof.
  unfold Appointments.delete_appointment. intros E. apply finish_Done in E.
  skip_steps E. by injection E as <- <- <-.
Qed.

Lemma delete_appointment_sound db who ap_id :
  sound db →
  sound (db_after db (Appointments.delete_appointment db who ap_id)).
Proof.
  intros Hs. destruct (Appointments.delete_appointment _ _ _) eqn:E;
    try done.
  apply delete_appointment_Done in E as ->. simpl.
  pose proof Hs as [Hcons Hres]. split.
  - apply (consistent_transfer db); [done| |].
    + intros l Hl.
      destruct (links_resolve_procedure _ _ Hres Hl) as [p Hp].
      by exists p, p.
    + intros id ap'. cbn [appointments]. intros Hap. left.
      apply lookup_delete_Some in Hap as [Hne Hap].
      exists ap'. repeat split; try done.
      unfold Appointments.procedimentos_vinculados. cbn [links].
      by apply delete_links_other.
  - intros l. cbn [links appointments procedures].
    unfold Appointments.delete_links.
    intros Hl. apply list_elem_of_filter in Hl as [Hne Hl].
    destruct (Hres l Hl) as [[a Ha] Hp]. split; [|done].
    rewrite lookup_delete_ne by done. by eexists.
Qed.

(** When the update recomputes, the stored total is the one expected of
    the links and procedures it commits. *)
Lemma recompute_expected db ap_id data changed objs ls ap1 ap' us ps aps :
  Appointments.apply_procedimentos db ap_id data = inr (changed, objs, ls) →
  Appointments.recompute db ap_id data changed objs ap1 = inr ap' →
  changed || has_key data "tipo" = true →
  expected_total (MkDB us ps (procedures db) aps ls) ap_id
    (Appointment.tipo ap')
  = Some (Appointment.valor_total ap').
Proof.
  intros Hp Hr Hre.
  apply recompute_inr in Hr as (Ht' & _ & _ & _ & _ & Hr).
  rewrite Hre in Hr. destruct Hr as (procs & Hprocs & Hval).
  unfold expected_total, Appointments.linked_procedures,
    Appointments.procedimentos_vinculados. cbn [links procedures].
  apply apply_procedimentos_inr in Hp
    as [(_ & -> & ->) | (_ & -> & -> & Hobjs)].
  - unfold Appointments.linked_procedures,
      Appointments.procedimentos_vinculados in Hprocs.
    rewrite Hprocs. cbn [mbind option_bind].
    by rewrite Hval, Ht', calc_valor_total_sum.
  - subst procs.
    rewrite filter_app, delete_links_own, new_links_own. cbn [app].
    rewrite (new_links_procedures _ _ _ Hobjs). cbn [mbind option_bind].
    by rewrite Hval, Ht', calc_valor_total_sum.
Qed.

Lemma update_appointment_sound db who ap_id data :
  sound db →
  sound (db_after db (Appointments.update_appointment db who ap_id data)).
Proof.
  intros Hs.
  destruct (Appointments.update_appointment _ _ _ _) eqn:E; try done.
  apply update_appointment_Done in E
    as (ap0 & ap1 & c & o & l & ap' & Hap0 & _ & Hf & _ & Hr & _ & -> & ->).
  cbn [snd links db_after] in *.
  pose proof Hs as [Hcons Hres]. pose proof Hf as Hkeep.
  apply apply_fields_keeps in Hkeep as [Hv Htipo].
  apply apply_fields_inr in Hf as (a1 & a2 & a3 & _ & _ & Hp & _ & _).
  pose proof (recompute_expected _ _ _ _ _ _ _ _ (users db) (patients db)
                (<[ap_id:=ap']> (appointments db)) Hp Hr) as Htot.
  apply recompute_inr in Hr as (Ht' & _ & _ & _ & _ & Hr).
  assert (Hothers : ∀ other, other ≠ ap_id →
            filter (λ r, AppointmentProcedure.atendimento_id r = other) l
            = filter (λ r, AppointmentProcedure.atendimento_id r = other)
                (links db)).
  { intros other Hne.
    apply apply_procedimentos_inr in Hp
      as [(_ & _ & ->) | (_ & _ & -> & _)]; [done|].
    rewrite filter_app, new_links_other, app_nil_r by done.
    by apply delete_links_other. }
  split.
  - apply (consistent_transfer db); [done| |].
    + intros r Hr'.
      destruct (links_resolve_procedure _ _ Hres Hr') as [p Hpr].
      by exists p, p.
    + intros id ap''. cbn [appointments].
      destruct (decide (ap_id = id)) as [<-|Hne].
      * rewrite lookup_insert_eq. intros [= <-].
        destruct (c || has_key data "tipo") eqn:Hre; [right; by apply Htot|].
        left. apply orb_false_iff in Hre as [-> Hkey].
        exists ap0. split; [done|].
        apply apply_procedimentos_inr in Hp
          as [(_ & _ & ->) | (_ & Hc & _)]; [|discriminate].
        subst ap'.
        repeat split; try done.
        apply Htipo. by rewrite (has_key_false _ _ Hkey).
      * rewrite lookup_insert_ne by done. intros Hap'. left.
        exists ap''. repeat split; try done.
        unfold Appointments.procedimentos_vinculados. cbn [links].
        apply Hothers. congruence.
  - intros r. cbn [links appointments procedures]. intros Hr'.
    assert (Hkeys : ∀ k, is_Some (appointments db !! k) →
                         is_Some (<[ap_id:=ap']> (appointments db) !! k)).
    { intros k Hk. destruct (decide (ap_id = k)) as [<-|Hne].
      - rewrite lookup_insert_eq. by eexists.
      - by rewrite lookup_insert_ne. }
    apply apply_procedimentos_inr in Hp
      as [(_ & _ & ->) | (_ & _ & -> & Hobjs)].
    + destruct (Hres r Hr') as [Ha Hpr]. split; [by apply Hkeys|done].
    + apply elem_of_app in Hr' as [Hr'|Hr'].
      * unfold Appointments.delete_links in Hr'.
        apply list_elem_of_filter in Hr' as [_ Hr'].
        destruct (Hres r Hr') as [Ha Hpr]. split; [by apply Hkeys|done].
      * apply list_elem_of_fmap in Hr' as (p & -> & Hpin). simpl.
        rewrite lookup_insert_eq. split; [by eexists|].
        rewrite Forall_forall in Hobjs. rewrite (Hobjs p Hpin). by eexists.
Qed.

End AppointmentHandlers.

(** ** The total of every appointment *)

Lemma handle_sound `{Collaborators} db r :
  sound db → edits_price r = false → sound (handle db r).
Proof.
  intros Hs Hr. destruct r; simpl.
  - by apply create_appointment_sound.
  - by apply update_appointment_sound.
  - by apply delete_appointment_sound.
  - by apply create_procedure_sound.
  - by apply update_procedure_sound.
  - by apply delete_procedure_sound.
  - eapply same_billing_tables_sound; [apply create_patient_billing|done].
  - eapply same_billing_tables_sound; [apply update_patient_billing|done].
  - eapply same_billing_tables_sound; [apply delete_patient_billing|done].
  - eapply same_billing_tables_sound; [apply create_user_billing|done].
  - eapply same_billing_tables_sound; [apply update_user_billing|done].
  - eapply same_billing_tables_sound; [apply delete_user_billing|done].
  - eapply same_billing_tables_sound; [apply reset_password_billing|done].
  - eapply same_billing_tables_sound; [apply change_password_billing|done].
  - eapply same_billing_tables_sound; [apply register_billing|done].
Qed.

Lemma empty_db_sound : sound empty_db.
Proof.
  split.
  - intros ap_id ap Hap. unfold empty_db in Hap. cbn [appointments] in Hap.
    by rewrite lookup_empty in Hap.
  - intros l Hl. unfold empty_db in Hl. cbn [links] in Hl.
    by apply elem_of_nil in Hl.
Qed.

(** C1, as stated, fails: after the booking the appointment carries the
    total of its procedure, 80.0; the edit of the procedure's price to 90.0
    commits and the appointment still carries 80.0. *)
Lemma price_edit_leaves_total_stale :
  let db := run (H := plain) empty_db booking in
  let db' := handle (H := plain) db price_edit in
  appointments db !! 1 = Some booked
  ∧ expected_total db 1 "particular" = Some 80%float
  ∧ consistent db
  ∧ appointments db' !! 1 = Some booked
  ∧ expected_total db' 1 "particular" = Some 90%float
  ∧ ¬ consistent db'.
Proof.
  intros db db'.
  assert (Hap : appointments db' !! 1 = Some booked)
    by (vm_compute; reflexivity).
  assert (Hexp : expected_total db' 1 "particular" = Some 90%float)
    by (vm_compute; reflexivity).
  split; [vm_compute; reflexivity|]. split; [vm_compute; reflexivity|].
  split.
  { assert (Hs : sound db); [|by destruct Hs].
    unfold db, run, booking. cbn [fold_left].
    repeat (apply handle_sound; [|reflexivity]). apply empty_db_sound. }
  split; [done|]. split; [done|].
  intros Hcons. specialize (Hcons 1 booked Hap).
  change (Appointment.tipo booked) with "particular" in Hcons.
  rewrite Hexp in Hcons.
  apply (f_equal (λ o, match o with
                       | Some x => PrimFloat.eqb x 90%float
                       | None => false
                       end)) in Hcons.
  vm_compute in Hcons. discriminate.
Qed.

(** C1, amended: from a state in which every appointment carries the total
    of its linked procedures, every sequence of requests none of which is a
    procedure update with a price in its payload ends in such a state; the
    empty database is one. *)
Theorem valor_total_consistent `{Collaborators} (db : DB)
    (rs : list request) :
  sound db →
  Forall (λ r, edits_price r = false) rs →
  consistent (run db rs) ∧ links_resolve (run db rs).
Proof.
  intros Hs Hrs. change (sound (run db rs)). revert db Hs.
  induction Hrs as [|r rs Hr _ IH]; intros db Hs; [done|].
  unfold run. cbn [fold_left]. apply IH. by apply handle_sound.
Qed.

Lemma valor_total_consistent_witness :
  consistent (run (H := plain) empty_db booking)
  ∧ links_resolve (run (H := plain) empty_db booking).
Proof.
  apply (valor_total_consistent (H := plain) empty_db booking).
  - split.
    + intros ap_id ap Hap. unfold empty_db in Hap. cbn [appointments] in Hap.
      rewrite lookup_empty in Hap. discriminate.
    + intros l Hl. unfold empty_db in Hl. cbn [links] in Hl.
      apply elem_of_nil in Hl. destruct Hl.
  - repeat constructor.
Defined.

(** ** What patient creation does keep of the guardian rule *)

Section PatientCreation.
Context `{Collaborators}.
Import Patient.

Lemma strip_value_inr v s :
  strip_value v = inr s → ∃ t, v = VStr t ∧ s = strip t.
Proof. destruct v; try done. intros [= <-]. eauto. Qed.

Lemma present_string v s :
  Patients.missing_or_blank v = false → strip_value v = inr s →
  is_valid_string v = true.
Proof.
  intros Hm Hs. apply strip_value_inr in Hs as (t & -> & _).
  unfold Patients.missing_or_blank in Hm. apply orb_false_iff in Hm as [_ Hm].
  simpl in Hm. by apply negb_false_iff in Hm.
Qed.

(** The guardian's part goes through only with five non-empty strings, a
    birth date that parses and an adult guardian; it then fills the five
    attributes. *)
Lemma responsavel_inr today data patient patient' :
  Patients.responsavel today data patient = inr patient' →
  Forall (λ f, is_valid_string (get data f) = true)
    ["resp_cpf"; "resp_nome"; "resp_data_nascimento"; "resp_email";
     "resp_telefone"]
  ∧ ∃ rd,
      Patients.parse_date (Patients.clean (get data "resp_data_nascimento"))
      = inr rd
      ∧ (18 ≤ Patients.age_on today rd)%Z
      ∧ patient'
        = set_responsavel
            (Some (text (Patients.clean (get data "resp_cpf"))))
            (Some (text (Patients.clean (get data "resp_nome"))))
            (Some rd)
            (Some (text (Patients.clean (get data "resp_email"))))
            (Some (text (Patients.clean (get data "resp_telefone"))))
            patient.
Proof.
  unfold Patients.responsavel, Patients.rfields. cbn [for_each]. intros E.
  apply bind_inr in E as ([] & Hchecks & E).
  apply bind_inr in Hchecks as ([] & K1 & Hchecks).
  apply bind_inr in Hchecks as ([] & K2 & Hchecks).
  apply bind_inr in Hchecks as ([] & K3 & Hchecks).
  apply bind_inr in Hchecks as ([] & K4 & Hchecks).
  apply bind_inr in Hchecks as ([] & K5 & _).
  apply refuse_if_inr in K1, K2, K3, K4, K5.
  apply bind_inr in E as (s1 & S1 & E).
  apply bind_inr in E as (s2 & S2 & E).
  apply bind_inr in E as (s3 & S3 & E).
  apply bind_inr in E as (s4 & S4 & E).
  apply bind_inr in E as (s5 & S5 & E).
  apply bind_inr in E as (rd & Hrd & E).
  apply bind_inr in E as ([] & Hage & E). injection E as <-.
  apply refuse_if_inr, Z.ltb_ge in Hage.
  split.
  { repeat constructor; eauto using present_string. }
  apply strip_value_inr in S1 as (t1 & V1 & ->), S2 as (t2 & V2 & ->),
    S3 as (t3 & V3 & ->), S4 as (t4 & V4 & ->), S5 as (t5 & V5 & ->).
  exists rd. rewrite V1, V2, V3, V4, V5. cbn [Patients.clean text].
  split; [|done].
  destruct (Patients.parse_date (VStr (strip t3))); [done|].
  by injection Hrd as ->.
Qed.

(** X24: A creation that goes through stores a guardian exactly when the
    patient is under 18: all five guardian fields were non-empty strings,
    the guardian's birth date parsed and the guardian is 18 or more.  A
    patient of 18 or more is stored without guardian. *)
Lemma create_patient_Done db today data st body db' :
  Patients.create_patient db today data = Done st body db' →
  st = 201
  ∧ db' = MkDB (users db) (<[body.1 := body.2]> (patients db))
            (procedures db) (appointments db) (links db)
  ∧ Patients.parse_date (Patients.clean (get data "data_nascimento"))
    = inr (data_nascimento body.2)
  ∧ if Z.ltb (Patients.age_on today (data_nascimento body.2)) 18 then
      Forall (λ f, is_valid_string (get data f) = true)
        ["resp_cpf"; "resp_nome"; "resp_data_nascimento"; "resp_email";
         "resp_telefone"]
      ∧ ∃ rd,
          Patients.parse_date
            (Patients.clean (get data "resp_data_nascimento")) = inr rd
          ∧ (18 ≤ Patients.age_on today rd)%Z
          ∧ resp_data_nascimento body.2 = Some rd
          ∧ resp_cpf body.2
            = Some (text (Patients.clean (get data "resp_cpf")))
          ∧ resp_nome body.2
            = Some (text (Patients.clean (get data "resp_nome")))
          ∧ resp_email body.2
            = Some (text (Patients.clean (get data "resp_email")))
          ∧ resp_telefone body.2
            = Some (text (Patients.clean (get data "resp_telefone")))
    else
      resp_cpf body.2 = None ∧ resp_nome body.2 = None
      ∧ resp_data_nascimento body.2 = None ∧ resp_email body.2 = None
      ∧ resp_telefone body.2 = None.
Proof.
  unfold Patients.create_patient. intros E. apply finish_Done in E.
  cbv zeta in E.
  apply bind_inr in E as ([] & _ & E).
  apply bind_inr in E as ([] & _ & E).
  apply bind_inr in E as ([] & _ & E).
  apply bind_inr in E as (pn & Hpn & E).
  apply bind_inr in E as (patient & Hresp & E). injection E as <- <- <-.
  split; [done|]. split; [done|]. cbn [snd].
  assert (Hdate : Patients.parse_date
                    (Patients.clean (get data "data_nascimento")) = inr pn).
  { destruct (Patients.parse_date _); [done|]. by injection Hpn as ->. }
  destruct (Z.ltb (Patients.age_on today pn) 18) eqn:Hage.
  - apply responsavel_inr in Hresp as (Hall & rd & Hrd & Hadult & ->).
    cbn [data_nascimento set_responsavel]. rewrite Hage.
    split; [done|]. split; [done|]. exists rd. done.
  - injection Hresp as <-. cbn [data_nascimento]. by rewrite Hage.
Qed.

End PatientCreation.

(** When each guardian field is absent, falsy or a string, the guardian's
    part either goes through or is refused with 400: it raises nothing. *)
Lemma responsavel_strings `{Collaborators} today data patient :
  Forall (λ f, Patients.missing_or_blank (get data f) = true
               ∨ ∃ s, get data f = VStr s)
    ["resp_cpf"; "resp_nome"; "resp_data_nascimento"; "resp_email";
     "resp_telefone"] →
  (∃ patient', Patients.responsavel today data patient = inr patient')
  ∨ (∃ e, Patients.responsavel today data patient = inl (StopRefused 400 e)).
Proof.
  intros Hall.
  apply Forall_cons in Hall as [H1 Hall].
  apply Forall_cons in Hall as [H2 Hall].
  apply Forall_cons in Hall as [H3 Hall].
  apply Forall_cons in Hall as [H4 Hall].
  apply Forall_cons in Hall as [H5 _].
  unfold Patients.responsavel, Patients.rfields. cbn [for_each].
  destruct (Patients.missing_or_blank (get data "resp_cpf")) eqn:M1;
    [right; by eexists|].
  destruct (Patients.missing_or_blank (get data "resp_nome")) eqn:M2;
    [right; by eexists|].
  destruct (Patients.missing_or_blank (get data "resp_data_nascimento"))
    eqn:M3; [right; by eexists|].
  destruct (Patients.missing_or_blank (get data "resp_email")) eqn:M4;
    [right; by eexists|].
  destruct (Patients.missing_or_blank (get data "resp_telefone")) eqn:M5;
    [right; by eexists|].
  destruct H1 as [|[s1 ->]]; [done|]. destruct H2 as [|[s2 ->]]; [done|].
  destruct H3 as [|[s3 ->]]; [done|]. destruct H4 as [|[s4 ->]]; [done|].
  destruct H5 as [|[s5 ->]]; [done|].
  cbn [refuse_if mbind stop_bind strip_value].
  destruct (Patients.parse_date (VStr (strip s3))) as [e|rd];
    [right; by eexists|].
  cbn [mbind stop_bind].
  destruct (Z.ltb (Patients.age_on today rd) 18);
    [right; by eexists|left; by eexists].
Qed.

(** C2: a patient of nine with every guardian field supplied, the
    guardian's birth date as a number.  The number passes the emptiness
    check; the handler then calls [strip] on it and raises
    [AttributeError], which nothing catches: the answer is 500, not 400. *)
Theorem create_patient_numeric_guardian_date_raises `{Collaborators} :
  Patients.age_on today_2025 (Date 2015 6 20) = 9
  ∧ Patients.missing_or_blank (VInt 19800101) = false
  ∧ Patients.create_patient empty_db today_2025
      (<[ "resp_data_nascimento" := VInt 19800101 ]>
         (guardian_payload ∪ patient_payload))
    = Raised AttributeError
  ∧ status_of (Patients.create_patient empty_db today_2025
                 (<[ "resp_data_nascimento" := VInt 19800101 ]>
                    (guardian_payload ∪ patient_payload)))
    = 500.
Proof. vm_compute. done. Qed.

(** Scenarios A and B of the specification: a patient of thirty is created
    without guardian; a patient of ten without guardian fields is refused. *)
Example create_patient_adult_and_minor :
  (∃ body db',
     Patients.create_patient (H := plain) empty_db today_2025
       (<[ "data_nascimento" := VStr "1995-06-15" ]> patient_payload)
     = Done 201 body db'
     ∧ Patient.resp_cpf body.2 = None ∧ Patient.resp_nome body.2 = None
     ∧ Patient.resp_data_nascimento body.2 = None)
  ∧ Patients.create_patient (H := plain) empty_db today_2025
      (<[ "data_nascimento" := VStr "2015-06-15" ]> patient_payload)
    = Refused 400
        (Erro "Paciente menor: campo CPF do Responsável obrigatório e não pode ser vazio").
Proof.
  split; [eexists _, _; split; [vm_compute; reflexivity|done]|].
  vm_compute. reflexivity.
Qed.

(** The same request as [create_user] accepts without [tipo] is refused by
    [POST /auth/register]. *)
Example register_requires_tipo :
  Auth.register (H := plain) db_one_user new_user_payload
  = Refused 400 (Erro "O campo Tipo é obrigatório e não pode ser vazio").
Proof. vm_compute. reflexivity. Qed.

(** ** What patient update does refuse *)

Lemma has_key_lookup (data : payload) k v :
  data !! k = Some v → has_key data k = true ∧ get data k = v.
Proof.
  intros Hk. unfold has_key, get. rewrite Hk. split; [|done].
  apply bool_decide_eq_true. by eexists.
Qed.

Lemma update_string_field_result db data field patient :
  (∃ patient',
     Patients.update_string_field db data field patient = inr patient')
  ∨ (∃ e, Patients.update_string_field db data field patient
          = inl (StopRefused 400 e)).
Proof.
  unfold Patients.update_string_field.
  destruct (has_key data field); [|left; by eexists].
  destruct (is_valid_string (get data field)) eqn:Hv;
    [|right; by eexists].
  apply is_valid_string_inv in Hv as (s & -> & _).
  cbn [negb refuse_if mbind stop_bind strip_value].
  destruct (_ && _).
  { destruct (any_row _ _); [right|left]; by eexists. }
  destruct (_ && _).
  { destruct (any_row _ _); [right|left]; by eexists. }
  destruct (_ && _); left; by eexists.
Qed.

Lemma update_string_fields_result db data fields patient :
  (∃ patient',
     for_each fields (Patients.update_string_field db data) patient
     = inr patient')
  ∨ (∃ e, for_each fields (Patients.update_string_field db data) patient
          = inl (StopRefused 400 e)).
Proof.
  revert patient. induction fields as [|f fields IH]; intros patient.
  - left. by eexists.
  - cbn [for_each].
    destruct (update_string_field_result db data f patient)
      as [[p' Hp']|[e He]]; rewrite ?Hp', ?He; cbn [mbind stop_bind].
    + apply IH.
    + right. by eexists.
Qed.

Lemma update_string_fields_blank db data fields field patient :
  field ∈ fields → has_key data field = true →
  is_valid_string (get data field) = false →
  ∃ e, for_each fields (Patients.update_string_field db data) patient
       = inl (StopRefused 400 e).
Proof.
  intros Hin Hk Hv. revert patient.
  induction fields as [|f fields IH]; intros patient.
  { by apply elem_of_nil in Hin. }
  cbn [for_each].
  destruct (update_string_field_result db data f patient)
    as [[p' Hp]|[e He]].
  - rewrite Hp. cbn [mbind stop_bind].
    apply elem_of_cons in Hin as [->|Hin]; [|by apply IH].
    unfold Patients.update_string_field in Hp. rewrite Hk, Hv in Hp.
    discriminate.
  - rewrite He. by eexists.
Qed.

(** X27: A text field of the payload that is not a non-empty string is refused
    with 400, and so is a [data_nascimento] of white space. *)
Lemma update_patient_rejects_blank `{Collaborators} db today patient_id data
    patient :
  patients db !! patient_id = Some patient →
  (∀ field v,
     field ∈ Patients.string_fields → data !! field = Some v →
     is_valid_string v = false →
     ∃ e, Patients.update_patient db today patient_id data = Refused 400 e)
  ∧ (∀ s,
       data !! "data_nascimento" = Some (VStr s) → s ≠ "" → strip s = "" →
       ∃ e, Patients.update_patient db today patient_id data = Refused 400 e).
Proof.
  intros Hp. split.
  - intros field v Hin Hd Hv. apply has_key_lookup in Hd as [Hk Hg].
    unfold Patients.update_patient, get_or_404. rewrite Hp.
    cbn [mbind stop_bind].
    destruct (update_string_fields_blank db data Patients.string_fields
                field patient Hin Hk) as [e He]; [by rewrite Hg|].
    rewrite He. by eexists.
  - intros s Hd Hne Hs. apply has_key_lookup in Hd as [_ Hg].
    unfold Patients.update_patient, get_or_404. rewrite Hp.
    cbn [mbind stop_bind].
    destruct (update_string_fields_result db data Patients.string_fields
                patient) as [[p' ->]|[e ->]]; [|by eexists].
    cbn [mbind stop_bind]. rewrite Hg. cbn [truthy is_valid_string].
    apply String.eqb_neq in Hne. rewrite Hne, Hs.
    cbn [negb String.eqb refuse_if mbind stop_bind finish]. by eexists.
Qed.

(** C5: [PUT /patients/1] with an empty [data_nascimento] is answered 200
    and commits: the guard [if data.get('data_nascimento')] skips the empty
    string before the emptiness check is reached. *)
Theorem update_patient_accepts_empty_data_nascimento `{Collaborators} :
  has_key {[ "data_nascimento" := VStr "" ]} "data_nascimento" = true
  ∧ Patients.update_patient db_one_patient today_2025 1
      {[ "data_nascimento" := VStr "" ]}
    = Done 200 (1, caio) db_one_patient.
Proof. vm_compute. done. Qed.

(** ** What procedure update does keep *)

Section ProcedureUpdate.
Context `{Collaborators}.

Lemma update_field_nome data entry proc proc' :
  Procedures.update_field data entry proc = inr proc' →
  Procedure.nome proc' = Procedure.nome proc.
Proof.
  unfold Procedures.update_field. destruct entry as [field expected].
  destruct (has_key data field && negb (String.eqb field "nome")) eqn:Hk;
    [|by intros [= <-]].
  apply andb_true_iff in Hk as [_ Hk]. apply negb_true_iff in Hk.
  destruct expected.
  - intros E. skip_steps E. injection E as <-.
    unfold Procedure.setattr_text. cbn [Procedure.nome]. by rewrite Hk.
  - destruct (py_float _) as [[]|x]; try done.
    destruct (is_nan x || is_inf x); [done|]. by intros [= <-].
Qed.

Lemma update_field_not_duplicate data entry proc st :
  Procedures.update_field data entry proc
  ≠ inl (StopRefused st (Erro Procedures.msg_nome_existe)).
Proof.
  unfold Procedures.update_field. destruct entry as [field expected].
  destruct (has_key data field && negb (String.eqb field "nome"));
    [|done].
  destruct expected.
  - destruct (is_valid_string (get data field)) eqn:Hv.
    + apply is_valid_string_inv in Hv as (s & -> & _). done.
    + cbn. discriminate.
  - destruct (py_float _) as [[]|x]; cbn; try discriminate.
    destruct (is_nan x || is_inf x); cbn; discriminate.
Qed.

(** X28: A [nome] equal, as it is, to the current one is never refused as a
    duplicate and stays. *)
Lemma update_procedure_same_nome db who proc_id data proc :
  procedures db !! proc_id = Some proc →
  data !! "nome" = Some (VStr (Procedure.nome proc)) →
  (∀ st, Procedures.update_procedure db who proc_id data
         ≠ Refused st (Erro Procedures.msg_nome_existe))
  ∧ (∀ st body db',
       Procedures.update_procedure db who proc_id data = Done st body db' →
       Procedure.nome body.2 = Procedure.nome proc).
Proof.
  intros Hp Hd. apply has_key_lookup in Hd as [Hk Hg].
  unfold Procedures.update_procedure, get_or_404.
  destruct (is_admin who); cbn [negb refuse_if mbind stop_bind];
    [|split; intros; discriminate].
  rewrite Hp. cbn [mbind stop_bind]. rewrite Hk, Hg. cbn [eq_str].
  rewrite String.eqb_refl. cbn [negb andb mbind stop_bind mret stop_ret].
  unfold Procedures.fields_to_validate. cbn [for_each].
  destruct (Procedures.update_field data ("nome", _) proc) as [e1|p1] eqn:E1;
    cbn [mbind stop_bind].
  { split; [|intros st body db' Hf; by destruct e1].
    intros st. destruct e1; cbn; [|done].
    intros [= -> ->]. by apply update_field_not_duplicate in E1. }
  destruct (Procedures.update_field data ("descricao", _) p1)
    as [e2|p2] eqn:E2; cbn [mbind stop_bind].
  { split; [|intros st body db' Hf; by destruct e2].
    intros st. destruct e2; cbn; [|done].
    intros [= -> ->]. by apply update_field_not_duplicate in E2. }
  destruct (Procedures.update_field data ("valor_plano", _) p2)
    as [e3|p3] eqn:E3; cbn [mbind stop_bind].
  { split; [|intros st body db' Hf; by destruct e3].
    intros st. destruct e3; cbn; [|done].
    intros [= -> ->]. by apply update_field_not_duplicate in E3. }
  destruct (Procedures.update_field data ("valor_particular", _) p3)
    as [e4|p4] eqn:E4; cbn [mbind stop_bind].
  { split; [|intros st body db' Hf; by destruct e4].
    intros st. destruct e4; cbn; [|done].
    intros [= -> ->]. by apply update_field_not_duplicate in E4. }
  split; [done|]. cbn [mret stop_ret finish]. intros st body db' [= _ <- _].
  cbn [snd]. apply update_field_nome in E1, E2, E3, E4. congruence.
Qed.

Lemma py_float_not_attribute v : py_float v ≠ inl AttributeError.
Proof.
  destruct v; simpl; try done.
  - by destruct (is_inf _).
  - by destruct (float_of_str _).
Qed.

Lemma update_field_finite data field proc proc' :
  Procedures.update_field data (field, Procedures.ExpectNumber) proc
  = inr proc' →
  String.eqb field "nome" = false →
  has_key data field = true →
  ∃ x, py_float (get data field) = inr x
       ∧ is_nan x = false ∧ is_inf x = false
       ∧ proc' = Procedure.setattr_valor field x proc.
Proof.
  unfold Procedures.update_field. intros E Hf Hk. rewrite Hk, Hf in E.
  cbn [andb negb] in E.
  destruct (py_float _) as [[]|x]; try done.
  destruct (is_nan x || is_inf x) eqn:Hfin; [done|].
  injection E as <-. apply orb_false_iff in Hfin as [Hn Hi].
  by exists x.
Qed.

(** X29: An update that goes through stores, for each price of the payload, its
    coerced value, which is a finite number. *)
Lemma update_procedure_finite db who proc_id data st body db' :
  Procedures.update_procedure db who proc_id data = Done st body db' →
  (has_key data "valor_plano" = true →
   ∃ x, py_float (get data "valor_plano") = inr x
        ∧ is_nan x = false ∧ is_inf x = false
        ∧ Procedure.valor_plano body.2 = x)
  ∧ (has_key data "valor_particular" = true →
     ∃ x, py_float (get data "valor_particular") = inr x
          ∧ is_nan x = false ∧ is_inf x = false
          ∧ Procedure.valor_particular body.2 = x).
Proof.
  unfold Procedures.update_procedure. intros E. apply finish_Done in E.
  apply bind_inr in E as ([] & _ & E).
  apply bind_inr in E as (proc & _ & E).
  apply bind_inr in E as (p0 & _ & E).
  apply bind_inr in E as (p4 & Hloop & E). injection E as <- <- <-.
  unfold Procedures.fields_to_validate in Hloop. cbn [for_each] in Hloop.
  apply bind_inr in Hloop as (p1 & _ & Hloop).
  apply bind_inr in Hloop as (p2 & _ & Hloop).
  apply bind_inr in Hloop as (p3 & H3 & Hloop).
  apply bind_inr in Hloop as (p4' & H4 & Hloop). injection Hloop as <-.
  cbn [snd]. split; intros Hk.
  - apply update_field_finite in H3 as (x & Hx & Hn & Hi & ->);
      [|done|done].
    exists x. repeat split; try done.
    revert H4. unfold Procedures.update_field.
    destruct (has_key data "valor_particular" && _); [|by intros [= <-]].
    destruct (py_float (get data "valor_particular")) as [[]|y]; try done.
    destruct (is_nan y || is_inf y); [done|]. by intros [= <-].
  - apply update_field_finite in H4 as (x & Hx & Hn & Hi & ->);
      [|done|done].
    by exists x.
Qed.

(** X30: A price of the payload that does not coerce, or coerces to NaN or to
    an infinity, makes the update of an existing procedure by an admin fail
    with 400; for [valor_particular], provided the coercion of
    [valor_plano] before it raises no [OverflowError]. *)
Lemma update_procedure_rejects_price db who proc_id data proc field :
  is_admin who = true →
  procedures db !! proc_id = Some proc →
  has_key data field = true →
  (field = "valor_plano"
   ∨ field = "valor_particular"
     ∧ py_float (get data "valor_plano") ≠ inl OverflowError) →
  (py_float (get data field) = inl ValueError
   ∨ py_float (get data field) = inl TypeError
   ∨ ∃ x, py_float (get data field) = inr x
          ∧ is_nan x || is_inf x = true) →
  ∃ e, Procedures.update_procedure db who proc_id data = Refused 400 e.
Proof.
  intros Hadm Hp Hk Hfield Hbad.
  unfold Procedures.update_procedure, get_or_404. rewrite Hadm, Hp.
  cbn [negb refuse_if mbind stop_bind].
  assert (Hnome : ∀ m : stop + Procedure.t,
            m = (if has_key data "nome"
                    && negb (eq_str (get data "nome") (Procedure.nome proc))
                 then
                   _ ← refuse_if (negb (is_valid_string (get data "nome")))
                         400 "O campo nome não pode ser vazio";
                   new_nome ← strip_value (get data "nome");
                   _ ← refuse_if
                         (any_row (λ p, String.eqb (Procedure.nome p)
                                          new_nome) (procedures db)) 400
                         Procedures.msg_nome_existe;
                   mret (Procedure.setattr_text "nome" new_nome proc)
                 else mret proc) →
            (∃ p, m = inr p) ∨ (∃ e, m = inl (StopRefused 400 e))).
  { intros m ->. destruct (_ && _); [|left; by eexists].
    destruct (is_valid_string (get data "nome")) eqn:Hv;
      [|right; by eexists].
    apply is_valid_string_inv in Hv as (s & -> & _).
    cbn [negb refuse_if mbind stop_bind strip_value].
    destruct (any_row _ _); [right|left]; by eexists. }
  destruct (Hnome _ eq_refl) as [[p0 ->]|[e ->]]; [|by eexists].
  cbn [mbind stop_bind]. clear Hnome.
  unfold Procedures.fields_to_validate. cbn [for_each].
  replace (Procedures.update_field data ("nome", Procedures.ExpectStr) p0)
    with (inr p0 : stop + Procedure.t)
    by (unfold Procedures.update_field; by destruct (has_key data "nome")).
  cbn [mbind stop_bind mret stop_ret].
  assert (Hdesc : (∃ p, Procedures.update_field data
                          ("descricao", Procedures.ExpectStr) p0 = inr p)
                  ∨ (∃ e, Procedures.update_field data
                            ("descricao", Procedures.ExpectStr) p0
                          = inl (StopRefused 400 e))).
  { unfold Procedures.update_field.
    destruct (has_key data "descricao" && _); [|left; by eexists].
    destruct (is_valid_string (get data "descricao")) eqn:Hv;
      [|right; by eexists].
    apply is_valid_string_inv in Hv as (s & -> & _). left. by eexists. }
  destruct Hdesc as [[p2 ->]|[e ->]]; [|by eexists].
  cbn [mbind stop_bind].
  assert (Hrej : ∀ f p, String.eqb f "nome" = false →
            has_key data f = true →
            (py_float (get data f) = inl ValueError
             ∨ py_float (get data f) = inl TypeError
             ∨ ∃ x, py_float (get data f) = inr x
                    ∧ is_nan x || is_inf x = true) →
            ∃ e, Procedures.update_field data (f, Procedures.ExpectNumber) p
                 = inl (StopRefused 400 e)).
  { intros f p Hf Hkf Hb. unfold Procedures.update_field.
    rewrite Hkf, Hf. cbn [andb negb].
    destruct Hb as [-> | [-> | (x & -> & ->)]]; by eexists. }
  destruct Hfield as [-> | [-> Hover]].
  - destruct (Hrej "valor_plano" p2 eq_refl Hk Hbad) as [e ->].
    by eexists.
  - assert (Hplano : (∃ p, Procedures.update_field data
                             ("valor_plano", Procedures.ExpectNumber) p2
                           = inr p)
                     ∨ (∃ e, Procedures.update_field data
                               ("valor_plano", Procedures.ExpectNumber) p2
                             = inl (StopRefused 400 e))).
    { unfold Procedures.update_field.
      destruct (has_key data "valor_plano" && _); [|left; by eexists].
      destruct (py_float (get data "valor_plano")) as [e|x] eqn:Hpf.
      - destruct e.
        + right. by eexists.
        + right. by eexists.
        + by destruct Hover.
        + by apply py_float_not_attribute in Hpf.
      - destruct (is_nan x || is_inf x); [right|left]; by eexists. }
    destruct Hplano as [[p3 ->]|[e ->]]; [|by eexists].
    cbn [mbind stop_bind].
    destruct (Hrej "valor_particular" p3 eq_refl Hk Hbad) as [e ->].
    by eexists.
Qed.

End ProcedureUpdate.

(** C7: the procedure named [Consulta] is updated with the name
    [" Consulta "], whose trimmed value is its current name: the raw
    comparison [data['nome'] != proc.nome] sees a change, the uniqueness
    query finds the procedure itself, and the request is refused as a
    duplicate. *)
Theorem update_procedure_padded_nome_is_duplicate `{Collaborators} :
  strip " Consulta " = Procedure.nome consulta
  ∧ Procedures.update_procedure db_one_procedure admin_ana 1
      {[ "nome" := VStr " Consulta " ]}
    = Refused 400 (Erro Procedures.msg_nome_existe).
Proof. vm_compute. done. Qed.

(** C6: [POST /procedures/] with a price that coerces to infinity (the
    JSON number 1e999 decodes to it) is accepted: the procedure is stored
    with an infinite [valor_plano]. *)
Theorem create_procedure_accepts_infinity `{Collaborators} :
  Procedures.create_procedure db_one_procedure admin_ana
    {[ "nome" := VStr "Exame"; "descricao" := VStr "Exame de sangue";
       "valor_plano" := VFloat infinity; "valor_particular" := VInt 80 ]}
  = Done 201 (2, Procedure.Make "Exame" "Exame de sangue" infinity 80%float)
      (MkDB {[ 1 := user_ana ]} ∅
         {[ 1 := consulta;
            2 := Procedure.Make "Exame" "Exame de sangue" infinity 80%float ]}
         ∅ [])
  ∧ is_inf infinity = true.
Proof. vm_compute. done. Qed.

(** * Further properties of the handlers *)

(** ** Trimming *)

Lemma lstrip_head s :
  lstrip s = "" ∨ ∃ c r, lstrip s = String c r ∧ isspace c = false.
Proof.
  induction s as [|c s IH]; simpl; [by left|].
  destruct (isspace c) eqn:Hc; [done|]. right. eauto.
Qed.

Lemma lstrip_empty s :
  lstrip s = "" ↔ forallb isspace (list_ascii_of_string s) = true.
Proof.
  induction s as [|c s IH]; simpl; [done|].
  destruct (isspace c); simpl; [done|]. split; discriminate.
Qed.

Lemma rstrip_head c r :
  isspace c = false → ∃ r', rstrip (String c r) = String c r'.
Proof. intros Hc. simpl. rewrite Hc. destruct (rstrip r); eauto. Qed.

Lemma rstrip_cons c r :
  rstrip (String c r)
  = match rstrip r with
    | EmptyString => if isspace c then EmptyString else String c EmptyString
    | r' => String c r'
    end.
Proof. reflexivity. Qed.

Lemma rstrip_idem s : rstrip (rstrip s) = rstrip s.
Proof.
  induction s as [|c s IH]; [done|]. rewrite rstrip_cons.
  destruct (rstrip s) as [|d r'] eqn:Hr.
  - destruct (isspace c) eqn:Hc; [done|]. rewrite rstrip_cons. simpl.
    by rewrite Hc.
  - rewrite rstrip_cons, IH. done.
Qed.

Lemma strip_idem s : strip (strip s) = strip s.
Proof.
  unfold strip. destruct (lstrip_head s) as [->|(c & r & -> & Hc)]; [done|].
  destruct (rstrip_head c r Hc) as [r' Hr]. rewrite Hr.
  simpl lstrip. rewrite Hc. rewrite <- Hr. apply rstrip_idem.
Qed.

Lemma strip_empty s :
  strip s = "" ↔ forallb isspace (list_ascii_of_string s) = true.
Proof.
  rewrite <- lstrip_empty. unfold strip.
  destruct (lstrip_head s) as [->|(c & r & -> & Hc)]; [done|].
  destruct (rstrip_head c r Hc) as [r' ->]. split; discriminate.
Qed.

Lemma strip_trimmed s : strip s ≠ "" → trimmed (strip s).
Proof. intros Hne. split; [apply strip_idem|done]. Qed.

(** X1: [is_valid_string] accepts the strings with a character that is not
    white space, and nothing else. *)
Theorem is_valid_string_spec (v : value) :
  is_valid_string v = true ↔
  ∃ s, v = VStr s
       ∧ existsb (λ c, negb (isspace c)) (list_ascii_of_string s) = true.
Proof.
  split.
  - intros Hv. apply is_valid_string_inv in Hv as (s & -> & Hs).
    exists s. split; [done|].
    destruct (existsb _ _) eqn:He; [done|]. destruct Hs.
    apply strip_empty. apply forallb_forall. intros c Hc.
    rewrite <- not_true_iff_false, existsb_exists in He.
    destruct (isspace c) eqn:Hsp; [done|]. destruct He. exists c.
    by rewrite Hsp.
  - intros (s & -> & He). apply is_valid_string_str. intros Hs.
    apply strip_empty in Hs. apply existsb_exists in He as (c & Hc & Hn).
    rewrite forallb_forall in Hs. rewrite (Hs c Hc) in Hn. discriminate.
Qed.

(** ** Tables with a unique attribute *)

Lemma unique_by_insert {A} (f : A → string) (table : gmap Z A) k v :
  unique_by f table →
  (∀ j b, table !! j = Some b → j ≠ k → f b ≠ f v) →
  unique_by f (<[k := v]> table).
Proof.
  intros Hu Hfree i j a b Hi Hj Hab.
  destruct (decide (k = i)) as [<-|Hki], (decide (k = j)) as [<-|Hkj];
    try done.
  - rewrite lookup_insert_eq in Hi. rewrite lookup_insert_ne in Hj by done.
    injection Hi as <-. by destruct (Hfree j b Hj).
  - rewrite lookup_insert_eq in Hj. rewrite lookup_insert_ne in Hi by done.
    injection Hj as <-. by destruct (Hfree i a Hi).
  - rewrite lookup_insert_ne in Hi, Hj by done. by eapply Hu.
Qed.

Lemma unique_by_delete {A} (f : A → string) (table : gmap Z A) k :
  unique_by f table → unique_by f (delete k table).
Proof.
  intros Hu i j a b Hi Hj Hab.
  apply lookup_delete_Some in Hi as [_ Hi], Hj as [_ Hj]. by eapply Hu.
Qed.

(** Replacing a row by one with the same attribute. *)
Lemma unique_by_same {A} (f : A → string) (table : gmap Z A) k old v :
  unique_by f table → table !! k = Some old → f v = f old →
  unique_by f (<[k := v]> table).
Proof.
  intros Hu Hk Hf. apply unique_by_insert; [done|].
  intros j b Hj Hne Heq. apply Hne. eapply Hu; eauto. congruence.
Qed.

Lemma any_row_free {A} (f : A → string) (table : gmap Z A) s :
  any_row (λ r, String.eqb (f r) s) table = false →
  ∀ j b, table !! j = Some b → f b ≠ s.
Proof.
  intros Hn j b Hj. apply String.eqb_neq.
  by apply (proj1 (any_row_false _ _) Hn j b).
Qed.

(** ** The user handlers, read from their success *)

Section UserHandlers.
Context `{Collaborators}.

Lemma valid_strip_value v s :
  is_valid_string v = true → strip_value v = inr s → trimmed s.
Proof.
  intros Hv Hs. apply is_valid_string_inv in Hv as (t & -> & Ht).
  injection Hs as <-. by apply strip_trimmed.
Qed.

Lemma create_user_inv db who data st body db' :
  Users.create_user db who data = Done st body db' →
  is_admin who = true
  ∧ st = 201 ∧ body.1 = next_id (users db)
  ∧ trimmed (User.email body.2) ∧ trimmed (User.nome body.2)
  ∧ (User.tipo body.2 = "admin" ∨ User.tipo body.2 = "default")
  ∧ (∃ senha, get data "senha" = VStr senha ∧ strip senha ≠ ""
              ∧ User.senha_hash body.2 = password_hash (strip senha))
  ∧ strip_value (get data "email") = inr (User.email body.2)
  ∧ (∀ j b, users db !! j = Some b → User.email b ≠ User.email body.2)
  ∧ db' = MkDB (<[body.1 := body.2]> (users db)) (patients db)
            (procedures db) (appointments db) (links db).
Proof.
  unfold Users.create_user. intros E. apply finish_Done in E.
  cbv zeta in E.
  apply bind_inr in E as ([] & Hadm & E).
  apply bind_inr in E as ([] & Hvalid & E).
  apply bind_inr in E as (email & Hemail & E).
  apply bind_inr in E as (nome & Hnome & E).
  apply bind_inr in E as (tipo & Htipo & E).
  apply bind_inr in E as (senha & Hsenha & E).
  apply bind_inr in E as ([] & Hrole & E).
  apply bind_inr in E as ([] & Hfree & E). injection E as <- <- <-.
  apply refuse_if_inr, negb_false_iff in Hadm.
  apply refuse_if_inr, negb_false_iff in Hvalid. cbn [forallb] in Hvalid.
  apply andb_true_iff in Hvalid as [V1 Hvalid].
  apply andb_true_iff in Hvalid as [V2 Hvalid].
  apply andb_true_iff in Hvalid as [V3 Hvalid].
  apply andb_true_iff in Hvalid as [V4 _].
  apply refuse_if_inr, negb_false_iff in Hrole. cbn [existsb] in Hrole.
  rewrite orb_false_r in Hrole. apply refuse_if_inr in Hfree.
  cbn [fst snd User.email User.nome User.tipo User.senha_hash].
  split; [done|]. split; [done|]. split; [done|].
  split; [exact (valid_strip_value _ _ V1 Hemail)|].
  split; [exact (valid_strip_value _ _ V2 Hnome)|].
  split.
  { apply orb_true_iff in Hrole as [Hr|Hr]; apply String.eqb_eq in Hr; auto. }
  split.
  { apply is_valid_string_inv in V4 as (t & Ht & Hne). exists t.
    rewrite Ht in Hsenha. by injection Hsenha as <-. }
  split; [done|]. split; [by apply any_row_free|done].
Qed.

Lemma register_inv db data st body db' :
  Auth.register db data = Done st body db' →
  st = 201 ∧ body.1 = next_id (users db)
  ∧ trimmed (User.email body.2) ∧ trimmed (User.nome body.2)
  ∧ (User.tipo body.2 = "admin" ∨ User.tipo body.2 = "default")
  ∧ (∃ senha, get data "senha" = VStr senha ∧ strip senha ≠ ""
              ∧ User.senha_hash body.2 = password_hash senha)
  ∧ strip_value (get data "email") = inr (User.email body.2)
  ∧ (∀ j b, users db !! j = Some b → User.email b ≠ User.email body.2)
  ∧ db' = MkDB (<[body.1 := body.2]> (users db)) (patients db)
            (procedures db) (appointments db) (links db).
Proof.
  unfold Auth.register, Auth.required_fields. intros E.
  apply finish_Done in E. cbv zeta in E. cbn [for_each] in E.
  apply bind_inr in E as ([] & Hvalid & E).
  apply bind_inr in Hvalid as ([] & V1 & Hvalid).
  apply bind_inr in Hvalid as ([] & V2 & Hvalid).
  apply bind_inr in Hvalid as ([] & V3 & Hvalid).
  apply bind_inr in Hvalid as ([] & V4 & _).
  apply refuse_if_inr, negb_false_iff in V1, V2, V3, V4.
  apply bind_inr in E as (email & Hemail & E).
  apply bind_inr in E as (nome & Hnome & E).
  apply bind_inr in E as (tipo & Htipo & E).
  apply bind_inr in E as ([] & Hrole & E).
  apply bind_inr in E as ([] & Hfree & E).
  apply bind_inr in E as (senha & Hsenha & E). injection E as <- <- <-.
  apply refuse_if_inr, negb_false_iff in Hrole. cbn [existsb] in Hrole.
  rewrite orb_false_r in Hrole. apply refuse_if_inr in Hfree.
  cbn [fst snd User.email User.nome User.tipo User.senha_hash].
  split; [done|]. split; [done|].
  split; [exact (valid_strip_value _ _ V1 Hemail)|].
  split; [exact (valid_strip_value _ _ V2 Hnome)|].
  split.
  { apply orb_true_iff in Hrole as [Hr|Hr]; apply String.eqb_eq in Hr; auto. }
  split.
  { apply is_valid_string_inv in V4 as (s & Hs & Hne). exists s.
    rewrite Hs in Hsenha. injection Hsenha as <-. done. }
  split; [done|]. split; [by apply any_row_free|done].
Qed.

Lemma update_user_inv db who user_id data st body db' :
  Users.update_user db who user_id data = Done st body db' →
  ∃ user,
    users db !! user_id = Some user
    ∧ (is_admin who = true ∨ actor_id who = user_id)
    ∧ st = 200 ∧ body.1 = user_id
    ∧ User.tipo body.2 = User.tipo user
    ∧ User.senha_hash body.2 = User.senha_hash user
    ∧ (User.email body.2 = User.email user
       ∨ trimmed (User.email body.2)
         ∧ strip_value (get data "email") = inr (User.email body.2)
         ∧ ∀ j b, users db !! j = Some b → User.email b ≠ User.email body.2)
    ∧ (User.nome body.2 = User.nome user
       ∧ get data "nome" = VNone
       ∨ trimmed (User.nome body.2)
         ∧ strip_value (get data "nome") = inr (User.nome body.2))
    ∧ db' = MkDB (<[user_id := body.2]> (users db)) (patients db)
              (procedures db) (appointments db) (links db).
Proof.
  unfold Users.update_user. intros E. apply finish_Done in E.
  cbv zeta in E.
  apply bind_inr in E as (user & Huser & E).
  apply bind_inr in E as ([] & Hauth & E).
  apply bind_inr in E as (u1 & Hemail & E).
  apply bind_inr in E as (u2 & Hnome & E). injection E as <- <- <-.
  unfold get_or_404 in Huser.
  destruct (users db !! user_id) as [u|] eqn:Hu; [|done].
  injection Huser as <-. exists u. split; [done|].
  apply refuse_if_inr, andb_false_iff in Hauth.
  split.
  { destruct Hauth as [Ha|Ha]; apply negb_false_iff in Ha; [by left|].
    right. by apply Z.eqb_eq. }
  cbn [fst snd].
  assert (He : User.tipo u1 = User.tipo u
               ∧ User.senha_hash u1 = User.senha_hash u
               ∧ User.nome u1 = User.nome u
               ∧ (User.email u1 = User.email u
                  ∨ trimmed (User.email u1)
                    ∧ strip_value (get data "email") = inr (User.email u1)
                    ∧ ∀ j b, users db !! j = Some b →
                             User.email b ≠ User.email u1)).
  { destruct (negb (is_none (get data "email")));
      [|injection Hemail as <-; auto].
    apply bind_inr in Hemail as ([] & Hv & Hemail).
    apply refuse_if_inr, negb_false_iff in Hv.
    apply bind_inr in Hemail as (email & Hs & Hemail).
    destruct (negb (String.eqb email (User.email u)));
      [|injection Hemail as <-; auto].
    apply bind_inr in Hemail as ([] & Hfree & Hemail).
    injection Hemail as <-. apply refuse_if_inr in Hfree.
    cbn [User.tipo User.senha_hash User.nome User.email User.set_email].
    repeat split; try done. right.
    split; [exact (valid_strip_value _ _ Hv Hs)|]. split; [done|].
    by apply any_row_free. }
  destruct He as (T1 & S1 & N1 & E1).
  destruct (is_none (get data "nome")) eqn:Hnone; cbn [negb] in Hnome.
  - injection Hnome as <-. repeat split; try done.
    left. split; [done|]. by destruct (get data "nome").
  - apply bind_inr in Hnome as ([] & Hv & Hnome).
    apply refuse_if_inr, negb_false_iff in Hv.
    apply bind_inr in Hnome as (nome & Hs & Hnome). injection Hnome as <-.
    cbn [User.tipo User.senha_hash User.nome User.email User.set_nome].
    repeat split; try done. right. split; [|done].
    exact (valid_strip_value _ _ Hv Hs).
Qed.

Lemma delete_user_inv db who user_id st body db' :
  Users.delete_user db who user_id = Done st body db' →
  is_admin who = true
  ∧ is_Some (users db !! user_id)
  ∧ (∀ k ap, appointments db !! k = Some ap →
             Appointment.usuario_id ap ≠ user_id)
  ∧ db' = MkDB (delete user_id (users db)) (patients db) (procedures db)
            (appointments db) (links db).
Proof.
  unfold Users.delete_user. intros E. apply finish_Done in E.
  apply bind_inr in E as (u & Hu & E).
  apply bind_inr in E as ([] & Hadm & E).
  apply bind_inr in E as ([] & Hfree & E). injection E as <- <- <-.
  apply refuse_if_inr, negb_false_iff in Hadm. apply refuse_if_inr in Hfree.
  unfold get_or_404 in Hu. destruct (users db !! user_id) eqn:Hl; [|done].
  repeat split; try done.
  intros k ap Hap Heq.
  apply (proj1 (any_row_false _ _) Hfree k ap) in Hap.
  apply Z.eqb_neq in Hap. done.
Qed.

Lemma reset_password_inv db who user_id data st body db' :
  Users.reset_password db who user_id data = Done st body db' →
  is_admin who = true
  ∧ ∃ user senha,
      users db !! user_id = Some user
      ∧ get data "senha" = VStr senha ∧ strip senha ≠ ""
      ∧ db' = MkDB (<[user_id := User.set_senha_hash
                                    (password_hash (strip senha)) user]>
                      (users db))
                (patients db) (procedures db) (appointments db) (links db).
Proof.
  unfold Users.reset_password. intros E. apply finish_Done in E.
  cbv zeta in E.
  apply bind_inr in E as ([] & Hadm & E).
  apply bind_inr in E as ([] & Hv & E).
  apply bind_inr in E as (u & Hu & E).
  apply bind_inr in E as (new & Hnew & E). injection E as <- <- <-.
  apply refuse_if_inr, negb_false_iff in Hadm, Hv.
  unfold get_or_404 in Hu. destruct (users db !! user_id) eqn:Hl; [|done].
  injection Hu as <-. split; [done|].
  apply is_valid_string_inv in Hv as (s & Hs & Hne). rewrite Hs in Hnew.
  injection Hnew as <-. eauto 10.
Qed.

Lemma change_password_inv db who data st body db' :
  Users.change_password db who data = Done st body db' →
  ∃ user old new,
    users db !! actor_id who = Some user
    ∧ get data "senha_antiga" = VStr old
    ∧ get data "senha_nova" = VStr new ∧ strip new ≠ ""
    ∧ check_password (User.senha_hash user) (strip old) = true
    ∧ db' = MkDB (<[actor_id who := User.set_senha_hash
                                      (password_hash (strip new)) user]>
                    (users db))
              (patients db) (procedures db) (appointments db) (links db).
Proof.
  unfold Users.change_password. intros E. apply finish_Done in E.
  cbv zeta in E.
  apply bind_inr in E as ([] & Hv & E).
  apply bind_inr in E as (old & Hold & E).
  apply bind_inr in E as (new & Hnew & E).
  apply bind_inr in E as (u & Hu & E).
  apply bind_inr in E as ([] & Hck & E). injection E as <- <- <-.
  apply refuse_if_inr, negb_false_iff in Hv, Hck. cbn [forallb] in Hv.
  apply andb_true_iff in Hv as [V1 Hv]. apply andb_true_iff in Hv as [V2 _].
  unfold get_or_404 in Hu.
  destruct (users db !! actor_id who) eqn:Hl; [|done]. injection Hu as <-.
  apply is_valid_string_inv in V1 as (o & Ho & _).
  apply is_valid_string_inv in V2 as (n & Hn & Hne).
  rewrite Ho in Hold. rewrite Hn in Hnew.
  injection Hold as <-. injection Hnew as <-. eauto 10.
Qed.

End UserHandlers.

(** ** Which tables a handler writes *)

Lemma run_invariant `{Collaborators} (P : DB → Prop) :
  (∀ db r, P db → P (handle db r)) →
  ∀ rs db, P db → P (run db rs).
Proof.
  intros Hstep rs. induction rs as [|r rs IH]; intros db Hdb; [done|].
  unfold run. cbn [fold_left]. apply IH. by apply Hstep.
Qed.

Lemma after_outcome {A} (R : DB → DB → Prop) db (o : outcome A) :
  R db db →
  (∀ st body db', o = Done st body db' → R db db') →
  R db (db_after db o).
Proof.
  intros Hrefl Hd. destruct o as [st body db'| |]; simpl; try done.
  by eapply Hd.
Qed.

Section Frames.
Context `{Collaborators}.

Lemma create_patient_frame db today data :
  only_patients_differ db
    (db_after db (Patients.create_patient db today data)).
Proof.
  apply after_outcome; [done|]. intros st body db' E.
  unfold Patients.create_patient in E. apply finish_Done in E.
  skip_steps E. by injection E as <- <- <-.
Qed.

Lemma update_patient_frame db today patient_id data :
  only_patients_differ db
    (db_after db (Patients.update_patient db today patient_id data)).
Proof.
  apply after_outcome; [done|]. intros st body db' E.
  unfold Patients.update_patient in E. apply finish_Done in E.
  skip_steps E. by injection E as <- <- <-.
Qed.

Lemma delete_patient_frame db patient_id :
  only_patients_differ db
    (db_after db (Patients.delete_patient db patient_id)).
Proof.
  apply after_outcome; [done|]. intros st body db' E.
  unfold Patients.delete_patient in E. apply finish_Done in E.
  skip_steps E. by injection E as <- <- <-.
Qed.

Lemma create_user_frame db who data :
  only_users_differ db (db_after db (Users.create_user db who data)).
Proof.
  apply after_outcome; [done|]. intros st body db' E.
  by apply create_user_inv in E as (_ & _ & _ & _ & _ & _ & _ & _ & _ & ->).
Qed.

Lemma register_frame db data :
  only_users_differ db (db_after db (Auth.register db data)).
Proof.
  apply after_outcome; [done|]. intros st body db' E.
  by apply register_inv in E as (_ & _ & _ & _ & _ & _ & _ & _ & ->).
Qed.

Lemma update_user_frame db who user_id data :
  only_users_differ db
    (db_after db (Users.update_user db who user_id data)).
Proof.
  apply after_outcome; [done|]. intros st body db' E.
  by apply update_user_inv in E
    as (u & _ & _ & _ & _ & _ & _ & _ & _ & ->).
Qed.

Lemma delete_user_frame db who user_id :
  only_users_differ db (db_after db (Users.delete_user db who user_id)).
Proof.
  apply after_outcome; [done|]. intros st body db' E.
  by apply delete_user_inv in E as (_ & _ & _ & ->).
Qed.

Lemma reset_password_frame db who user_id data :
  only_users_differ db
    (db_after db (Users.reset_password db who user_id data)).
Proof.
  apply after_outcome; [done|]. intros st body db' E.
  by apply reset_password_inv in E as (_ & u & s & _ & _ & _ & ->).
Qed.

Lemma change_password_frame db who data :
  only_users_differ db (db_after db (Users.change_password db who data)).
Proof.
  apply after_outcome; [done|]. intros st body db' E.
  by apply change_password_inv in E as (u & o & n & _ & _ & _ & _ & _ & ->).
Qed.

(** The appointment and procedure handlers leave users and patients. *)
Lemma billing_handlers_frame db r :
  match r with
  | CreateAppointment _ _ | UpdateAppointment _ _ _ | DeleteAppointment _ _
  | CreateProcedure _ _ | UpdateProcedure _ _ _ | DeleteProcedure _ _ => True
  | _ => False
  end →
  users (handle db r) = users db ∧ patients (handle db r) = patients db.
Proof.
  destruct r; try done; intros _; cbn [handle].
  - destruct (Appointments.create_appointment _ _ _) eqn:E; try done.
    by apply create_appointment_Done in E as (ap & objs & _ & _ & _ & ->).
  - destruct (Appointments.update_appointment _ _ _ _) eqn:E; try done.
    by apply update_appointment_Done in E
      as (a0 & a1 & c & o & l & a' & _ & _ & _ & _ & _ & _ & _ & ->).
  - destruct (Appointments.delete_appointment _ _ _) eqn:E; try done.
    by apply delete_appointment_Done in E as ->.
  - destruct (Procedures.create_procedure _ _ _) eqn:E; try done.
    by apply create_procedure_Done in E as (p & ->).
  - destruct (Procedures.update_procedure _ _ _ _) eqn:E; try done.
    by apply update_procedure_Done in E as (p & p' & _ & -> & _).
  - destruct (Procedures.delete_procedure _ _ _) eqn:E; try done.
    by apply delete_procedure_Done in E as (_ & ->).
Qed.

(** The appointment handlers leave the procedures. *)
Lemma appointment_handlers_procedures db r :
  match r with
  | CreateAppointment _ _ | UpdateAppointment _ _ _ | DeleteAppointment _ _
      => True
  | _ => False
  end →
  procedures (handle db r) = procedures db.
Proof.
  destruct r; try done; intros _; cbn [handle].
  - destruct (Appointments.create_appointment _ _ _) eqn:E; try done.
    by apply create_appointment_Done in E as (ap & objs & _ & _ & _ & ->).
  - destruct (Appointments.update_appointment _ _ _ _) eqn:E; try done.
    by apply update_appointment_Done in E
      as (a0 & a1 & c & o & l & a' & _ & _ & _ & _ & _ & _ & _ & ->).
  - destruct (Appointments.delete_appointment _ _ _) eqn:E; try done.
    by apply delete_appointment_Done in E as ->.
Qed.

End Frames.

(** ** The users table *)

Section UsersTable.
Context `{Collaborators}.

Lemma users_ok_same_users db db' :
  users db' = users db → users_ok db → users_ok db'.
Proof. unfold users_ok. by intros ->. Qed.

Lemma users_ok_new_user db (user : User.t) :
  users_ok db →
  trimmed (User.email user) → trimmed (User.nome user) →
  (User.tipo user = "admin" ∨ User.tipo user = "default") →
  (∀ j b, users db !! j = Some b → User.email b ≠ User.email user) →
  ∀ pa pr ap li,
    users_ok (MkDB (<[next_id (users db) := user]> (users db)) pa pr ap li).
Proof.
  intros [Hu Hall] He Hn Ht Hfree pa pr ap li. split; cbn [users].
  - apply unique_by_insert; [done|]. intros j b Hj _. by apply (Hfree j b).
  - intros k u Hk.
    destruct (decide (next_id (users db) = k)) as [<-|Hne].
    + rewrite lookup_insert_eq in Hk. by injection Hk as <-.
    + rewrite lookup_insert_ne in Hk by done. by eapply Hall.
Qed.

Lemma users_ok_replace db user_id (old new : User.t) :
  users_ok db → users db !! user_id = Some old →
  (User.email new = User.email old
   ∨ trimmed (User.email new)
     ∧ ∀ j b, users db !! j = Some b → User.email b ≠ User.email new) →
  (User.nome new = User.nome old ∨ trimmed (User.nome new)) →
  User.tipo new = User.tipo old →
  ∀ pa pr ap li,
    users_ok (MkDB (<[user_id := new]> (users db)) pa pr ap li).
Proof.
  intros [Hu Hall] Hold He Hn Ht pa pr ap li.
  destruct (Hall _ _ Hold) as (Te & Tn & Tt). split; cbn [users].
  - destruct He as [He|[_ Hfree]].
    + by eapply unique_by_same.
    + apply unique_by_insert; [done|]. intros j b Hj _. by apply (Hfree j b).
  - intros k u Hk. destruct (decide (user_id = k)) as [<-|Hne].
    + rewrite lookup_insert_eq in Hk. injection Hk as <-.
      split; [|split].
      * destruct He as [->|[He _]]; done.
      * destruct Hn as [->|Hn]; done.
      * by rewrite Ht.
    + rewrite lookup_insert_ne in Hk by done. by eapply Hall.
Qed.

Lemma handle_users_ok db r : users_ok db → users_ok (handle db r).
Proof.
  intros Hok.
  destruct r;
    try (eapply users_ok_same_users; [|done];
         by apply (billing_handlers_frame db)).
  - eapply users_ok_same_users; [|done]. apply create_patient_frame.
  - eapply users_ok_same_users; [|done]. apply update_patient_frame.
  - eapply users_ok_same_users; [|done]. apply delete_patient_frame.
  - cbn [handle]. destruct (Users.create_user _ _ _) eqn:E; try done.
    apply create_user_inv in E
      as (_ & _ & Hid & He & Hn & Ht & _ & _ & Hfree & ->).
    rewrite Hid. by apply users_ok_new_user.
  - cbn [handle]. destruct (Users.update_user _ _ _ _) eqn:E; try done.
    apply update_user_inv in E
      as (u & Hu & _ & _ & _ & Ht & _ & He & Hn & ->).
    eapply users_ok_replace; eauto.
    + destruct He as [He|(He & _ & Hf)]; auto.
    + destruct Hn as [[Hn _]|[Hn _]]; auto.
  - cbn [handle]. destruct (Users.delete_user _ _ _) eqn:E; try done.
    apply delete_user_inv in E as (_ & _ & _ & ->).
    destruct Hok as [Hu Hall]. split; cbn [users db_after].
    + by apply unique_by_delete.
    + intros k u Hk. apply lookup_delete_Some in Hk as [_ Hk].
      by eapply Hall.
  - cbn [handle]. destruct (Users.reset_password _ _ _ _) eqn:E; try done.
    apply reset_password_inv in E as (_ & u & s & Hu & _ & _ & ->).
    eapply users_ok_replace; eauto.
  - cbn [handle]. destruct (Users.change_password _ _ _) eqn:E; try done.
    apply change_password_inv in E as (u & o & n & Hu & _ & _ & _ & _ & ->).
    eapply users_ok_replace; eauto.
  - cbn [handle]. destruct (Auth.register _ _) eqn:E; try done.
    apply register_inv in E as (_ & Hid & He & Hn & Ht & _ & _ & Hfree & ->).
    rewrite Hid. by apply users_ok_new_user.
Qed.

End UsersTable.

(** X2: Whatever the requests, the users keep one user for an email, emails
    and names that are non-empty and trimmed, and a role that is ['admin']
    or ['default']. *)
Theorem users_stay_ok `{Collaborators} (db : DB) (rs : list request) :
  users_ok db → users_ok (run db rs).
Proof.
  intros Hok. apply (run_invariant users_ok); [|done].
  intros db0 r. apply handle_users_ok.
Qed.

Lemma users_stay_ok_witness : users_ok (run (H := plain) empty_db user_admin).
Proof.
  apply (users_stay_ok (H := plain) empty_db user_admin).
  split.
  - intros i j a b Hi. unfold empty_db in Hi. cbn [users] in Hi.
    rewrite lookup_empty in Hi. discriminate.
  - intros k u Hk. unfold empty_db in Hk. cbn [users] in Hk.
    rewrite lookup_empty in Hk. discriminate.
Defined.

(** ** Login *)

Section Login.
Context `{Collaborators} {T : Type} (generate_token : Z → string → T).

Lemma login_of_user db data k u e s :
  users db !! k = Some u →
  (∀ j b, users db !! j = Some b → User.email b = User.email u → j = k) →
  get data "email" = VStr e → strip e = User.email u → strip e ≠ "" →
  get data "senha" = VStr s → strip s ≠ "" →
  login generate_token db data
  = if check_password (User.senha_hash u) s
    then Done 200 (generate_token k (User.tipo u), (k, u)) db
    else Refused 401 (Erro "Credenciais inválidas").
Proof.
  intros Hk Honly He Hse Hne Hs Hsne.
  unfold login. cbv zeta. rewrite He, Hs.
  apply is_valid_string_str in Hne, Hsne. rewrite Hne, Hsne.
  cbn [negb orb refuse_if mbind stop_bind strip_value]. rewrite Hse.
  destruct (first_row _ (users db)) as [[k' u']|] eqn:Hf.
  - apply first_row_Some in Hf as [Hk' Hu']. apply String.eqb_eq in Hu'.
    assert (k' = k) as -> by (by eapply Honly).
    assert (u' = u) as -> by congruence.
    by destruct (check_password _ _).
  - rewrite first_row_None in Hf. specialize (Hf k u Hk).
    by rewrite String.eqb_refl in Hf.
Qed.

End Login.

(** X9: [POST /auth/login] answers 200 only for a user that has the email sent,
    trimmed, and whose stored hash the password sent matches; the token is
    made of that user's id and role and nothing is written.  When no user
    has the email, the answer is 401. *)
Theorem login_checks_credentials `{Collaborators} {T : Type}
    (generate_token : Z → string → T) (db : DB) (data : payload) :
  (∀ st body db',
     login generate_token db data = Done st body db' →
     ∃ e s,
       get data "email" = VStr e ∧ get data "senha" = VStr s
       ∧ users db !! body.2.1 = Some body.2.2
       ∧ User.email body.2.2 = strip e
       ∧ check_password (User.senha_hash body.2.2) s = true
       ∧ body.1 = generate_token body.2.1 (User.tipo body.2.2)
       ∧ st = 200 ∧ db' = db)
  ∧ (is_valid_string (get data "email") = true →
     is_valid_string (get data "senha") = true →
     (∀ e k u, get data "email" = VStr e → users db !! k = Some u →
               User.email u ≠ strip e) →
     login generate_token db data
     = Refused 401 (Erro "Credenciais inválidas")).
Proof.
  split.
  - intros st body db' E. unfold login in E. apply finish_Done in E.
    cbv zeta in E.
    apply bind_inr in E as ([] & Hv & E).
    apply bind_inr in E as (email & He & E).
    apply bind_inr in E as (senha & Hs & E).
    apply strip_value_inr in He as (e & He & ->).
    destruct (get data "senha") as [| | | |s| |] eqn:Hsenha; try done.
    injection Hs as <-.
    destruct (first_row _ (users db)) as [[k u]|] eqn:Hf; [|done].
    apply first_row_Some in Hf as [Hk Hu]. apply String.eqb_eq in Hu.
    destruct (check_password _ _) eqn:Hck; [|done].
    injection E as <- <- <-. exists e, s. done.
  - intros Hve Hvs Hnone. unfold login. cbv zeta. rewrite Hve, Hvs.
    cbn [negb orb refuse_if mbind stop_bind].
    apply is_valid_string_inv in Hve as (e & He & _).
    apply is_valid_string_inv in Hvs as (s & Hs & _).
    rewrite He, Hs. cbn [strip_value mbind stop_bind].
    destruct (first_row _ (users db)) as [[k u]|] eqn:Hf; [|done].
    apply first_row_Some in Hf as [Hk Hu]. apply String.eqb_eq in Hu.
    by destruct (Hnone e k u He Hk).
Qed.

Lemma login_checks_credentials_witness :
  login (H := plain) plain_token db_bia_only
    {[ "email" := VStr "ana@clinica.br"; "senha" := VStr "a1" ]}
  = Refused 401 (Erro "Credenciais inválidas").
Proof.
  apply (proj2 (login_checks_credentials (H := plain) plain_token
                  db_bia_only _)).
  - reflexivity.
  - reflexivity.
  - intros e k u He Hk. vm_compute in He. injection He as <-.
    apply String.eqb_neq. revert k u Hk. apply any_row_false. reflexivity.
Defined.

(** X10: A user who has registered can log in with the very payload of the
    registration, provided the hash collaborator accepts the password it
    hashed. *)
Theorem register_then_login `{Collaborators} {T : Type}
    (generate_token : Z → string → T) (db : DB) (data : payload)
    st body db' :
  (∀ s, check_password (password_hash s) s = true) →
  Auth.register db data = Done st body db' →
  login generate_token db' data
  = Done 200 (generate_token body.1 (User.tipo body.2), body) db'.
Proof.
  intros Hhash E.
  apply register_inv in E
    as (_ & Hid & He & _ & _ & (s & Hs & Hsne & Hh) & Hemail & Hfree & ->).
  apply strip_value_inr in Hemail as (e & Hge & Hse).
  destruct body as [k u]. cbn [fst snd] in *.
  rewrite (login_of_user generate_token _ data k u e s); try done.
  - by rewrite Hh, Hhash.
  - cbn [users]. apply lookup_insert_eq.
  - cbn [users]. intros j b Hj Hb.
    destruct (decide (k = j)) as [|Hne]; [done|].
    rewrite lookup_insert_ne in Hj by done. by destruct (Hfree j b Hj).
  - destruct He as [_ He]. by rewrite <- Hse.
Qed.

Lemma register_then_login_witness :
  login (H := plain) plain_token
    (db_after empty_db (Auth.register (H := plain) empty_db ana_registers))
    ana_registers
  = Done 200
      ((1, "admin"),
       (1, User.Make "ana@clinica.br" "Ana" "admin" "pbkdf2:a1"))
      (db_after empty_db (Auth.register (H := plain) empty_db ana_registers)).
Proof.
  apply (register_then_login (H := plain) plain_token empty_db ana_registers
           201 (1, User.Make "ana@clinica.br" "Ana" "admin" "pbkdf2:a1")).
  - intros s. apply String.eqb_refl.
  - reflexivity.
Defined.

(** X11: A user created by an admin can log in with the email and the trimmed
    password of the creation: [create_user] hashes the password trimmed,
    [login] checks it as sent. *)
Theorem create_user_then_login `{Collaborators} {T : Type}
    (generate_token : Z → string → T) (db : DB) (who : actor)
    (data credentials : payload) (senha : string) st body db' :
  (∀ s, check_password (password_hash s) s = true) →
  Users.create_user db who data = Done st body db' →
  get data "senha" = VStr senha →
  get credentials "email" = get data "email" →
  get credentials "senha" = VStr (strip senha) →
  login generate_token db' credentials
  = Done 200 (generate_token body.1 (User.tipo body.2), body) db'.
Proof.
  intros Hhash E Hsenha Hce Hcs.
  apply create_user_inv in E
    as (_ & _ & Hid & He & _ & _ & (s & Hs & Hsne & Hh) & Hemail & Hfree
        & ->).
  rewrite Hsenha in Hs. injection Hs as <-.
  apply strip_value_inr in Hemail as (e & Hge & Hse).
  destruct body as [k u]. cbn [fst snd] in *.
  rewrite (login_of_user generate_token _ credentials k u e (strip senha));
    try done.
  - by rewrite Hh, Hhash.
  - cbn [users]. apply lookup_insert_eq.
  - cbn [users]. intros j b Hj Hb.
    destruct (decide (k = j)) as [|Hne]; [done|].
    rewrite lookup_insert_ne in Hj by done. by destruct (Hfree j b Hj).
  - by rewrite Hce.
  - destruct He as [_ He]. by rewrite <- Hse.
  - by rewrite strip_idem.
Qed.

Lemma create_user_then_login_witness :
  login (H := plain) plain_token
    (db_after db_one_user
       (Users.create_user (H := plain) db_one_user admin_ana
          (<[ "senha" := VStr " s3nha " ]> new_user_payload)))
    {[ "email" := VStr " bia@clinica.br "; "senha" := VStr "s3nha" ]}
  = Done 200 ((2, "default"), (2, user_bia))
      (db_after db_one_user
         (Users.create_user (H := plain) db_one_user admin_ana
            (<[ "senha" := VStr " s3nha " ]> new_user_payload))).
Proof.
  apply (create_user_then_login (H := plain) plain_token db_one_user
           admin_ana (<[ "senha" := VStr " s3nha " ]> new_user_payload)
           {[ "email" := VStr " bia@clinica.br "; "senha" := VStr "s3nha" ]}
           " s3nha " 201 (2, user_bia)).
  - intros s. apply String.eqb_refl.
  - reflexivity.
  - reflexivity.
  - reflexivity.
  - reflexivity.
Defined.

(** ** The procedures table *)

Section ProceduresTable.
Context `{Collaborators}.

Lemma create_procedure_inv db who data st body db' :
  Procedures.create_procedure db who data = Done st body db' →
  is_admin who = true
  ∧ st = 201 ∧ body.1 = next_id (procedures db)
  ∧ trimmed (Procedure.nome body.2) ∧ trimmed (Procedure.descricao body.2)
  ∧ strip_value (get data "nome") = inr (Procedure.nome body.2)
  ∧ strip_value (get data "descricao") = inr (Procedure.descricao body.2)
  ∧ py_float (get data "valor_plano") = inr (Procedure.valor_plano body.2)
  ∧ py_float (get data "valor_particular")
    = inr (Procedure.valor_particular body.2)
  ∧ (∀ j b, procedures db !! j = Some b →
            Procedure.nome b ≠ Procedure.nome body.2)
  ∧ db' = MkDB (users db) (patients db)
            (<[body.1 := body.2]> (procedures db))
            (appointments db) (links db).
Proof.
  unfold Procedures.create_procedure. intros E. apply finish_Done in E.
  apply bind_inr in E as ([] & Hadm & E).
  apply bind_inr in E as ([] & Hvalid & E).
  apply bind_inr in E as ([] & _ & E).
  apply bind_inr in E as (nome & Hnome & E).
  apply bind_inr in E as (descricao & Hdesc & E).
  apply bind_inr in E as ([] & Hfree & E).
  apply bind_inr in E as ([vp vq] & Hprices & E). injection E as <- <- <-.
  apply refuse_if_inr, negb_false_iff in Hadm.
  cbn [for_each] in Hvalid.
  apply bind_inr in Hvalid as ([] & V1 & Hvalid).
  apply bind_inr in Hvalid as ([] & V2 & _).
  apply refuse_if_inr, negb_false_iff in V1, V2.
  apply refuse_if_inr in Hfree.
  cbn [fst snd Procedure.nome Procedure.descricao Procedure.valor_plano
       Procedure.valor_particular].
  split; [done|]. split; [done|]. split; [done|].
  split; [exact (valid_strip_value _ _ V1 Hnome)|].
  split; [exact (valid_strip_value _ _ V2 Hdesc)|].
  split; [done|]. split; [done|].
  destruct (py_float (get data "valor_plano")) as [[]|x]; try done.
  destruct (py_float (get data "valor_particular")) as [[]|y]; try done.
  injection Hprices as <- <-.
  split; [done|]. split; [done|]. split; [by apply any_row_free|done].
Qed.

Lemma update_field_text data entry proc proc' :
  Procedures.update_field data entry proc = inr proc' →
  Procedure.nome proc' = Procedure.nome proc
  ∧ (Procedure.descricao proc' = Procedure.descricao proc
     ∨ trimmed (Procedure.descricao proc')).
Proof.
  unfold Procedures.update_field. destruct entry as [field expected].
  destruct (has_key data field && negb (String.eqb field "nome")) eqn:Hk;
    [|by intros [= <-]; auto].
  apply andb_true_iff in Hk as [_ Hk]. apply negb_true_iff in Hk.
  destruct expected.
  - intros E. apply bind_inr in E as ([] & Hv & E).
    apply bind_inr in E as (v & Hs & E). injection E as <-.
    apply refuse_if_inr, negb_false_iff in Hv.
    unfold Procedure.setattr_text.
    cbn [Procedure.nome Procedure.descricao]. rewrite Hk. split; [done|].
    destruct (String.eqb field "descricao"); [|by left].
    right. exact (valid_strip_value _ _ Hv Hs).
  - destruct (py_float _) as [[]|x]; try done.
    destruct (is_nan x || is_inf x); [done|]. intros [= <-]. auto.
Qed.

Lemma update_procedure_inv db who proc_id data st body db' :
  Procedures.update_procedure db who proc_id data = Done st body db' →
  is_admin who = true
  ∧ ∃ proc,
      procedures db !! proc_id = Some proc
      ∧ st = 200 ∧ body.1 = proc_id
      ∧ (Procedure.nome body.2 = Procedure.nome proc
         ∨ trimmed (Procedure.nome body.2)
           ∧ strip_value (get data "nome") = inr (Procedure.nome body.2)
           ∧ ∀ j b, procedures db !! j = Some b →
                    Procedure.nome b ≠ Procedure.nome body.2)
      ∧ (Procedure.descricao body.2 = Procedure.descricao proc
         ∨ trimmed (Procedure.descricao body.2))
      ∧ db' = MkDB (users db) (patients db)
                (<[proc_id := body.2]> (procedures db))
                (appointments db) (links db).
Proof.
  unfold Procedures.update_procedure. intros E. apply finish_Done in E.
  apply bind_inr in E as ([] & Hadm & E).
  apply bind_inr in E as (proc & Hp & E).
  unfold get_or_404 in Hp.
  destruct (procedures db !! proc_id) as [proc0|] eqn:Hl; [|done].
  injection Hp as <-.
  apply bind_inr in E as (x1 & Hx1 & E).
  apply bind_inr in E as (x2 & Hx2 & E). injection E as <- <- <-.
  apply refuse_if_inr, negb_false_iff in Hadm. split; [done|].
  exists proc0. cbn [fst snd]. split; [done|]. split; [done|].
  split; [done|].
  assert (H1 : (Procedure.nome x1 = Procedure.nome proc0
                ∨ trimmed (Procedure.nome x1)
                  ∧ strip_value (get data "nome") = inr (Procedure.nome x1)
                  ∧ ∀ j b, procedures db !! j = Some b →
                           Procedure.nome b ≠ Procedure.nome x1)
               ∧ Procedure.descricao x1 = Procedure.descricao proc0).
  { destruct (has_key data "nome" && _); [|by injection Hx1 as <-; auto].
    apply bind_inr in Hx1 as ([] & Hv & Hx1).
    apply bind_inr in Hx1 as (new_nome & Hs & Hx1).
    apply bind_inr in Hx1 as ([] & Hfree & Hx1). injection Hx1 as <-.
    apply refuse_if_inr, negb_false_iff in Hv. apply refuse_if_inr in Hfree.
    cbn [Procedure.setattr_text Procedure.nome Procedure.descricao
         String.eqb Ascii.eqb Bool.eqb].
    split; [|done]. right.
    split; [exact (valid_strip_value _ _ Hv Hs)|].
    split; [done|by apply any_row_free]. }
  destruct H1 as [Hn1 Hd1].
  unfold Procedures.fields_to_validate in Hx2. cbn [for_each] in Hx2.
  apply bind_inr in Hx2 as (p1 & F1 & Hx2).
  apply bind_inr in Hx2 as (p2 & F2 & Hx2).
  apply bind_inr in Hx2 as (p3 & F3 & Hx2).
  apply bind_inr in Hx2 as (p4 & F4 & Hx2). injection Hx2 as <-.
  apply update_field_text in F1 as [A1 B1], F2 as [A2 B2],
    F3 as [A3 B3], F4 as [A4 B4].
  assert (Hn : Procedure.nome p4 = Procedure.nome x1) by congruence.
  rewrite Hn. split; [done|]. split; [|done].
  destruct B4 as [B4|B4]; [|by right]. rewrite B4.
  destruct B3 as [B3|B3]; [|by right]. rewrite B3.
  destruct B2 as [B2|B2]; [|by right]. rewrite B2.
  destruct B1 as [B1|B1]; [|by right]. rewrite B1. by left.
Qed.

Lemma delete_procedure_inv db who proc_id st body db' :
  Procedures.delete_procedure db who proc_id = Done st body db' →
  is_admin who = true
  ∧ is_Some (procedures db !! proc_id)
  ∧ (∀ l, l ∈ links db → AppointmentProcedure.procedimento_id l ≠ proc_id)
  ∧ db' = MkDB (users db) (patients db) (delete proc_id (procedures db))
            (appointments db) (links db).
Proof.
  intros E. pose proof (delete_procedure_Done _ _ _ _ _ _ E) as [Hl ->].
  unfold Procedures.delete_procedure in E. apply finish_Done in E.
  apply bind_inr in E as ([] & Hadm & E).
  apply bind_inr in E as ([] & _ & E).
  apply bind_inr in E as (proc & Hp & E).
  apply refuse_if_inr, negb_false_iff in Hadm.
  unfold get_or_404 in Hp.
  destruct (procedures db !! proc_id) eqn:Hk; [|done]. done.
Qed.

Lemma handle_procedures_ok db r :
  procedures_ok db → procedures_ok (handle db r).
Proof.
  intros Hok.
  assert (Hsame : ∀ db', procedures db' = procedures db → procedures_ok db').
  { intros db' Heq. unfold procedures_ok. by rewrite Heq. }
  destruct r; cbn [handle];
    try (apply Hsame;
         first [ apply (appointment_handlers_procedures db
                          (CreateAppointment who data) I)
               | apply (appointment_handlers_procedures db
                          (UpdateAppointment who ap_id data) I)
               | apply (appointment_handlers_procedures db
                          (DeleteAppointment who ap_id) I)
               | apply create_patient_frame
               | apply update_patient_frame
               | apply delete_patient_frame
               | apply create_user_frame
               | apply update_user_frame
               | apply delete_user_frame
               | apply reset_password_frame
               | apply change_password_frame
               | apply register_frame ]).
  - destruct (Procedures.create_procedure _ _ _) eqn:E; try done.
    apply create_procedure_inv in E
      as (_ & _ & -> & Hn & Hd & _ & _ & _ & _ & Hfree & ->).
    destruct Hok as [Hu Hrows]. cbn [db_after]. split; cbn [procedures].
    + apply unique_by_insert; [done|]. intros j b Hj _. by apply (Hfree j b).
    + intros k p Hk.
      destruct (decide (next_id (procedures db) = k)) as [<-|Hne].
      * rewrite lookup_insert_eq in Hk. by injection Hk as <-.
      * rewrite lookup_insert_ne in Hk by done. by apply (Hrows k).
  - destruct (Procedures.update_procedure _ _ _ _) eqn:E; try done.
    apply update_procedure_inv in E
      as (_ & proc & Hp & _ & _ & Hn & Hd & ->).
    destruct Hok as [Hu Hrows]. cbn [db_after]. split; cbn [procedures].
    + destruct Hn as [Hn|(_ & _ & Hfree)].
      * by apply (unique_by_same _ _ _ proc).
      * apply unique_by_insert; [done|]. intros j b Hj _.
        by apply (Hfree j b).
    + intros k p Hk. destruct (decide (proc_id = k)) as [<-|Hne].
      * rewrite lookup_insert_eq in Hk. injection Hk as <-.
        destruct (Hrows _ _ Hp) as [Tn Td]. split.
        -- destruct Hn as [->|[Hn _]]; done.
        -- destruct Hd as [->|Hd]; done.
      * rewrite lookup_insert_ne in Hk by done. by apply (Hrows k).
  - destruct (Procedures.delete_procedure _ _ _) eqn:E; try done.
    apply delete_procedure_inv in E as (_ & _ & _ & ->).
    destruct Hok as [Hu Hrows]. cbn [db_after]. split; cbn [procedures].
    + by apply unique_by_delete.
    + intros k p Hk. apply lookup_delete_Some in Hk as [_ Hk].
      by apply (Hrows k).
Qed.

End ProceduresTable.

(** X3: Whatever the requests, the procedures keep one procedure for a name,
    and names and descriptions that are non-empty and trimmed. *)
Theorem procedures_stay_ok `{Collaborators} (db : DB) (rs : list request) :
  procedures_ok db → procedures_ok (run db rs).
Proof.
  intros Hok. apply (run_invariant procedures_ok); [|done].
  intros db0 r. apply handle_procedures_ok.
Qed.

Lemma procedures_stay_ok_witness :
  procedures_ok (run (H := plain) empty_db (booking ++ [price_edit])).
Proof.
  apply (procedures_stay_ok (H := plain) empty_db (booking ++ [price_edit])).
  split.
  - intros i j a b Hi. unfold empty_db in Hi. cbn [procedures] in Hi.
    rewrite lookup_empty in Hi. discriminate.
  - intros k u Hk. unfold empty_db in Hk. cbn [procedures] in Hk.
    rewrite lookup_empty in Hk. discriminate.
Defined.

(** X8: The procedures change only by a request of an admin to the procedure
    handlers: a sequence of requests with none of those leaves the table
    of procedures as it was. *)
Theorem procedures_change_by_admin_only `{Collaborators} (db : DB)
    (rs : list request) :
  Forall (λ r, admin_procedure_request r = false) rs →
  procedures (run db rs) = procedures db.
Proof.
  unfold run. revert db. induction rs as [|r rs IH]; intros db Hrs; [done|].
  apply Forall_cons in Hrs as [Hr Hrs]. cbn [fold_left].
  rewrite IH by done. clear IH Hrs.
  destruct r; cbn [handle admin_procedure_request] in *.
  - apply (appointment_handlers_procedures db (CreateAppointment who data) I).
  - apply (appointment_handlers_procedures db
             (UpdateAppointment who ap_id data) I).
  - apply (appointment_handlers_procedures db (DeleteAppointment who ap_id) I).
  - destruct (Procedures.create_procedure _ _ _) eqn:E; try done.
    apply create_procedure_inv in E as (Hadm & _). congruence.
  - destruct (Procedures.update_procedure _ _ _ _) eqn:E; try done.
    apply update_procedure_inv in E as (Hadm & _). congruence.
  - destruct (Procedures.delete_procedure _ _ _) eqn:E; try done.
    apply delete_procedure_inv in E as (Hadm & _). congruence.
  - apply create_patient_frame.
  - apply update_patient_frame.
  - apply delete_patient_frame.
  - apply create_user_frame.
  - apply update_user_frame.
  - apply delete_user_frame.
  - apply reset_password_frame.
  - apply change_password_frame.
  - apply register_frame.
Qed.

Lemma procedures_change_by_admin_only_witness :
  procedures (run (H := plain) db_clinic reception_day)
  = procedures db_clinic.
Proof.
  apply (procedures_change_by_admin_only (H := plain) db_clinic
           reception_day).
  repeat constructor.
Defined.

(** ** The patients table *)

Section PatientsTable.
Context `{Collaborators}.

Lemma patient_step_refl db p : patient_step db p p.
Proof. repeat split; auto. Qed.

Lemma patient_step_trans db p q r :
  patient_step db p q → patient_step db q r → patient_step db p r.
Proof.
  intros (G1 & D1 & C1 & E1) (G2 & D2 & C2 & E2).
  split; [congruence|]. split; [congruence|]. split.
  - destruct C2 as [C2|C2]; [|by right]. rewrite C2. done.
  - destruct E2 as [E2|E2]; [|by right]. rewrite E2. done.
Qed.

Lemma update_string_field_step db data field p p' :
  Patients.update_string_field db data field p = inr p' →
  patient_step db p p'.
Proof.
  unfold Patients.update_string_field.
  destruct (has_key data field);
    [|intros [= <-]; apply patient_step_refl].
  intros E. apply bind_inr in E as ([] & _ & E).
  apply bind_inr in E as (c & _ & E).
  destruct (String.eqb field "cpf" && _) eqn:B1.
  { apply bind_inr in E as ([] & Hfree & E). injection E as <-.
    apply refuse_if_inr in Hfree.
    split; [done|]. split; [done|]. split; [|by left].
    right. by apply any_row_free. }
  destruct (String.eqb field "email" && _) eqn:B2.
  { apply bind_inr in E as ([] & Hfree & E). injection E as <-.
    apply refuse_if_inr in Hfree.
    split; [done|]. split; [done|]. split; [by left|].
    right. by apply any_row_free. }
  destruct (negb (String.eqb field "cpf") && _) eqn:B3;
    [|injection E as <-; apply patient_step_refl].
  injection E as <-.
  apply andb_true_iff in B3 as [N1 N2]. apply negb_true_iff in N1, N2.
  unfold Patient.setattr.
  split; [done|]. split; [done|].
  cbn [Patient.cpf Patient.email]. rewrite N1, N2. auto.
Qed.

Lemma update_string_fields_step db data fields p p' :
  for_each fields (Patients.update_string_field db data) p = inr p' →
  patient_step db p p'.
Proof.
  revert p. induction fields as [|f fields IH]; intros p.
  - intros [= <-]. apply patient_step_refl.
  - cbn [for_each]. intros E. apply bind_inr in E as (q & Hq & E).
    apply (patient_step_trans db p q p').
    + by apply update_string_field_step in Hq.
    + by apply IH.
Qed.

Lemma update_patient_inv db today patient_id data st body db' :
  Patients.update_patient db today patient_id data = Done st body db' →
  ∃ patient,
    patients db !! patient_id = Some patient
    ∧ st = 200 ∧ body.1 = patient_id
    ∧ (Patient.cpf body.2 = Patient.cpf patient
       ∨ ∀ j b, patients db !! j = Some b →
                Patient.cpf b ≠ Patient.cpf body.2)
    ∧ (Patient.email body.2 = Patient.email patient
       ∨ ∀ j b, patients db !! j = Some b →
                Patient.email b ≠ Patient.email body.2)
    ∧ (if has_key data "remove_responsavel"
          && eq_True (get data "remove_responsavel")
       then (18 ≤ Patients.age_on today (Patient.data_nascimento body.2))%Z
            ∧ guardian body.2 = (None, None, None, None, None)
       else guardian body.2 = guardian patient)
    ∧ db' = MkDB (users db) (<[patient_id := body.2]> (patients db))
              (procedures db) (appointments db) (links db).
Proof.
  unfold Patients.update_patient. intros E. apply finish_Done in E.
  apply bind_inr in E as (p0 & Hp & E).
  unfold get_or_404 in Hp.
  destruct (patients db !! patient_id) as [patient|] eqn:Hl; [|done].
  injection Hp as <-.
  apply bind_inr in E as (p1 & H1 & E).
  apply bind_inr in E as (p2 & H2 & E).
  apply bind_inr in E as (p3 & H3 & E). injection E as <- <- <-.
  exists patient. cbn [fst snd]. split; [done|]. split; [done|].
  split; [done|].
  apply update_string_fields_step in H1 as (G1 & _ & C1 & E1).
  assert (S2 : guardian p2 = guardian p1
               ∧ Patient.cpf p2 = Patient.cpf p1
               ∧ Patient.email p2 = Patient.email p1).
  { destruct (truthy _); [|by injection H2 as <-].
    apply bind_inr in H2 as ([] & _ & H2).
    destruct (Patients.parse_date _); [done|]. by injection H2 as <-. }
  destruct S2 as (G2 & C2 & E2).
  destruct (has_key data "remove_responsavel" && _).
  - apply bind_inr in H3 as ([] & Hage & H3). injection H3 as <-.
    apply refuse_if_inr, Z.ltb_ge in Hage.
    cbn [Patient.set_responsavel Patient.cpf Patient.email
         Patient.data_nascimento].
    rewrite C2, E2. split; [done|]. split; [done|]. done.
  - injection H3 as <-. rewrite C2, E2. split; [done|]. split; [done|].
    split; [congruence|done].
Qed.

Lemma create_patient_inv db today data st body db' :
  Patients.create_patient db today data = Done st body db' →
  body.1 = next_id (patients db)
  ∧ Patient.cpf body.2 = text (Patients.clean (get data "cpf"))
  ∧ Patient.email body.2 = text (Patients.clean (get data "email"))
  ∧ (∀ j b, patients db !! j = Some b → Patient.cpf b ≠ Patient.cpf body.2)
  ∧ (∀ j b, patients db !! j = Some b →
            Patient.email b ≠ Patient.email body.2)
  ∧ db' = MkDB (users db) (<[body.1 := body.2]> (patients db))
            (procedures db) (appointments db) (links db).
Proof.
  unfold Patients.create_patient. intros E. apply finish_Done in E.
  cbv zeta in E.
  apply bind_inr in E as ([] & _ & E).
  apply bind_inr in E as ([] & Hcpf & E).
  apply bind_inr in E as ([] & Hemail & E).
  apply bind_inr in E as (pn & _ & E).
  apply bind_inr in E as (patient & Hpat & E). injection E as <- <- <-.
  apply refuse_if_inr in Hcpf, Hemail.
  assert (Hce : Patient.cpf patient = text (Patients.clean (get data "cpf"))
                ∧ Patient.email patient
                  = text (Patients.clean (get data "email"))).
  { destruct (Z.ltb _ 18).
    - by apply responsavel_inr in Hpat as (_ & rd & _ & _ & ->).
    - by injection Hpat as <-. }
  destruct Hce as [Hc He]. cbn [fst snd]. rewrite Hc, He.
  split; [done|]. split; [done|]. split; [done|].
  split; [by apply any_row_free|]. split; [by apply any_row_free|done].
Qed.

Lemma delete_patient_inv db patient_id st body db' :
  Patients.delete_patient db patient_id = Done st body db' →
  is_Some (patients db !! patient_id)
  ∧ (∀ k ap, appointments db !! k = Some ap →
             Appointment.paciente_id ap ≠ patient_id)
  ∧ db' = MkDB (users db) (delete patient_id (patients db)) (procedures db)
            (appointments db) (links db).
Proof.
  unfold Patients.delete_patient. intros E. apply finish_Done in E.
  apply bind_inr in E as (p & Hp & E).
  apply bind_inr in E as ([] & Hfree & E). injection E as <- <- <-.
  unfold get_or_404 in Hp.
  destruct (patients db !! patient_id) eqn:Hk; [|done].
  split; [done|]. split; [|done].
  apply refuse_if_inr in Hfree. intros k ap Hap.
  apply Z.eqb_neq. by apply (proj1 (any_row_false _ _) Hfree k ap).
Qed.

Lemma handle_patients_ok db r : patients_ok db → patients_ok (handle db r).
Proof.
  intros Hok.
  assert (Hsame : ∀ db', patients db' = patients db → patients_ok db').
  { intros db' Heq. unfold patients_ok. by rewrite Heq. }
  destruct r; cbn [handle];
    try (apply Hsame;
         first [ apply (billing_handlers_frame db
                          (CreateAppointment who data) I)
               | apply (billing_handlers_frame db
                          (UpdateAppointment who ap_id data) I)
               | apply (billing_handlers_frame db
                          (DeleteAppointment who ap_id) I)
               | apply (billing_handlers_frame db
                          (CreateProcedure who data) I)
               | apply (billing_handlers_frame db
                          (UpdateProcedure who proc_id data) I)
               | apply (billing_handlers_frame db
                          (DeleteProcedure who proc_id) I)
               | apply create_user_frame
               | apply update_user_frame
               | apply delete_user_frame
               | apply reset_password_frame
               | apply change_password_frame
               | apply register_frame ]).
  - destruct (Patients.create_patient _ _ _) eqn:E; try done.
    apply create_patient_inv in E as (-> & _ & _ & Hc & He & ->).
    destruct Hok as [Hu1 Hu2]. cbn [db_after].
    split; cbn [patients]; (apply unique_by_insert; [done|]);
      intros j b Hj _; [by apply (Hc j b)|by apply (He j b)].
  - destruct (Patients.update_patient _ _ _ _) eqn:E; try done.
    apply update_patient_inv in E as (p & Hp & _ & _ & Hc & He & _ & ->).
    destruct Hok as [Hu1 Hu2]. cbn [db_after]. split; cbn [patients].
    + destruct Hc as [Hc|Hc].
      * by apply (unique_by_same _ _ _ p).
      * apply unique_by_insert; [done|]. intros j b Hj _. by apply (Hc j b).
    + destruct He as [He|He].
      * by apply (unique_by_same _ _ _ p).
      * apply unique_by_insert; [done|]. intros j b Hj _. by apply (He j b).
  - destruct (Patients.delete_patient _ _) eqn:E; try done.
    apply delete_patient_inv in E as (_ & _ & ->).
    destruct Hok as [Hu1 Hu2]. cbn [db_after].
    split; cbn [patients]; by apply unique_by_delete.
Qed.

End PatientsTable.

(** X4: Whatever the requests, no two patients have the same CPF and no two
    have the same email. *)
Theorem patients_stay_ok `{Collaborators} (db : DB) (rs : list request) :
  patients_ok db → patients_ok (run db rs).
Proof.
  intros Hok. apply (run_invariant patients_ok); [|done].
  intros db0 r. apply handle_patients_ok.
Qed.

Lemma patients_stay_ok_witness :
  patients_ok (run (H := plain) empty_db patient_admin).
Proof.
  apply (patients_stay_ok (H := plain) empty_db patient_admin).
  split; intros i j a b Hi; unfold empty_db in Hi; cbn [patients] in Hi;
    rewrite lookup_empty in Hi; discriminate.
Defined.

(** X26: [PUT /patients/<patient_id>] never writes the guardian of a patient:
    an update that goes through leaves the five guardian attributes as
    they were, unless the payload has [remove_responsavel] equal to [True];
    then the patient is 18 or more on the birth date the update leaves and
    all five are cleared. *)
Theorem update_patient_guardian `{Collaborators} (db : DB) (today : date)
    (patient_id : Z) (data : payload) st body db' :
  Patients.update_patient db today patient_id data = Done st body db' →
  ∃ patient,
    patients db !! patient_id = Some patient
    ∧ if has_key data "remove_responsavel"
         && eq_True (get data "remove_responsavel")
      then (18 ≤ Patients.age_on today (Patient.data_nascimento body.2))%Z
           ∧ guardian body.2 = (None, None, None, None, None)
      else guardian body.2 = guardian patient.
Proof.
  intros E.
  apply update_patient_inv in E as (p & Hp & _ & _ & _ & _ & Hg & _).
  by exists p.
Qed.

Lemma update_patient_guardian_witness :
  ∃ patient,
    patients db_one_patient !! 1 = Some patient
    ∧ if has_key grow_up "remove_responsavel"
         && eq_True (get grow_up "remove_responsavel")
      then (18 ≤ Patients.age_on today_2025
                   (Patient.data_nascimento caio_adult))%Z
           ∧ guardian caio_adult = (None, None, None, None, None)
      else guardian caio_adult = guardian patient.
Proof.
  apply (update_patient_guardian (H := plain) db_one_patient today_2025 1
           grow_up 200 (1, caio_adult)
           (db_after db_one_patient
              (Patients.update_patient (H := plain) db_one_patient
                 today_2025 1 grow_up))).
  vm_compute. reflexivity.
Defined.

(** ** The appointment handlers, read from their success *)

Section AppointmentHandlers.
Context `{Collaborators}.
Import Appointment.

Lemma get_paciente_inr db v k :
  Appointments.get_paciente db v = inr k →
  pk v = Some k ∧ is_Some (patients db !! k).
Proof.
  unfold Appointments.get_paciente.
  destruct (pk v) as [k'|]; [|done]. cbn [mbind option_bind].
  destruct (patients db !! k') eqn:Hk; [|done]. cbn [mbind option_bind].
  intros [= <-]. split; [done|]. by rewrite Hk.
Qed.

Lemma for_each_resolve_all db ids objs0 objs :
  for_each ids
    (λ pid objs, p ← Appointments.resolve_procedure db pid;
                 mret (objs ++ [p])%list) objs0
  = inr objs →
  ∃ new,
    objs = (objs0 ++ new)%list
    ∧ Forall2 (λ pid p, Appointments.resolve_procedure db pid = inr p)
        ids new.
Proof.
  revert objs0. induction ids as [|pid ids IH]; intros objs0; simpl.
  - intros [= <-]. exists []. by rewrite app_nil_r.
  - intros Hf. apply bind_inr in Hf as (o1 & Hr & Hf).
    apply bind_inr in Hr as (p & Hp & Hr). injection Hr as <-.
    apply IH in Hf as (new & -> & Hnew).
    exists (p :: new). rewrite <- app_assoc. split; [done|].
    by constructor.
Qed.

Lemma for_each_relink_all db ap_id ids objs0 ls0 objs ls :
  for_each ids (Appointments.relink db ap_id) (objs0, ls0) = inr (objs, ls) →
  ∃ new,
    objs = (objs0 ++ new)%list
    ∧ ls = (ls0 ++ links_to ap_id new)%list
    ∧ Forall2 (λ pid p, Appointments.resolve_procedure db pid = inr p)
        ids new.
Proof.
  revert objs0 ls0. induction ids as [|pid ids IH]; intros objs0 ls0; simpl.
  - intros [= <- <-]. exists []. by rewrite !app_nil_r.
  - intros Hf. apply bind_inr in Hf as ([o1 l1] & Hr & Hf).
    unfold Appointments.relink in Hr.
    apply bind_inr in Hr as (p & Hp & Hr). injection Hr as <- <-.
    apply IH in Hf as (new & -> & -> & Hnew).
    exists (p :: new). rewrite <- !app_assoc. simpl. split; [done|].
    split; [done|]. by constructor.
Qed.

Lemma check_proc_ids_inr v ids :
  Appointments.check_proc_ids v = inr ids → v = VList ids ∧ ids ≠ [].
Proof.
  unfold Appointments.check_proc_ids.
  destruct v as [| | | | |[|x l]|]; try done. by intros [= <-].
Qed.

Lemma create_appointment_inv db who data st body db' :
  Appointments.create_appointment db who data = Done st body db' →
  ∃ ids objs,
    st = 201 ∧ body.1 = next_id (appointments db)
    ∧ get data "tipo" = VStr (tipo body.2)
    ∧ (tipo body.2 = "plano" ∨ tipo body.2 = "particular")
    ∧ (∃ m, fromisoformat_value (get data "data_hora") = inr m
            ∧ data_hora body.2 = column m)
    ∧ usuario_id body.2 = actor_id who
    ∧ pk (get data "paciente_id") = Some (paciente_id body.2)
    ∧ is_Some (patients db !! paciente_id body.2)
    ∧ (if String.eqb (tipo body.2) "plano"
       then ∃ s, get data "numero_carteira" = VStr s ∧ strip s ≠ ""
                 ∧ numero_carteira body.2 = Some (strip s)
       else numero_carteira body.2 = None)
    ∧ get data "procedimentos" = VList ids ∧ ids ≠ []
    ∧ Forall2 (λ pid p, Appointments.resolve_procedure db pid = inr p)
        ids objs
    ∧ valor_total body.2
      = Appointments.calc_valor_total objs.*2 (tipo body.2)
    ∧ db' = MkDB (users db) (patients db) (procedures db)
              (<[body.1 := body.2]> (appointments db))
              (links db ++ links_to body.1 objs)%list.
Proof.
  unfold Appointments.create_appointment. intros E. apply finish_Done in E.
  apply bind_inr in E as ([] & _ & E).
  apply bind_inr in E as (t & Ht & E).
  apply bind_inr in E as (dh & Hdh & E).
  apply bind_inr in E as (pid & Hpid & E).
  apply bind_inr in E as (ids & Hids & E).
  apply bind_inr in E as (objs & Hobjs & E).
  apply bind_inr in E as (nc & Hnc & E). injection E as <- <- <-.
  apply for_each_resolve_all in Hobjs as (new & -> & Hnew).
  apply check_tipo_inr in Ht as [Hv Ht].
  apply get_paciente_inr in Hpid as [Hpk Hpat].
  apply check_proc_ids_inr in Hids as [Hl Hne].
  assert (Hstrip : strip t = t) by (by destruct Ht as [-> | ->]).
  exists ids, new.
  cbn [fst snd tipo data_hora usuario_id paciente_id numero_carteira
       valor_total app]. rewrite Hstrip.
  split; [done|]. split; [done|]. split; [done|]. split; [done|].
  split.
  { destruct (fromisoformat_value _) as [|m]; [done|].
    injection Hdh as <-. by exists m. }
  split; [done|]. split; [done|]. split; [done|].
  split; [|done].
  destruct (String.eqb t "plano").
  - apply bind_inr in Hnc as ([] & Hv' & Hnc).
    apply bind_inr in Hnc as (c & Hc & Hnc). injection Hnc as <-.
    apply refuse_if_inr, negb_false_iff in Hv'.
    apply is_valid_string_inv in Hv' as (s & Hs & Hsne).
    rewrite Hs in Hc. injection Hc as <-. by exists s.
  - by injection Hnc as <-.
Qed.

Lemma apply_data_hora_ids data ap ap' :
  Appointments.apply_data_hora data ap = inr ap' →
  usuario_id ap' = usuario_id ap ∧ paciente_id ap' = paciente_id ap.
Proof.
  unfold Appointments.apply_data_hora.
  destruct (truthy _); [|by intros [= <-]].
  destruct (refuse_if _ _ _); [done|]. cbn [mbind stop_bind].
  destruct (get data "data_hora"); try done.
  destruct (fromisoformat _); [|done]. by intros [= <-].
Qed.

Lemma apply_paciente_ids db data ap ap' :
  Appointments.apply_paciente db data ap = inr ap' →
  usuario_id ap' = usuario_id ap
  ∧ (paciente_id ap' = paciente_id ap
     ∨ is_Some (patients db !! paciente_id ap')).
Proof.
  unfold Appointments.apply_paciente.
  destruct (truthy _); [|by intros [= <-]; auto].
  destruct (Appointments.get_paciente _ _) as [|k] eqn:Hk; [done|].
  intros [= <-]. apply get_paciente_inr in Hk as [_ Hk]. auto.
Qed.

Lemma apply_fields_ids db ap_id data ap0 ap changed objs ls :
  Appointments.apply_fields db ap_id data ap0 = inr (ap, changed, objs, ls) →
  usuario_id ap = usuario_id ap0
  ∧ (paciente_id ap = paciente_id ap0
     ∨ is_Some (patients db !! paciente_id ap)).
Proof.
  intros E.
  apply apply_fields_inr in E as (a1 & a2 & a3 & H1 & H2 & _ & H4 & H5).
  apply apply_data_hora_ids in H1 as [U1 P1].
  apply apply_paciente_ids in H2 as [U2 P2].
  assert (usuario_id a3 = usuario_id a2 ∧ paciente_id a3 = paciente_id a2)
    as [U3 P3].
  { apply apply_tipo_inr in H4 as [[_ ->]|(t & _ & _ & ->)]; done. }
  assert (usuario_id ap = usuario_id a3 ∧ paciente_id ap = paciente_id a3)
    as [U4 P4].
  { apply apply_numero_carteira_inr in H5
      as [[_ ->]|[[_ ->]|(s & _ & _ & ->)]]; done. }
  split; [congruence|].
  rewrite P4, P3. destruct P2 as [P2|P2]; [left; congruence|by right].
Qed.

Lemma update_appointment_inv db who ap_id data st body db' :
  Appointments.update_appointment db who ap_id data = Done st body db' →
  ∃ ap0 changed objs,
    appointments db !! ap_id = Some ap0
    ∧ Appointments.not_owner who ap0 = false
    ∧ st = 200 ∧ body.1 = ap_id
    ∧ usuario_id body.2 = usuario_id ap0
    ∧ (paciente_id body.2 = paciente_id ap0
       ∨ is_Some (patients db !! paciente_id body.2))
    ∧ Appointments.apply_procedimentos db ap_id data
      = inr (changed, objs, links db')
    ∧ db' = MkDB (users db) (patients db) (procedures db)
              (<[ap_id := body.2]> (appointments db)) (links db').
Proof.
  intros E.
  apply update_appointment_Done in E
    as (ap0 & ap1 & changed & objs & ls & ap' & Hap & Hown & Hf & _ & Hr
        & -> & -> & ->).
  exists ap0, changed, objs. cbn [fst snd links].
  apply recompute_inr in Hr as (_ & _ & _ & U & P & _).
  pose proof (apply_fields_ids _ _ _ _ _ _ _ _ Hf) as [U1 P1].
  apply apply_fields_inr in Hf as (a1 & a2 & a3 & _ & _ & Hp & _ & _).
  split; [done|]. split; [done|]. split; [done|]. split; [done|].
  split; [congruence|]. rewrite P. done.
Qed.

Lemma apply_procedimentos_all db ap_id data changed objs ls :
  Appointments.apply_procedimentos db ap_id data = inr (changed, objs, ls) →
  (is_none (get data "procedimentos") = true ∧ changed = false
   ∧ ls = links db)
  ∨ (∃ ids,
       get data "procedimentos" = VList ids ∧ ids ≠ [] ∧ changed = true
       ∧ Forall2 (λ pid p, Appointments.resolve_procedure db pid = inr p)
           ids objs
       ∧ ls = (Appointments.delete_links ap_id (links db)
               ++ links_to ap_id objs)%list).
Proof.
  unfold Appointments.apply_procedimentos.
  destruct (is_none _); simpl.
  - intros [= <- <- <-]. by left.
  - intros Hf. right. apply bind_inr in Hf as (ids & Hids & Hf).
    apply bind_inr in Hf as ([o l] & Hr & Hf). injection Hf as <- <- <-.
    apply for_each_relink_all in Hr as (new & -> & -> & Hnew).
    apply check_proc_ids_inr in Hids as [Hl Hne].
    exists ids. done.
Qed.

Lemma delete_appointment_inv db who ap_id st body db' :
  Appointments.delete_appointment db who ap_id = Done st body db' →
  ∃ ap0,
    appointments db !! ap_id = Some ap0
    ∧ Appointments.not_owner who ap0 = false
    ∧ st = 200
    ∧ db' = MkDB (users db) (patients db) (procedures db)
              (delete ap_id (appointments db))
              (Appointments.delete_links ap_id (links db)).
Proof.
  unfold Appointments.delete_appointment. intros E. apply finish_Done in E.
  apply bind_inr in E as (ap0 & Hap & E).
  apply bind_inr in E as ([] & Hown & E). injection E as <- <- <-.
  unfold get_or_404 in Hap.
  destruct (appointments db !! ap_id) eqn:Hk; [|done]. injection Hap as ->.
  apply refuse_if_inr in Hown. by exists ap0.
Qed.

End AppointmentHandlers.

(** ** What every sequence of requests keeps *)

Section Kept.
Context `{Collaborators}.

Lemma procedure_handlers_frame db r :
  match r with
  | CreateProcedure _ _ | UpdateProcedure _ _ _ | DeleteProcedure _ _ => True
  | _ => False
  end →
  only_procedures_differ db (handle db r).
Proof.
  destruct r; try done; intros _; cbn [handle].
  - destruct (Procedures.create_procedure _ _ _) eqn:E; try done.
    by apply create_procedure_inv in E
      as (_ & _ & _ & _ & _ & _ & _ & _ & _ & _ & ->).
  - destruct (Procedures.update_procedure _ _ _ _) eqn:E; try done.
    by apply update_procedure_inv in E as (_ & p & _ & _ & _ & _ & _ & ->).
  - destruct (Procedures.delete_procedure _ _ _) eqn:E; try done.
    by apply delete_procedure_inv in E as (_ & _ & _ & ->).
Qed.

Lemma links_of_app ap_id (l1 l2 : list AppointmentProcedure.t) :
  filter (λ l, AppointmentProcedure.atendimento_id l = ap_id) (l1 ++ l2)%list
  = (filter (λ l, AppointmentProcedure.atendimento_id l = ap_id) l1
     ++ filter (λ l, AppointmentProcedure.atendimento_id l = ap_id) l2)%list.
Proof. apply filter_app. Qed.

Lemma links_to_own ap_id objs :
  filter (λ l, AppointmentProcedure.atendimento_id l = ap_id)
    (links_to ap_id objs)
  = links_to ap_id objs.
Proof. apply new_links_own. Qed.

Lemma links_to_other ap_id other objs :
  other ≠ ap_id →
  filter (λ l, AppointmentProcedure.atendimento_id l = other)
    (links_to ap_id objs)
  = [].
Proof. apply new_links_other. Qed.

Lemma links_to_elem ap_id objs l :
  l ∈ links_to ap_id objs →
  AppointmentProcedure.atendimento_id l = ap_id
  ∧ ∃ p, p ∈ objs ∧ AppointmentProcedure.procedimento_id l = p.1.
Proof.
  unfold links_to. intros Hl.
  apply list_elem_of_In, in_map_iff in Hl as (p & <- & Hp).
  split; [done|]. exists p. split; [by apply list_elem_of_In|done].
Qed.

Lemma resolved_exist db ids objs p :
  Forall2 (λ pid p, Appointments.resolve_procedure db pid = inr p) ids objs →
  p ∈ objs → procedures db !! p.1 = Some p.2.
Proof.
  intros Hall Hp. induction Hall as [|pid q ids objs Hq _ IH].
  - by apply elem_of_nil in Hp.
  - apply elem_of_cons in Hp as [->|Hp]; [|by apply IH].
    by apply resolve_procedure_inr in Hq.
Qed.

Lemma delete_links_elem ap_id ls l :
  l ∈ Appointments.delete_links ap_id ls ↔
  AppointmentProcedure.atendimento_id l ≠ ap_id ∧ l ∈ ls.
Proof.
  exact (list_elem_of_filter
           (λ l, AppointmentProcedure.atendimento_id l ≠ ap_id) ls l).
Qed.

(** *** Appointments are of patients that exist *)

Lemma handle_patients_resolve db r :
  patients_resolve db → patients_resolve (handle db r).
Proof.
  intros Hres.
  assert (Hsame : ∀ db', appointments db' = appointments db →
                         patients db' = patients db → patients_resolve db').
  { intros db' Ha Hp k ap. rewrite Ha, Hp. apply Hres. }
  destruct r.
  - cbn [handle].
    destruct (Appointments.create_appointment _ _ _) eqn:E; try done.
    apply create_appointment_inv in E
      as (ids & objs & _ & _ & _ & _ & _ & _ & _ & Hpat & _ & _ & _ & _ & _
          & ->).
    intros k ap. cbn [db_after appointments patients].
    destruct (decide (body.1 = k)) as [<-|Hne].
    + rewrite lookup_insert_eq. by intros [= <-].
    + rewrite lookup_insert_ne by done. apply Hres.
  - cbn [handle].
    destruct (Appointments.update_appointment _ _ _ _) eqn:E; try done.
    apply update_appointment_inv in E
      as (ap0 & ch & objs & Hap & _ & _ & _ & _ & Hpat & _ & ->).
    intros k ap. cbn [db_after appointments patients].
    destruct (decide (ap_id = k)) as [<-|Hne].
    + rewrite lookup_insert_eq. intros [= <-].
      destruct Hpat as [->|Hpat]; [|done]. by apply (Hres ap_id).
    + rewrite lookup_insert_ne by done. apply Hres.
  - cbn [handle].
    destruct (Appointments.delete_appointment _ _ _) eqn:E; try done.
    apply delete_appointment_inv in E as (ap0 & _ & _ & _ & ->).
    intros k ap. cbn [db_after appointments patients].
    intros Hk. apply lookup_delete_Some in Hk as [_ Hk]. by apply (Hres k).
  - by apply Hsame; apply (procedure_handlers_frame db
                             (CreateProcedure who data) I).
  - by apply Hsame; apply (procedure_handlers_frame db
                             (UpdateProcedure who proc_id data) I).
  - by apply Hsame; apply (procedure_handlers_frame db
                             (DeleteProcedure who proc_id) I).
  - cbn [handle]. destruct (Patients.create_patient _ _ _) eqn:E; try done.
    apply create_patient_inv in E as (Hid & _ & _ & _ & _ & ->).
    intros k ap Hk. cbn [db_after appointments patients] in *.
    destruct (Hres k ap Hk) as [p Hp].
    destruct (decide (body.1 = Appointment.paciente_id ap)) as [Heq|Hne].
    + rewrite Heq, lookup_insert_eq. by eexists.
    + rewrite lookup_insert_ne by done. by eexists.
  - cbn [handle].
    destruct (Patients.update_patient _ _ _ _) eqn:E; try done.
    apply update_patient_inv in E as (p0 & _ & _ & _ & _ & _ & _ & ->).
    intros k ap Hk. cbn [db_after appointments patients] in *.
    destruct (Hres k ap Hk) as [p Hp].
    destruct (decide (patient_id = Appointment.paciente_id ap)) as [Heq|Hne].
    + rewrite Heq, lookup_insert_eq. by eexists.
    + rewrite lookup_insert_ne by done. by eexists.
  - cbn [handle]. destruct (Patients.delete_patient _ _) eqn:E; try done.
    apply delete_patient_inv in E as (_ & Hfree & ->).
    intros k ap Hk. cbn [db_after appointments patients] in *.
    rewrite lookup_delete_ne; [by apply (Hres k)|].
    intros Heq. by apply (Hfree k ap Hk).
  - by apply Hsame; apply create_user_frame.
  - by apply Hsame; apply update_user_frame.
  - by apply Hsame; apply delete_user_frame.
  - by apply Hsame; apply reset_password_frame.
  - by apply Hsame; apply change_password_frame.
  - by apply Hsame; apply register_frame.
Qed.

(** *** The join table has no dangling row *)

Lemma handle_links_resolve db r :
  links_resolve db → links_resolve (handle db r).
Proof.
  intros Hres.
  assert (Hsame : ∀ db', appointments db' = appointments db →
                         procedures db' = procedures db →
                         links db' = links db → links_resolve db').
  { intros db' Ha Hp Hl l. rewrite Ha, Hp, Hl. apply Hres. }
  destruct r.
  - cbn [handle].
    destruct (Appointments.create_appointment _ _ _) eqn:E; try done.
    apply create_appointment_inv in E
      as (ids & objs & _ & _ & _ & _ & _ & _ & _ & _ & _ & _ & _ & Hall & _
          & ->).
    intros l. cbn [db_after appointments procedures links].
    intros Hl. apply elem_of_app in Hl as [Hl|Hl].
    + destruct (Hres l Hl) as [[a Ha] Hp]. split; [|done].
      destruct (decide (body.1 = AppointmentProcedure.atendimento_id l))
        as [Heq|Hne].
      * rewrite <- Heq, lookup_insert_eq. by eexists.
      * rewrite lookup_insert_ne by done. by eexists.
    + apply links_to_elem in Hl as (-> & p & Hp & ->).
      rewrite lookup_insert_eq. split; [by eexists|].
      rewrite (resolved_exist _ _ _ _ Hall Hp). by eexists.
  - cbn [handle].
    destruct (Appointments.update_appointment _ _ _ _) eqn:E; try done.
    apply update_appointment_inv in E
      as (ap0 & ch & objs & Hap & _ & _ & _ & _ & _ & Hls & ->).
    cbn [links] in Hls.
    assert (Hkeep : ∀ k, is_Some (appointments db !! k) →
              is_Some (<[ap_id := body.2]> (appointments db) !! k)).
    { intros k [a Ha]. destruct (decide (ap_id = k)) as [<-|Hne].
      - rewrite lookup_insert_eq. by eexists.
      - rewrite lookup_insert_ne by done. by eexists. }
    intros l. cbn [db_after appointments procedures links].
    apply apply_procedimentos_all in Hls
      as [(_ & _ & ->)|(ids & _ & _ & _ & Hall & ->)].
    + intros Hl. destruct (Hres l Hl) as [Ha Hp]. split; [|done].
      by apply Hkeep.
    + intros Hl. apply elem_of_app in Hl as [Hl|Hl].
      * apply delete_links_elem in Hl as [_ Hl].
        destruct (Hres l Hl) as [Ha Hp]. split; [|done]. by apply Hkeep.
      * apply links_to_elem in Hl as (-> & p & Hp & ->).
        rewrite lookup_insert_eq. split; [by eexists|].
        rewrite (resolved_exist _ _ _ _ Hall Hp). by eexists.
  - cbn [handle].
    destruct (Appointments.delete_appointment _ _ _) eqn:E; try done.
    apply delete_appointment_inv in E as (ap0 & _ & _ & _ & ->).
    intros l. cbn [db_after appointments procedures links].
    intros Hl. apply delete_links_elem in Hl as [Hne Hl].
    destruct (Hres l Hl) as [Ha Hp]. split; [|done].
    by rewrite lookup_delete_ne.
  - cbn [handle].
    destruct (Procedures.create_procedure _ _ _) eqn:E; try done.
    apply create_procedure_inv in E
      as (_ & _ & _ & _ & _ & _ & _ & _ & _ & _ & ->).
    intros l Hl. cbn [db_after appointments procedures links] in *.
    destruct (Hres l Hl) as [Ha [p Hp]]. split; [done|].
    destruct (decide (body.1 = AppointmentProcedure.procedimento_id l))
      as [Heq|Hne].
    + rewrite <- Heq, lookup_insert_eq. by eexists.
    + rewrite lookup_insert_ne by done. by eexists.
  - cbn [handle].
    destruct (Procedures.update_procedure _ _ _ _) eqn:E; try done.
    apply update_procedure_inv in E as (_ & p0 & _ & _ & _ & _ & _ & ->).
    intros l Hl. cbn [db_after appointments procedures links] in *.
    destruct (Hres l Hl) as [Ha [p Hp]]. split; [done|].
    destruct (decide (proc_id = AppointmentProcedure.procedimento_id l))
      as [Heq|Hne].
    + rewrite <- Heq, lookup_insert_eq. by eexists.
    + rewrite lookup_insert_ne by done. by eexists.
  - cbn [handle].
    destruct (Procedures.delete_procedure _ _ _) eqn:E; try done.
    apply delete_procedure_inv in E as (_ & _ & Hfree & ->).
    intros l Hl. cbn [db_after appointments procedures links] in *.
    destruct (Hres l Hl) as [Ha Hp]. split; [done|].
    rewrite lookup_delete_ne; [done|]. intros Heq. by apply (Hfree l Hl).
  - by apply Hsame; apply create_patient_frame.
  - by apply Hsame; apply update_patient_frame.
  - by apply Hsame; apply delete_patient_frame.
  - by apply Hsame; apply create_user_frame.
  - by apply Hsame; apply update_user_frame.
  - by apply Hsame; apply delete_user_frame.
  - by apply Hsame; apply reset_password_frame.
  - by apply Hsame; apply change_password_frame.
  - by apply Hsame; apply register_frame.
Qed.

(** *** Appointments have procedures *)

Lemma resolved_not_empty db ids objs :
  Forall2 (λ pid p, Appointments.resolve_procedure db pid = inr p) ids objs →
  ids ≠ [] → ∀ ap_id, links_to ap_id objs ≠ [].
Proof. intros Hall Hne ap_id. by destruct Hall. Qed.

Lemma handle_has_procedures db r :
  has_procedures db → has_procedures (handle db r).
Proof.
  intros Hhas.
  assert (Hsame : ∀ db', appointments db' = appointments db →
                         links db' = links db → has_procedures db').
  { intros db' Ha Hl k ap. unfold Appointments.procedimentos_vinculados.
    rewrite Ha, Hl. apply Hhas. }
  destruct r.
  - cbn [handle].
    destruct (Appointments.create_appointment _ _ _) eqn:E; try done.
    apply create_appointment_inv in E
      as (ids & objs & _ & _ & _ & _ & _ & _ & _ & _ & _ & _ & Hne & Hall
          & _ & ->).
    intros k ap. unfold Appointments.procedimentos_vinculados.
    cbn [db_after appointments links]. rewrite links_of_app.
    destruct (decide (body.1 = k)) as [<-|Hk].
    + intros _ Hnil. apply app_eq_nil in Hnil as [_ Hnil].
      rewrite links_to_own in Hnil.
      by apply (resolved_not_empty _ _ _ Hall Hne body.1).
    + rewrite lookup_insert_ne by done. intros Hap.
      rewrite links_to_other, app_nil_r by done. by apply (Hhas k ap).
  - cbn [handle].
    destruct (Appointments.update_appointment _ _ _ _) eqn:E; try done.
    apply update_appointment_inv in E
      as (ap0 & ch & objs & Hap & _ & _ & _ & _ & _ & Hls & ->).
    cbn [links] in Hls.
    apply apply_procedimentos_all in Hls
      as [(_ & _ & ->)|(ids & _ & Hne & _ & Hall & ->)].
    + intros k ap. unfold Appointments.procedimentos_vinculados.
      cbn [db_after appointments links].
      destruct (decide (ap_id = k)) as [<-|Hk].
      * intros _. by apply (Hhas ap_id ap0).
      * rewrite lookup_insert_ne by done. apply Hhas.
    + intros k ap. unfold Appointments.procedimentos_vinculados.
      cbn [db_after appointments links]. rewrite links_of_app.
      destruct (decide (ap_id = k)) as [<-|Hk].
      * intros _ Hnil. apply app_eq_nil in Hnil as [_ Hnil].
        rewrite links_to_own in Hnil.
        by apply (resolved_not_empty _ _ _ Hall Hne ap_id).
      * rewrite lookup_insert_ne by done. intros Hk'.
        rewrite links_to_other, app_nil_r by done.
        rewrite delete_links_other by done. by apply (Hhas k ap).
  - cbn [handle].
    destruct (Appointments.delete_appointment _ _ _) eqn:E; try done.
    apply delete_appointment_inv in E as (ap0 & _ & _ & _ & ->).
    intros k ap. unfold Appointments.procedimentos_vinculados.
    cbn [db_after appointments links]. intros Hk.
    apply lookup_delete_Some in Hk as [Hne Hk].
    rewrite delete_links_other by done. by apply (Hhas k ap).
  - by apply Hsame; apply (procedure_handlers_frame db
                             (CreateProcedure who data) I).
  - by apply Hsame; apply (procedure_handlers_frame db
                             (UpdateProcedure who proc_id data) I).
  - by apply Hsame; apply (procedure_handlers_frame db
                             (DeleteProcedure who proc_id) I).
  - by apply Hsame; apply create_patient_frame.
  - by apply Hsame; apply update_patient_frame.
  - by apply Hsame; apply delete_patient_frame.
  - by apply Hsame; apply create_user_frame.
  - by apply Hsame; apply update_user_frame.
  - by apply Hsame; apply delete_user_frame.
  - by apply Hsame; apply reset_password_frame.
  - by apply Hsame; apply change_password_frame.
  - by apply Hsame; apply register_frame.
Qed.

End Kept.

(** X5: Whatever the requests, every appointment is of a patient that exists:
    creation and update look the patient up, and a patient with
    appointments is not removed. *)
Theorem appointments_keep_patients `{Collaborators} (db : DB)
    (rs : list request) :
  patients_resolve db → patients_resolve (run db rs).
Proof.
  intros Hok. apply (run_invariant patients_resolve); [|done].
  intros db0 r. apply handle_patients_resolve.
Qed.

Lemma appointments_keep_patients_witness :
  patients_resolve (run (H := plain) empty_db (booking ++ [DeletePatient 1])).
Proof.
  apply (appointments_keep_patients (H := plain) empty_db
           (booking ++ [DeletePatient 1])).
  intros k ap Hk. unfold empty_db in Hk. cbn [appointments] in Hk.
  rewrite lookup_empty in Hk. discriminate.
Defined.

(** X6: Whatever the requests, also those that edit prices, every row of the
    join table links an appointment and a procedure that exist. *)
Theorem links_stay_resolved `{Collaborators} (db : DB) (rs : list request) :
  links_resolve db → links_resolve (run db rs).
Proof.
  intros Hok. apply (run_invariant links_resolve); [|done].
  intros db0 r. apply handle_links_resolve.
Qed.

Lemma links_stay_resolved_witness :
  links_resolve
    (run (H := plain) empty_db
       (booking ++ [price_edit; DeleteProcedure admin_ana 1])).
Proof.
  apply (links_stay_resolved (H := plain) empty_db
           (booking ++ [price_edit; DeleteProcedure admin_ana 1])).
  intros l Hl. unfold empty_db in Hl. cbn [links] in Hl.
  by apply elem_of_nil in Hl.
Defined.

(** X7: Whatever the requests, every appointment has at least one procedure
    linked: creation and update refuse an empty list, and the rows of an
    appointment go only when it goes or when an update replaces them. *)
Theorem appointments_keep_procedures `{Collaborators} (db : DB)
    (rs : list request) :
  has_procedures db → has_procedures (run db rs).
Proof.
  intros Hok. apply (run_invariant has_procedures); [|done].
  intros db0 r. apply handle_has_procedures.
Qed.

Lemma appointments_keep_procedures_witness :
  has_procedures
    (run (H := plain) empty_db
       (booking
        ++ [UpdateAppointment default_bia 1
              {[ "procedimentos" := VList [] ]}])).
Proof.
  apply (appointments_keep_procedures (H := plain) empty_db
           (booking
            ++ [UpdateAppointment default_bia 1
                  {[ "procedimentos" := VList [] ]}])).
  intros k ap Hk. unfold empty_db in Hk. cbn [appointments] in Hk.
  rewrite lookup_empty in Hk. discriminate.
Defined.

(** ** Appointments: who may edit, and what an edit touches *)

Lemma not_owner_false who ap :
  Appointments.not_owner who ap = false ↔
  is_admin who = true ∨ actor_id who = Appointment.usuario_id ap.
Proof.
  unfold Appointments.not_owner. rewrite andb_false_iff, !negb_false_iff.
  by rewrite Z.eqb_eq.
Qed.

Lemma links_of_fresh (db : DB) ls :
  (∀ l, l ∈ ls →
        AppointmentProcedure.atendimento_id l ≠ next_id (appointments db)) →
  Appointments.delete_links (next_id (appointments db)) ls = ls.
Proof.
  unfold Appointments.delete_links. induction ls as [|l ls IH]; [done|].
  intros Hall. rewrite filter_cons.
  destruct (decide _) as [_|Hn].
  - f_equal. apply IH. intros l' Hl'. apply Hall. by right.
  - destruct Hn. apply Hall. by left.
Qed.

Lemma delete_links_to ap_id objs :
  Appointments.delete_links ap_id (links_to ap_id objs) = [].
Proof.
  unfold Appointments.delete_links, links_to.
  induction objs as [|p objs IH]; [done|].
  cbn [map]. rewrite filter_cons. by destruct (decide _).
Qed.

(** X17: An appointment is edited or removed only by an admin or by the user
    who created it: for anyone else [PUT] and [DELETE] answer 403, whatever
    the payload. *)
Theorem appointment_edits_need_owner `{Collaborators} (db : DB)
    (who : actor) (ap_id : Z) (ap : Appointment.t) :
  appointments db !! ap_id = Some ap →
  is_admin who = false →
  actor_id who ≠ Appointment.usuario_id ap →
  (∀ data, Appointments.update_appointment db who ap_id data
           = Refused 403 (Erro msg_editar))
  ∧ Appointments.delete_appointment db who ap_id
    = Refused 403 (Erro msg_remover).
Proof.
  intros Hap Hadm Hne. apply Z.eqb_neq in Hne.
  unfold Appointments.update_appointment, Appointments.delete_appointment,
    get_or_404.
  rewrite Hap. cbn [mbind stop_bind]. unfold Appointments.not_owner.
  rewrite Hadm, Hne. done.
Qed.

Lemma appointment_edits_need_owner_witness :
  (∀ data, Appointments.update_appointment (H := plain) db_clinic
             default_bia 3 data
           = Refused 403 (Erro msg_editar))
  ∧ Appointments.delete_appointment db_clinic default_bia 3
    = Refused 403 (Erro msg_remover).
Proof.
  apply (appointment_edits_need_owner (H := plain) db_clinic default_bia 3
           ap_3).
  - reflexivity.
  - reflexivity.
  - vm_compute. discriminate.
Defined.

(** X18: An update of an appointment that goes through was sent by an admin or
    by its creator, leaves the creator as it was, and touches no other
    appointment, none of their join rows, and no other table. *)
Theorem update_appointment_touches_one `{Collaborators} (db : DB)
    (who : actor) (ap_id : Z) (data : payload) st body db' :
  Appointments.update_appointment db who ap_id data = Done st body db' →
  ∃ ap0,
    appointments db !! ap_id = Some ap0
    ∧ (is_admin who = true ∨ actor_id who = Appointment.usuario_id ap0)
    ∧ Appointment.usuario_id body.2 = Appointment.usuario_id ap0
    ∧ appointments db' !! ap_id = Some body.2
    ∧ (∀ k, k ≠ ap_id →
            appointments db' !! k = appointments db !! k
            ∧ Appointments.procedimentos_vinculados db' k
              = Appointments.procedimentos_vinculados db k)
    ∧ users db' = users db ∧ patients db' = patients db
    ∧ procedures db' = procedures db.
Proof.
  intros E.
  apply update_appointment_inv in E
    as (ap0 & ch & objs & Hap & Hown & _ & _ & U & _ & Hls & Hdb).
  exists ap0. split; [done|]. split; [by apply not_owner_false|].
  split; [done|]. rewrite Hdb. cbn [appointments users patients procedures].
  split; [by rewrite lookup_insert_eq|]. split; [|done].
  intros k Hk. split; [by rewrite lookup_insert_ne|].
  unfold Appointments.procedimentos_vinculados. cbn [links].
  apply apply_procedimentos_all in Hls
    as [(_ & _ & ->)|(ids & _ & _ & _ & _ & ->)]; [done|].
  rewrite links_of_app, links_to_other, app_nil_r by done.
  by apply delete_links_other.
Qed.

Lemma update_appointment_touches_one_witness :
  ∃ ap0,
    appointments db_clinic !! 1 = Some ap0
    ∧ (is_admin default_bia = true
       ∨ actor_id default_bia = Appointment.usuario_id ap0)
    ∧ Appointment.usuario_id
        (Appointment.set_valor_total 40%float ap_1)
      = Appointment.usuario_id ap0
    ∧ appointments
        (db_after db_clinic
           (Appointments.update_appointment (H := plain) db_clinic
              default_bia 1 only_exame)) !! 1
      = Some (Appointment.set_valor_total 40%float ap_1)
    ∧ (∀ k, k ≠ 1 →
            appointments
              (db_after db_clinic
                 (Appointments.update_appointment (H := plain) db_clinic
                    default_bia 1 only_exame))
              !! k
            = appointments db_clinic !! k
            ∧ Appointments.procedimentos_vinculados
                (db_after db_clinic
                   (Appointments.update_appointment (H := plain) db_clinic
                      default_bia 1 only_exame))
                k
              = Appointments.procedimentos_vinculados db_clinic k)
    ∧ users
        (db_after db_clinic
           (Appointments.update_appointment (H := plain) db_clinic
              default_bia 1 only_exame))
      = users db_clinic
    ∧ patients
        (db_after db_clinic
           (Appointments.update_appointment (H := plain) db_clinic
              default_bia 1 only_exame))
      = patients db_clinic
    ∧ procedures
        (db_after db_clinic
           (Appointments.update_appointment (H := plain) db_clinic
              default_bia 1 only_exame))
      = procedures db_clinic.
Proof.
  apply (update_appointment_touches_one (H := plain) db_clinic default_bia 1
           only_exame 200
           (1, Appointment.set_valor_total 40%float ap_1)).
  vm_compute. reflexivity.
Defined.

(** X19: An update whose payload carries [procedimentos] leaves the appointment
    with one join row for each id of the list, in the order of the list,
    each resolved to a procedure that exists; an update without it leaves
    the join table as it was. *)
Theorem update_appointment_replaces_links `{Collaborators} (db : DB)
    (who : actor) (ap_id : Z) (data : payload) st body db' :
  Appointments.update_appointment db who ap_id data = Done st body db' →
  (is_none (get data "procedimentos") = true → links db' = links db)
  ∧ (is_none (get data "procedimentos") = false →
     ∃ ids objs,
       get data "procedimentos" = VList ids
       ∧ Forall2 (λ pid p, Appointments.resolve_procedure db pid = inr p)
           ids objs
       ∧ Appointments.procedimentos_vinculados db' ap_id
         = links_to ap_id objs).
Proof.
  intros E.
  apply update_appointment_inv in E
    as (ap0 & ch & objs & _ & _ & _ & _ & _ & _ & Hls & _).
  apply apply_procedimentos_all in Hls
    as [(Hnone & _ & Hl)|(ids & Hids & _ & _ & Hall & Hl)].
  - split; [done|]. by rewrite Hnone.
  - split; [by rewrite Hids|]. intros _. exists ids, objs.
    split; [done|]. split; [done|].
    unfold Appointments.procedimentos_vinculados. rewrite Hl.
    by rewrite links_of_app, delete_links_own, links_to_own.
Qed.

Lemma update_appointment_replaces_links_witness :
  ∃ ids objs,
    get only_exame "procedimentos" = VList ids
    ∧ Forall2
        (λ pid p, Appointments.resolve_procedure (H := plain) db_clinic pid
                  = inr p) ids objs
    ∧ Appointments.procedimentos_vinculados
        (db_after db_clinic
           (Appointments.update_appointment (H := plain) db_clinic
              default_bia 1 only_exame)) 1
      = links_to 1 objs.
Proof.
  assert (E : Appointments.update_appointment (H := plain) db_clinic
                default_bia 1 only_exame
              = Done 200 (1, Appointment.set_valor_total 40%float ap_1)
                  (db_after db_clinic
                     (Appointments.update_appointment (H := plain) db_clinic
                        default_bia 1 only_exame))).
  { vm_compute. reflexivity. }
  assert (N : is_none (get only_exame "procedimentos") = false).
  { vm_compute. reflexivity. }
  exact (proj2 (update_appointment_replaces_links (H := plain) db_clinic
                  default_bia 1 only_exame 200 _ _ E) N).
Defined.

(** X20: An update reads five keys of its payload; a payload with none of them
    (say one that tries to set [valor_total] or [usuario_id]) changes
    nothing and answers 200 with the appointment as it is, provided the
    appointment is not a [plano] one without card number. *)
Theorem update_appointment_ignores_other_keys `{Collaborators} (db : DB)
    (who : actor) (ap_id : Z) (data : payload) (ap : Appointment.t) :
  appointments db !! ap_id = Some ap →
  Appointments.not_owner who ap = false →
  Forall (λ k, data !! k = None) appointment_keys →
  String.eqb (Appointment.tipo ap) "plano"
  && empty_text (Appointment.numero_carteira ap) = false →
  Appointments.update_appointment db who ap_id data
  = Done 200 (ap_id, ap) db.
Proof.
  intros Hap Hown Hkeys Hcard.
  unfold appointment_keys in Hkeys.
  apply Forall_cons in Hkeys as [K1 Hkeys].
  apply Forall_cons in Hkeys as [K2 Hkeys].
  apply Forall_cons in Hkeys as [K3 Hkeys].
  apply Forall_cons in Hkeys as [K4 Hkeys].
  apply Forall_cons in Hkeys as [K5 _].
  assert (Hk : has_key data "tipo" = false).
  { unfold has_key. apply bool_decide_eq_false. rewrite K4. by intros [? ?]. }
  unfold Appointments.update_appointment, get_or_404.
  rewrite Hap. cbn [mbind stop_bind]. rewrite Hown.
  cbn [refuse_if mbind stop_bind].
  unfold Appointments.apply_fields, Appointments.apply_data_hora,
    Appointments.apply_paciente, Appointments.apply_procedimentos,
    Appointments.apply_tipo, Appointments.apply_numero_carteira, get.
  rewrite K1, K2, K3, K4, K5.
  cbn [from_option id truthy is_none negb mbind stop_bind mret stop_ret].
  unfold Appointments.check_carteira. rewrite Hcard.
  cbn [refuse_if mbind stop_bind].
  unfold Appointments.recompute. rewrite Hk.
  cbn [orb mbind stop_bind mret stop_ret finish].
  rewrite insert_id by done. by destruct db.
Qed.

Lemma update_appointment_ignores_other_keys_witness :
  Appointments.update_appointment (H := plain) db_clinic default_bia 2
    {[ "valor_total" := VInt 0; "usuario_id" := VInt 1 ]}
  = Done 200 (2, ap_2) db_clinic.
Proof.
  apply (update_appointment_ignores_other_keys (H := plain) db_clinic
           default_bia 2 {[ "valor_total" := VInt 0; "usuario_id" := VInt 1 ]}
           ap_2).
  - reflexivity.
  - reflexivity.
  - repeat constructor.
  - reflexivity.
Defined.

(** X21: A created appointment is stored under a new id, belongs to the user
    who sent the request and to a patient that exists, is ['plano'] with
    the trimmed card number or ['particular'] without one, and has one
    join row for each id of [procedimentos], in order, whose prices make
    its total. *)
Theorem create_appointment_stores `{Collaborators} (db : DB) (who : actor)
    (data : payload) st body db' :
  links_resolve db →
  Appointments.create_appointment db who data = Done st body db' →
  appointments db !! body.1 = None
  ∧ appointments db' !! body.1 = Some body.2
  ∧ Appointment.usuario_id body.2 = actor_id who
  ∧ is_Some (patients db !! Appointment.paciente_id body.2)
  ∧ (Appointment.tipo body.2 = "plano"
     ∧ (∃ s, get data "numero_carteira" = VStr s ∧ strip s ≠ ""
             ∧ Appointment.numero_carteira body.2 = Some (strip s))
     ∨ Appointment.tipo body.2 = "particular"
       ∧ Appointment.numero_carteira body.2 = None)
  ∧ ∃ ids objs,
      get data "procedimentos" = VList ids
      ∧ Forall2 (λ pid p, Appointments.resolve_procedure db pid = inr p)
          ids objs
      ∧ Appointments.procedimentos_vinculados db' body.1
        = links_to body.1 objs
      ∧ Appointment.valor_total body.2
        = Appointments.calc_valor_total objs.*2 (Appointment.tipo body.2).
Proof.
  intros Hres E.
  apply create_appointment_inv in E
    as (ids & objs & _ & Hid & _ & Ht & _ & U & _ & Hpat & Hnc & Hids & _
        & Hall & Hv & ->).
  assert (Hfresh : appointments db !! body.1 = None).
  { rewrite Hid. apply next_id_fresh. }
  split; [done|]. cbn [appointments].
  split; [by rewrite lookup_insert_eq|]. split; [done|]. split; [done|].
  split.
  { destruct Ht as [Ht|Ht]; rewrite Ht in Hnc |- *; [left|right]; done. }
  exists ids, objs. split; [done|]. split; [done|]. split; [|done].
  unfold Appointments.procedimentos_vinculados. cbn [links].
  rewrite links_of_app, links_to_own.
  pose proof (no_links_of_missing db body.1 Hres Hfresh) as Hnil.
  unfold Appointments.procedimentos_vinculados in Hnil. by rewrite Hnil.
Qed.

Lemma create_appointment_stores_witness :
  let db' :=
    db_after db_clinic
      (Appointments.create_appointment (H := plain) db_clinic default_bia
         booking_payload) in
  appointments db_clinic !! 5 = None
  ∧ appointments db' !! 5 = Some ap_5
  ∧ Appointment.usuario_id ap_5 = 2
  ∧ is_Some (patients db_clinic !! 1)
  ∧ (Appointment.tipo ap_5 = "plano"
     ∧ (∃ s, get booking_payload "numero_carteira" = VStr s ∧ strip s ≠ ""
             ∧ Appointment.numero_carteira ap_5 = Some (strip s))
     ∨ Appointment.tipo ap_5 = "particular"
       ∧ Appointment.numero_carteira ap_5 = None)
  ∧ ∃ ids objs,
      get booking_payload "procedimentos" = VList ids
      ∧ Forall2
          (λ pid p, Appointments.resolve_procedure (H := plain) db_clinic pid
                    = inr p) ids objs
      ∧ Appointments.procedimentos_vinculados db' 5 = links_to 5 objs
      ∧ Appointment.valor_total ap_5
        = Appointments.calc_valor_total objs.*2 (Appointment.tipo ap_5).
Proof.
  apply (create_appointment_stores (H := plain) db_clinic default_bia
           booking_payload 201 (5, ap_5)).
  - intros l Hl. apply list_elem_of_In in Hl. vm_compute in Hl.
    repeat (destruct Hl as [<-|Hl]; [by split; eexists|]). done.
  - vm_compute. reflexivity.
Defined.

(** X22: Creating an appointment and removing it again, by the same user,
    gives back the database as it was. *)
Theorem create_then_delete_appointment `{Collaborators} (db : DB)
    (who : actor) (data : payload) st body db' :
  links_resolve db →
  Appointments.create_appointment db who data = Done st body db' →
  Appointments.delete_appointment db' who body.1
  = Done 200 "Atendimento removido" db.
Proof.
  intros Hres E.
  apply create_appointment_inv in E
    as (ids & objs & _ & Hid & _ & _ & _ & U & _ & _ & _ & _ & _ & _ & _
        & ->).
  unfold Appointments.delete_appointment, get_or_404.
  cbn [appointments links users patients procedures].
  rewrite lookup_insert_eq. cbn [mbind stop_bind].
  assert (Hown : Appointments.not_owner who body.2 = false).
  { apply not_owner_false. by right. }
  rewrite Hown. cbn [refuse_if mbind stop_bind mret stop_ret finish].
  rewrite delete_insert_id by (rewrite Hid; apply next_id_fresh).
  assert (Hl : Appointments.delete_links body.1
                 (links db ++ links_to body.1 objs)%list = links db).
  { unfold Appointments.delete_links. rewrite filter_app.
    fold (Appointments.delete_links body.1 (links db)).
    fold (Appointments.delete_links body.1 (links_to body.1 objs)).
    rewrite delete_links_to, app_nil_r, Hid. apply links_of_fresh.
    intros l Hl Heq. destruct (Hres l Hl) as [[a Ha] _].
    by rewrite Heq, next_id_fresh in Ha. }
  rewrite Hl. by destruct db.
Qed.

Lemma create_then_delete_appointment_witness :
  Appointments.delete_appointment
    (db_after db_clinic
       (Appointments.create_appointment (H := plain) db_clinic default_bia
          booking_payload))
    default_bia 5
  = Done 200 "Atendimento removido" db_clinic.
Proof.
  apply (create_then_delete_appointment (H := plain) db_clinic default_bia
           booking_payload 201 (5, ap_5)).
  - intros l Hl. apply list_elem_of_In in Hl. vm_compute in Hl.
    repeat (destruct Hl as [<-|Hl]; [by split; eexists|]). done.
  - vm_compute. reflexivity.
Defined.

(** ** Users: what an edit may change, and passwords *)

Section Passwords.
Context `{Collaborators} {T : Type} (generate_token : Z → string → T).

Lemma login_after_new_hash db k user p credentials pa pr ap li :
  users_ok db →
  users db !! k = Some user →
  (∀ s, check_password (password_hash s) s = true) →
  p ≠ "" → strip p = p →
  get credentials "email" = VStr (User.email user) →
  get credentials "senha" = VStr p →
  let user' := User.set_senha_hash (password_hash p) user in
  let db' := MkDB (<[k := user']> (users db)) pa pr ap li in
  login generate_token db' credentials
  = Done 200 (generate_token k (User.tipo user), (k, user')) db'.
Proof.
  intros [Hu Hrows] Hk Hhash Hp Hsp He Hs user' db'.
  destruct (Hrows k user Hk) as ([Hse Hne] & _ & _).
  rewrite (login_of_user generate_token db' credentials k user'
             (User.email user) p); try done.
  - cbn [User.set_senha_hash User.senha_hash user']. by rewrite Hhash.
  - cbn [users db']. apply lookup_insert_eq.
  - cbn [users db']. intros j b Hj Hb.
    destruct (decide (k = j)) as [|Hkj]; [done|].
    rewrite lookup_insert_ne in Hj by done.
    by apply (Hu j k b user).
  - by rewrite Hse.
  - by rewrite Hsp.
Qed.

End Passwords.

Lemma db_two_users_ok : users_ok db_two_users.
Proof.
  split.
  - intros i j a b Hi Hj Hab.
    apply elem_of_map_to_list, list_elem_of_In in Hi.
    apply elem_of_map_to_list, list_elem_of_In in Hj.
    vm_compute in Hi, Hj.
    destruct Hi as [[= <- <-]|[[= <- <-]|[]]],
             Hj as [[= <- <-]|[[= <- <-]|[]]]; done.
  - intros k u Hk. apply elem_of_map_to_list, list_elem_of_In in Hk.
    vm_compute in Hk.
    destruct Hk as [[= <- <-]|[[= <- <-]|[]]];
      (split; [by split|]); (split; [by split|]); auto.
Qed.

(** X15: [PUT /users/<user_id>] changes the name and the email at most: an
    update that goes through was sent by an admin or by the user, leaves
    the role and the password hash as they were, and touches no other
    user. *)
Theorem update_user_keeps_role_and_password (db : DB)
    (who : actor) (user_id : Z) (data : payload) st body db' :
  Users.update_user db who user_id data = Done st body db' →
  ∃ user,
    users db !! user_id = Some user
    ∧ (is_admin who = true ∨ actor_id who = user_id)
    ∧ User.tipo body.2 = User.tipo user
    ∧ User.senha_hash body.2 = User.senha_hash user
    ∧ users db' !! user_id = Some body.2
    ∧ ∀ k, k ≠ user_id → users db' !! k = users db !! k.
Proof.
  intros E.
  apply update_user_inv in E
    as (user & Hu & Hwho & _ & _ & Ht & Hh & _ & _ & ->).
  exists user. cbn [users]. split; [done|]. split; [done|].
  split; [done|]. split; [done|].
  split; [by rewrite lookup_insert_eq|].
  intros k Hk. by rewrite lookup_insert_ne.
Qed.

Lemma update_user_keeps_role_and_password_witness :
  ∃ user,
    users db_two_users !! 2 = Some user
    ∧ (is_admin default_bia = true ∨ actor_id default_bia = 2)
    ∧ User.tipo bia_renamed = User.tipo user
    ∧ User.senha_hash bia_renamed = User.senha_hash user
    ∧ users
        (db_after db_two_users
           (Users.update_user db_two_users default_bia 2
              {[ "nome" := VStr " Bia B. "; "tipo" := VStr "admin";
                 "senha" := VStr "x" ]})) !! 2
      = Some bia_renamed
    ∧ ∀ k, k ≠ 2 →
        users
          (db_after db_two_users
             (Users.update_user db_two_users default_bia 2
                {[ "nome" := VStr " Bia B. "; "tipo" := VStr "admin";
                   "senha" := VStr "x" ]})) !! k
        = users db_two_users !! k.
Proof.
  apply (update_user_keeps_role_and_password db_two_users
           default_bia 2
           {[ "nome" := VStr " Bia B. "; "tipo" := VStr "admin";
              "senha" := VStr "x" ]} 200 (2, bia_renamed)).
  vm_compute. reflexivity.
Defined.

(** X12: After [POST /users/me/alterar-senha] went through, the user logs in
    with the email on file and the new password trimmed, which is what the
    handler hashed. *)
Theorem change_password_then_login `{Collaborators} {T : Type}
    (generate_token : Z → string → T) (db : DB) (who : actor)
    (data credentials : payload) (user : User.t) (new : string) st body db' :
  users_ok db →
  (∀ s, check_password (password_hash s) s = true) →
  Users.change_password db who data = Done st body db' →
  users db !! actor_id who = Some user →
  get data "senha_nova" = VStr new →
  get credentials "email" = VStr (User.email user) →
  get credentials "senha" = VStr (strip new) →
  login generate_token db' credentials
  = Done 200
      (generate_token (actor_id who) (User.tipo user),
       (actor_id who,
        User.set_senha_hash (password_hash (strip new)) user)) db'.
Proof.
  intros Hok Hhash E Hu Hnew He Hs.
  apply change_password_inv in E
    as (u & o & n & Hu' & _ & Hn & Hne & _ & ->).
  rewrite Hu in Hu'. injection Hu' as <-.
  rewrite Hnew in Hn. injection Hn as <-.
  apply (login_after_new_hash generate_token db (actor_id who) user
           (strip new)); try done.
  apply strip_idem.
Qed.

Lemma change_password_then_login_witness :
  login (H := plain) plain_token
    (db_after db_two_users
       (Users.change_password (H := plain) db_two_users default_bia
          new_password))
    bia_logs_in
  = Done 200 ((2, "default"), (2, bia_new_password))
      (db_after db_two_users
         (Users.change_password (H := plain) db_two_users default_bia
            new_password)).
Proof.
  apply (change_password_then_login (H := plain) plain_token db_two_users
           default_bia new_password bia_logs_in user_bia "n0va "
           200 "Senha alterada").
  - exact db_two_users_ok.
  - intros s. apply String.eqb_refl.
  - vm_compute. reflexivity.
  - reflexivity.
  - reflexivity.
  - reflexivity.
  - reflexivity.
Defined.

(** X13: After an admin's [POST /users/<user_id>/reset-senha] went through,
    the user logs in with the email on file and the password the admin
    sent, trimmed. *)
Theorem reset_password_then_login `{Collaborators} {T : Type}
    (generate_token : Z → string → T) (db : DB) (who : actor) (user_id : Z)
    (data credentials : payload) (user : User.t) (new : string) st body db' :
  users_ok db →
  (∀ s, check_password (password_hash s) s = true) →
  Users.reset_password db who user_id data = Done st body db' →
  users db !! user_id = Some user →
  get data "senha" = VStr new →
  get credentials "email" = VStr (User.email user) →
  get credentials "senha" = VStr (strip new) →
  login generate_token db' credentials
  = Done 200
      (generate_token user_id (User.tipo user),
       (user_id, User.set_senha_hash (password_hash (strip new)) user)) db'.
Proof.
  intros Hok Hhash E Hu Hnew He Hs.
  apply reset_password_inv in E as (_ & u & n & Hu' & Hn & Hne & ->).
  rewrite Hu in Hu'. injection Hu' as <-.
  rewrite Hnew in Hn. injection Hn as <-.
  apply (login_after_new_hash generate_token db user_id user (strip new));
    try done.
  apply strip_idem.
Qed.

Lemma reset_password_then_login_witness :
  login (H := plain) plain_token
    (db_after db_two_users
       (Users.reset_password (H := plain) db_two_users admin_ana 2
          {[ "senha" := VStr " n0va" ]}))
    bia_logs_in
  = Done 200 ((2, "default"), (2, bia_new_password))
      (db_after db_two_users
         (Users.reset_password (H := plain) db_two_users admin_ana 2
            {[ "senha" := VStr " n0va" ]})).
Proof.
  apply (reset_password_then_login (H := plain) plain_token db_two_users
           admin_ana 2 {[ "senha" := VStr " n0va" ]} bia_logs_in user_bia
           " n0va" 200 "Senha resetada").
  - exact db_two_users_ok.
  - intros s. apply String.eqb_refl.
  - vm_compute. reflexivity.
  - reflexivity.
  - reflexivity.
  - reflexivity.
  - reflexivity.
Defined.

(** X14: A user an admin has removed cannot log in any more: with the email
    that was on file, [login] answers 401 whatever the password. *)
Theorem delete_user_then_login `{Collaborators} {T : Type}
    (generate_token : Z → string → T) (db : DB) (who : actor) (user_id : Z)
    (credentials : payload) (user : User.t) st body db' :
  users_ok db →
  Users.delete_user db who user_id = Done st body db' →
  users db !! user_id = Some user →
  get credentials "email" = VStr (User.email user) →
  is_valid_string (get credentials "senha") = true →
  login generate_token db' credentials
  = Refused 401 (Erro "Credenciais inválidas").
Proof.
  intros [Hu Hrows] E Huser He Hs.
  apply delete_user_inv in E as (_ & _ & _ & ->).
  destruct (Hrows user_id user Huser) as ([Hse Hne] & _ & _).
  unfold login. cbv zeta. rewrite He.
  assert (Hv : is_valid_string (VStr (User.email user)) = true).
  { apply is_valid_string_str. by rewrite Hse. }
  rewrite Hv, Hs. cbn [negb orb refuse_if mbind stop_bind strip_value].
  rewrite Hse.
  apply is_valid_string_inv in Hs as (s & -> & _).
  destruct (first_row _ _) as [[k u]|] eqn:Hf; [|done].
  apply first_row_Some in Hf as [Hk Heq]. apply String.eqb_eq in Heq.
  cbn [users] in Hk. apply lookup_delete_Some in Hk as [Hne' Hk].
  destruct Hne'. by apply (Hu user_id k user u).
Qed.

Lemma delete_user_then_login_witness :
  login (H := plain) plain_token
    (db_after db_two_users
       (Users.delete_user db_two_users admin_ana 2))
    {[ "email" := VStr "bia@clinica.br"; "senha" := VStr "s3nha" ]}
  = Refused 401 (Erro "Credenciais inválidas").
Proof.
  apply (delete_user_then_login (H := plain) plain_token db_two_users
           admin_ana 2
           {[ "email" := VStr "bia@clinica.br"; "senha" := VStr "s3nha" ]}
           user_bia 200 "Usuário removido").
  - exact db_two_users_ok.
  - vm_compute. reflexivity.
  - reflexivity.
  - reflexivity.
  - reflexivity.
Defined.

(** ** Rows that are not there *)

(** X23: A request on an id that is not in its table answers 404 and writes
    nothing.  For appointments, patients and users the look-up comes before
    the check of the sender; the procedure handlers check the sender first,
    and [delete_procedure] also the join table, so there the 404 is what an
    admin gets, for a procedure no appointment uses. *)
Theorem missing_row_is_not_found `{Collaborators} (db : DB) (id : Z) :
  (appointments db !! id = None →
   get_appointment db id = Refused 404 msg_not_found
   ∧ (∀ who data, Appointments.update_appointment db who id data
                  = Refused 404 msg_not_found)
   ∧ (∀ who, Appointments.delete_appointment db who id
             = Refused 404 msg_not_found))
  ∧ (patients db !! id = None →
     get_patient db id = Refused 404 msg_not_found
     ∧ (∀ today data, Patients.update_patient db today id data
                      = Refused 404 msg_not_found)
     ∧ Patients.delete_patient db id = Refused 404 msg_not_found)
  ∧ (procedures db !! id = None →
     get_procedure db id = Refused 404 msg_not_found
     ∧ (∀ who data, is_admin who = true →
                    Procedures.update_procedure db who id data
                    = Refused 404 msg_not_found)
     ∧ (∀ who, is_admin who = true →
               (∀ l, l ∈ links db →
                     AppointmentProcedure.procedimento_id l ≠ id) →
               Procedures.delete_procedure db who id
               = Refused 404 msg_not_found))
  ∧ (users db !! id = None →
     (∀ who data, Users.update_user db who id data
                  = Refused 404 msg_not_found)
     ∧ (∀ who, Users.delete_user db who id = Refused 404 msg_not_found)
     ∧ (∀ who data, is_admin who = true →
                    is_valid_string (get data "senha") = true →
                    Users.reset_password db who id data
                    = Refused 404 msg_not_found)).
Proof.
  split; [|split; [|split]]; intros Hnone.
  - unfold get_appointment, get_row,
      Appointments.update_appointment, Appointments.delete_appointment,
      get_or_404. by rewrite Hnone.
  - unfold get_patient, get_row, Patients.update_patient,
      Patients.delete_patient, get_or_404. by rewrite Hnone.
  - split; [|split].
    + unfold get_procedure, get_row, get_or_404.
      by rewrite Hnone.
    + intros who data Hadm. unfold Procedures.update_procedure, get_or_404.
      by rewrite Hadm, Hnone.
    + intros who Hadm Hfree.
      unfold Procedures.delete_procedure, get_or_404. rewrite Hadm, Hnone.
      assert (Hno : existsb
                (λ l, Z.eqb (AppointmentProcedure.procedimento_id l) id)
                (links db) = false).
      { apply not_true_iff_false. intros Hex.
        apply existsb_exists in Hex as (l & Hl & Heq).
        apply Z.eqb_eq in Heq. apply list_elem_of_In in Hl.
        by apply (Hfree l Hl). }
      by rewrite Hno.
  - split; [|split].
    + intros who data. unfold Users.update_user, get_or_404. by rewrite Hnone.
    + intros who. unfold Users.delete_user, get_or_404. by rewrite Hnone.
    + intros who data Hadm Hv. unfold Users.reset_password, get_or_404.
      cbv zeta. by rewrite Hadm, Hv, Hnone.
Qed.

(** ** The procedure and patient handlers on examples *)

Lemma create_patient_Done_witness :
  201 = 201
  ∧ db_after empty_db
      (Patients.create_patient (H := plain) empty_db today_2025 caio_payload)
    = MkDB (users empty_db) (<[1 := caio]> (patients empty_db))
        (procedures empty_db) (appointments empty_db) (links empty_db)
  ∧ Patients.parse_date (H := plain) (Patients.clean (get caio_payload "data_nascimento"))
    = inr (Patient.data_nascimento caio)
  ∧ if Z.ltb (Patients.age_on today_2025 (Patient.data_nascimento caio)) 18
    then
      Forall (λ f, is_valid_string (get caio_payload f) = true)
        ["resp_cpf"; "resp_nome"; "resp_data_nascimento"; "resp_email";
         "resp_telefone"]
      ∧ ∃ rd,
          Patients.parse_date (H := plain)
            (Patients.clean (get caio_payload "resp_data_nascimento"))
          = inr rd
          ∧ (18 ≤ Patients.age_on today_2025 rd)%Z
          ∧ Patient.resp_data_nascimento caio = Some rd
          ∧ Patient.resp_cpf caio
            = Some (text (H := plain)
                      (Patients.clean (get caio_payload "resp_cpf")))
          ∧ Patient.resp_nome caio
            = Some (text (H := plain)
                      (Patients.clean (get caio_payload "resp_nome")))
          ∧ Patient.resp_email caio
            = Some (text (H := plain)
                      (Patients.clean (get caio_payload "resp_email")))
          ∧ Patient.resp_telefone caio
            = Some (text (H := plain)
                      (Patients.clean (get caio_payload "resp_telefone")))
    else
      Patient.resp_cpf caio = None ∧ Patient.resp_nome caio = None
      ∧ Patient.resp_data_nascimento caio = None
      ∧ Patient.resp_email caio = None
      ∧ Patient.resp_telefone caio = None.
Proof.
  apply (create_patient_Done (H := plain) empty_db today_2025 caio_payload
           201 (1, caio)
           (db_after empty_db
              (Patients.create_patient (H := plain) empty_db today_2025
                 caio_payload))).
  vm_compute. reflexivity.
Defined.

Lemma update_patient_rejects_blank_witness :
  ∃ e, Patients.update_patient (H := plain) db_one_patient today_2025 1
         blank_nome
       = Refused 400 e.
Proof.
  apply (proj1 (update_patient_rejects_blank (H := plain) db_one_patient
                  today_2025 1 blank_nome caio eq_refl) "nome" (VStr "  ")).
  - unfold Patients.string_fields. repeat constructor.
  - reflexivity.
  - reflexivity.
Defined.

Lemma update_procedure_same_nome_witness :
  (∀ st, Procedures.update_procedure (H := plain) db_one_procedure admin_ana
           1 consulta_redescribed
         ≠ Refused st (Erro Procedures.msg_nome_existe))
  ∧ (∀ st body db',
       Procedures.update_procedure (H := plain) db_one_procedure admin_ana 1
         consulta_redescribed = Done st body db' →
       Procedure.nome body.2 = Procedure.nome consulta).
Proof.
  apply (update_procedure_same_nome (H := plain) db_one_procedure admin_ana 1
           consulta_redescribed consulta).
  - reflexivity.
  - reflexivity.
Defined.

Lemma update_procedure_finite_witness :
  (has_key new_price "valor_plano" = true →
   ∃ x, py_float (H := plain) (get new_price "valor_plano") = inr x
        ∧ is_nan x = false ∧ is_inf x = false
        ∧ Procedure.valor_plano consulta_90 = x)
  ∧ (has_key new_price "valor_particular" = true →
     ∃ x, py_float (H := plain) (get new_price "valor_particular") = inr x
          ∧ is_nan x = false ∧ is_inf x = false
          ∧ Procedure.valor_particular consulta_90 = x).
Proof.
  apply (update_procedure_finite (H := plain) db_one_procedure admin_ana 1
           new_price 200 (1, consulta_90)
           (db_after db_one_procedure
              (Procedures.update_procedure (H := plain) db_one_procedure
                 admin_ana 1 new_price))).
  vm_compute. reflexivity.
Defined.

Lemma update_procedure_rejects_price_witness :
  ∃ e, Procedures.update_procedure (H := plain) db_one_procedure admin_ana 1
         infinite_price
       = Refused 400 e.
Proof.
  apply (update_procedure_rejects_price (H := plain) db_one_procedure
           admin_ana 1 infinite_price consulta "valor_plano").
  - reflexivity.
  - reflexivity.
  - reflexivity.
  - by left.
  - right. right. exists infinity. split; reflexivity.
Defined.

(** ** Patient creation on payloads of strings *)

Lemma for_each_checks {A} (l : list A) (body : A → () → stop + ()) :
  (∀ x, body x tt = inr tt ∨ ∃ e, body x tt = inl (StopRefused 400 e)) →
  for_each l body tt = inr tt
  ∨ ∃ e, for_each l body tt = inl (StopRefused 400 e).
Proof.
  intros Hbody. induction l as [|x l IH]; [by left|].
  cbn [for_each]. destruct (Hbody x) as [->|[e ->]]; [exact IH|].
  right. by exists e.
Qed.

(** X25: [POST /patients/] on a payload whose sixteen fields are strings, or
    absent, falsy or blank, never ends in an uncaught exception: it answers
    201 or 400. *)
Theorem create_patient_answers `{Collaborators} (db : DB) (today : date)
    (data : payload) :
  Forall (blank_or_string data) patient_fields →
  (∃ body db', Patients.create_patient db today data = Done 201 body db')
  ∨ (∃ e, Patients.create_patient db today data = Refused 400 e).
Proof.
  intros Hall.
  assert (Hresp : Forall (blank_or_string data)
                    ["resp_cpf"; "resp_nome"; "resp_data_nascimento";
                     "resp_email"; "resp_telefone"]).
  { unfold patient_fields in Hall. by apply Forall_app in Hall as [_ Hall]. }
  unfold Patients.create_patient. cbv zeta.
  destruct (for_each_checks Patients.required_fields
              (λ '(field, display_name) _,
                 refuse_if (Patients.missing_or_blank (get data field)) 400
                   ("Campo " ++ display_name
                    ++ " obrigatório e não pode ser vazio")))
    as [->|[e ->]]; [| |right; by exists e].
  { intros [field display_name].
    destruct (Patients.missing_or_blank _); [right; by eexists|by left]. }
  cbn [mbind stop_bind].
  destruct (any_row (λ p, String.eqb (Patient.cpf p) _) _);
    [right; by eexists|].
  cbn [refuse_if mbind stop_bind].
  destruct (any_row _ _); [right; by eexists|].
  cbn [refuse_if mbind stop_bind].
  destruct (Patients.parse_date _) as [e|pn]; [right; by eexists|].
  cbn [mbind stop_bind].
  destruct (Z.ltb _ 18).
  - match goal with
    | |- context [Patients.responsavel today data ?p] =>
        destruct (responsavel_strings today data p Hresp)
          as [[p' ->]|[e ->]]
    end; [left; by eexists _, _|right; by eexists].
  - left. by eexists _, _.
Qed.

Lemma create_patient_answers_witness :
  (∃ body db',
     Patients.create_patient (H := plain) empty_db today_2025 caio_payload
     = Done 201 body db')
  ∨ (∃ e, Patients.create_patient (H := plain) empty_db today_2025
            caio_payload
          = Refused 400 e).
Proof.
  apply (create_patient_answers (H := plain) empty_db today_2025
           caio_payload).
  unfold patient_fields, Patients.required_fields, Patients.rfields.
  cbn [fmap list_fmap fst app].
  repeat (apply Forall_cons_2; [right; eexists; vm_compute; reflexivity|]).
  apply Forall_nil_2.
Defined.

(** ** Registration *)

(** X16: [POST /auth/register] on a payload without [tipo] answers 400: the
    default ['default'] the handler reads is not what its loop over the
    required fields checks. *)
Theorem register_needs_tipo `{Collaborators} (db : DB) (data : payload) :
  data !! "tipo" = None →
  ∃ e, Auth.register db data = Refused 400 e.
Proof.
  intros Hnone.
  assert (Ht : get data "tipo" = VNone) by (unfold get; by rewrite Hnone).
  unfold Auth.register, Auth.required_fields. cbv zeta. cbn [for_each].
  destruct (is_valid_string (get data "email")); [|by eexists].
  cbn [negb refuse_if mbind stop_bind].
  destruct (is_valid_string (get data "nome")); [|by eexists].
  cbn [negb refuse_if mbind stop_bind].
  rewrite Ht. by eexists.
Qed.

Lemma register_needs_tipo_witness :
  ∃ e, Auth.register (H := plain) db_one_user new_user_payload
       = Refused 400 e.
Proof.
  apply (register_needs_tipo (H := plain) db_one_user new_user_payload).
  reflexivity.
Defined.
